(** * Weight-loss assistant: the chat orchestrator, the food classifier and
      the POST /chat handler

    A shallow embedding of [src/lib/doubao.ts] (the two API clients and the
    orchestrator [weightLossChat]) and of [src/app/api/chat/route.ts] (the
    POST handler), and the properties the specification states about them.

    Conventions of the embedding.
    - A JavaScript string is the list of its UTF-16 code units ([jsstring]).
      String literals of the source are written as Rocq string literals (UTF-8
      bytes) and converted by [js].
    - An interface of the source that describes a value the code builds is a
      record, an optional field an [option]. A value that comes from outside
      (the body of a request, the bodies the two services answer with, a
      line of a stream) is an unchecked JSON value ([JsonValue]), whatever
      interface the source casts it to: every read of it is written out, with
      the [TypeError] of a read on [null] or [undefined].
    - Code that can throw returns an [Outcome]. Code with effects runs in the
      monad [M], which threads the trace of the run: the requests sent with
      [fetch], the lines written to the console, and the calls one module
      makes on the singleton of another.
    - What the JavaScript runtime and the outside world supply (the part of
      Unicode's lowercase table that is not written out, [JSON.stringify],
      the conversions of a value that is not a primitive to a number or to a
      property key, the two upstream services, the environment, the clock) is
      a [Variable] of the section that uses it. *)

From Stdlib Require Import List NArith ZArith QArith Bool Lia String Ascii.
From Stdlib Require Import DecimalString.
Import ListNotations.

Open Scope N_scope.

(** ** JavaScript strings *)

Definition jsstring := list N.

(** The bytes of a Rocq string literal. *)
Fixpoint bytes (s : string) : list N :=
  match s with
  | EmptyString => []
  | String a s' => N_of_ascii a :: bytes s'
  end.

(** UTF-8 bytes to code points (the literals of this file are well-formed
    UTF-8; a truncated sequence is dropped). *)
Fixpoint utf8_decode (bs : list N) : list N :=
  match bs with
  | [] => []
  | b0 :: r0 =>
      if b0 <? 0x80 then b0 :: utf8_decode r0
      else
        match r0 with
        | [] => []
        | b1 :: r1 =>
            if b0 <? 0xE0 then
              ((b0 - 0xC0) * 64 + (b1 - 0x80)) :: utf8_decode r1
            else
              match r1 with
              | [] => []
              | b2 :: r2 =>
                  if b0 <? 0xF0 then
                    ((b0 - 0xE0) * 4096 + (b1 - 0x80) * 64 + (b2 - 0x80))
                      :: utf8_decode r2
                  else
                    match r2 with
                    | [] => []
                    | b3 :: r3 =>
                        ((b0 - 0xF0) * 262144 + (b1 - 0x80) * 4096
                         + (b2 - 0x80) * 64 + (b3 - 0x80))
                          :: utf8_decode r3
                    end
              end
        end
  end.

Definition isLeadingSurrogate (u : N) : bool := (0xD800 <=? u) && (u <=? 0xDBFF).
Definition isTrailingSurrogate (u : N) : bool := (0xDC00 <=? u) && (u <=? 0xDFFF).

(** ECMA-262 UTF16EncodeCodePoint. *)
Definition UTF16EncodeCodePoint (cp : N) : jsstring :=
  if cp <? 0x10000 then [cp]
  else [0xD800 + (cp - 0x10000) / 1024; 0xDC00 + (cp - 0x10000) mod 1024].

(** ECMA-262 CodePointsToString. *)
Definition CodePointsToString (cps : list N) : jsstring :=
  flat_map UTF16EncodeCodePoint cps.

Definition UTF16SurrogatePairToCodePoint (lead trail : N) : N :=
  (lead - 0xD800) * 1024 + (trail - 0xDC00) + 0x10000.

(** ECMA-262 StringToCodePoints: a surrogate pair is one code point, a lone
    surrogate is a code point of its own. *)
Fixpoint StringToCodePoints (s : jsstring) : list N :=
  match s with
  | [] => []
  | u :: rest =>
      match rest with
      | [] => [u]
      | v :: rest' =>
          if isLeadingSurrogate u && isTrailingSurrogate v
          then UTF16SurrogatePairToCodePoint u v :: StringToCodePoints rest'
          else u :: StringToCodePoints rest
      end
  end.

(** A source literal as a JavaScript string. *)
Definition js (s : string) : jsstring :=
  CodePointsToString (utf8_decode (bytes s)).

Definition jsstring_eqb (a b : jsstring) : bool :=
  if list_eq_dec N.eq_dec a b then true else false.

(** Truthiness of a string: the empty string is falsy. *)
Definition truthyString (s : jsstring) : bool :=
  match s with [] => false | _ :: _ => true end.

(** [s.startsWith(p)] at position 0. *)
Fixpoint startsWith (p s : jsstring) : bool :=
  match p, s with
  | [], _ => true
  | _ :: _, [] => false
  | c :: p', d :: s' => (c =? d) && startsWith p' s'
  end.

(** [s.includes(p)]: [p] occurs in [s] as a run of consecutive code units. *)
Fixpoint includes (s p : jsstring) : bool :=
  startsWith p s
  || match s with
     | [] => false
     | _ :: s' => includes s' p
     end.

(** ECMA-262 WhiteSpace and LineTerminator code units, which [trim] strips. *)
Definition isWhiteSpaceOrLineTerminator (u : N) : bool :=
  existsb (N.eqb u)
    [0x09; 0x0A; 0x0B; 0x0C; 0x0D; 0x20; 0xA0; 0x1680; 0x2028; 0x2029;
     0x202F; 0x205F; 0x3000; 0xFEFF]
  || ((0x2000 <=? u) && (u <=? 0x200A)).

Fixpoint trimStart (s : jsstring) : jsstring :=
  match s with
  | [] => []
  | u :: s' => if isWhiteSpaceOrLineTerminator u then trimStart s' else s
  end.

Definition trimEnd (s : jsstring) : jsstring := rev (trimStart (rev s)).

(** [s.trim()]. *)
Definition trim (s : jsstring) : jsstring := trimEnd (trimStart s).

(** ASCII letters A-Z to a-z. *)
Definition asciiToLower (c : N) : N :=
  if (0x41 <=? c) && (c <=? 0x5A) then c + 32 else c.

(** ** String.prototype.toLowerCase

    ECMA-262: the string's code points are mapped by Unicode's Default Case
    Conversion (UnicodeData.txt and the locale-insensitive part of
    SpecialCasing.txt) and encoded again. The mapping of one code point may
    depend on its context (Final_Sigma), so the table is a function of the
    code points before, the code point, and the code points after.

    The part of the table that the texts of this development touch is
    written out: an ASCII code point has its ASCII lowercase form in every
    context, and a CJK Unified Ideograph (U+4E00 to U+9FFF) is caseless. The
    rest of the table belongs to the runtime and is a parameter. *)

Definition isIdeograph (c : N) : bool := (0x4E00 <=? c) && (c <=? 0x9FFF).

Section ToLowerCase.

Variable lowerMapping : list N -> N -> list N -> list N.

Definition lowerCodePoint (before : list N) (c : N) (after : list N) : list N :=
  if c <? 0x80 then [asciiToLower c]
  else if isIdeograph c then [c]
  else lowerMapping before c after.

Fixpoint toLowercase (before cps : list N) : list N :=
  match cps with
  | [] => []
  | c :: after =>
      lowerCodePoint before c after ++ toLowercase (before ++ [c]) after
  end.

Definition toLowerCase (s : jsstring) : jsstring :=
  CodePointsToString (toLowercase [] (StringToCodePoints s)).

End ToLowerCase.

(** A table without case pairs, for the concrete runs below: with it
    [toLowerCase] is right on every text of ASCII and ideographs. *)
Definition caselessMapping (before : list N) (c : N) (after : list N) : list N :=
  [c].

(** ** Regular expressions

    The fragment of ECMAScript regular expressions the source uses, without
    flags: single code units, [.], a character class, [$], sequence,
    alternation, a capturing group, a non-capturing group, and the lazy [+?]
    over a single-unit atom. The matcher is the backtracking matcher of
    ECMA-262 in continuation-passing style. *)

Inductive atom :=
| Char (c : N)
| Dot
| Class (cs : list N).

Inductive regex :=
| Empty
| Atom (a : atom)
| EndOfInput
| Seq (r1 r2 : regex)
| Alt (r1 r2 : regex)
| Group (n : nat) (r : regex)
| NonCapture (r : regex)
| LazyPlus (a : atom).

(** ECMA-262 LineTerminator, which [.] does not match. *)
Definition isLineTerminator (u : N) : bool :=
  existsb (N.eqb u) [0x0A; 0x0D; 0x2028; 0x2029].

Definition atomMatches (a : atom) (u : N) : bool :=
  match a with
  | Char c => c =? u
  | Dot => negb (isLineTerminator u)
  | Class cs => existsb (N.eqb u) cs
  end.

Definition captures := list (nat * jsstring).

Fixpoint capture (n : nat) (caps : captures) : option jsstring :=
  match caps with
  | [] => None
  | (m, s) :: caps' => if Nat.eqb n m then Some s else capture n caps'
  end.

(** A continuation receives the rest of the input and the captures so far. *)
Definition Continuation := jsstring -> captures -> option (jsstring * captures).

(** [a+?]: one unit, then the continuation first, one more unit only when
    the continuation fails. *)
Fixpoint lazyPlus (a : atom) (k : Continuation) (s : jsstring) (caps : captures)
  : option (jsstring * captures) :=
  match s with
  | [] => None
  | u :: s' =>
      if atomMatches a u then
        match k s' caps with
        | Some m => Some m
        | None => lazyPlus a k s' caps
        end
      else None
  end.

Fixpoint matchRegex (r : regex) (k : Continuation) (s : jsstring) (caps : captures)
  : option (jsstring * captures) :=
  match r with
  | Empty => k s caps
  | Atom a =>
      match s with
      | [] => None
      | u :: s' => if atomMatches a u then k s' caps else None
      end
  | EndOfInput =>
      match s with
      | [] => k s caps
      | _ :: _ => None
      end
  | Seq r1 r2 => matchRegex r1 (fun s' caps' => matchRegex r2 k s' caps') s caps
  | Alt r1 r2 =>
      match matchRegex r1 k s caps with
      | Some m => Some m
      | None => matchRegex r2 k s caps
      end
  | Group n r =>
      matchRegex r
        (fun s' caps' =>
           k s' ((n, firstn (List.length s - List.length s') s) :: caps'))
        s caps
  | NonCapture r => matchRegex r k s caps
  | LazyPlus a => lazyPlus a k s caps
  end.

(** The result of [RegExp.prototype.exec]: where the match starts, the text
    matched ([match[0]]) and the groups. *)
Record MatchResult := {
  index : nat;
  matched : jsstring;
  groups : captures
}.

(** ECMA-262 RegExpBuiltinExec for a pattern that is neither global nor
    sticky: the first start position, from 0 up to the length, at which the
    matcher succeeds. *)
Fixpoint exec (r : regex) (i : nat) (s : jsstring) : option MatchResult :=
  match matchRegex r (fun s' caps => Some (s', caps)) s [] with
  | Some (s', caps) =>
      Some {| index := i;
              matched := firstn (List.length s - List.length s') s;
              groups := caps |}
  | None =>
      match s with
      | [] => None
      | _ :: s' => exec r (S i) s'
      end
  end.

(** [s.match(r)] for a pattern without the global flag. *)
Definition String_match (s : jsstring) (r : regex) : option MatchResult :=
  exec r 0 s.

(** A literal run of code units. *)
Fixpoint literal (s : jsstring) : regex :=
  match s with
  | [] => Empty
  | c :: s' => Seq (Atom (Char c)) (literal s')
  end.

(** ** DoubaoImageClient: the food classifier (doubao-image.ts) *)

Definition foodKeywords : list jsstring := map js [
  "米饭"; "rice"; "面条"; "noodles"; "饺子"; "dumplings"; "包子"; "steamed buns"; "馒头"; "bread";
  "面包"; "bread"; "汉堡"; "burger"; "披萨"; "pizza"; "意面"; "pasta"; "炒饭"; "fried rice"; "粥"; "congee";
  "鸡"; "chicken"; "牛肉"; "beef"; "猪肉"; "pork"; "羊肉"; "lamb"; "鱼"; "fish"; "虾"; "shrimp";
  "蟹"; "crab"; "海鲜"; "seafood"; "肉"; "meat"; "烤肉"; "barbecue"; "炸鸡"; "fried chicken"; "火锅"; "hotpot";
  "蔬菜"; "vegetables"; "沙拉"; "salad"; "菜"; "dish"; "青菜"; "greens"; "白菜"; "cabbage";
  "菠菜"; "spinach"; "西红柿"; "tomato"; "黄瓜"; "cucumber"; "土豆"; "potato"; "萝卜"; "radish";
  "水果"; "fruit"; "苹果"; "apple"; "香蕉"; "banana"; "橙子"; "orange"; "葡萄"; "grape";
  "草莓"; "strawberry"; "西瓜"; "watermelon"; "柠檬"; "lemon"; "芒果"; "mango";
  "蛋糕"; "cake"; "饼干"; "cookies"; "巧克力"; "chocolate"; "冰淇淋"; "ice cream"; "奶茶"; "milk tea";
  "咖啡"; "coffee"; "甜点"; "dessert"; "零食"; "snacks"; "薯片"; "chips"; "糖果"; "candy";
  "果汁"; "juice"; "饮料"; "drink"; "汽水"; "soda"; "茶"; "tea"; "牛奶"; "milk"; "豆浆"; "soy milk";
  "炒"; "stir-fry"; "煮"; "boil"; "蒸"; "steam"; "烤"; "bake"; "炸"; "fry"; "煎"; "pan-fry";
  "红烧"; "braise"; "麻辣"; "spicy"; "酸甜"; "sweet and sour"; "咸"; "salty"; "香辣"; "fragrant and spicy";
  "吃"; "eat"; "想吃"; "want to eat"; "食物"; "food"; "美食"; "delicious food"; "料理"; "cuisine";
  "餐"; "meal"; "早餐"; "breakfast"; "午餐"; "lunch"; "晚餐"; "dinner"; "宵夜"; "midnight snack";
  "小吃"; "snack"
]%string.

(** [(?:[，。！？]|$)] *)
Definition clauseEnd : regex :=
  NonCapture (Alt (Atom (Class (js "，。！？"))) EndOfInput).

(** [(.+?)] *)
Definition lazyGroup : regex := Group 1 (LazyPlus Dot).

Definition eatPatterns : list regex := [
  Seq (literal (js "想吃")) (Seq lazyGroup clauseEnd);   (* /想吃(.+?)(?:[，。！？]|$)/ *)
  Seq (literal (js "吃了")) (Seq lazyGroup clauseEnd);   (* /吃了(.+?)(?:[，。！？]|$)/ *)
  Seq (literal (js "吃")) (Seq lazyGroup clauseEnd);     (* /吃(.+?)(?:[，。！？]|$)/ *)
  Seq lazyGroup (literal (js "好吃"));                   (* /(.+?)好吃/ *)
  Seq lazyGroup (literal (js "想吃"))                    (* /(.+?)想吃/ *)
].

Section Classifier.

Variable lowerMapping : list N -> N -> list N -> list N.

(** [detectFoodKeywords]: some keyword, lowercased, occurs in the
    lowercased text. *)
Definition detectFoodKeywords (text : jsstring) : bool :=
  let lowerText := toLowerCase lowerMapping text in
  existsb (fun keyword => includes lowerText (toLowerCase lowerMapping keyword))
          foodKeywords.

(** The loop of [extractFoodDescription]: the first pattern that matches
    with a non-empty group 1 gives the result, trimmed. *)
Fixpoint firstEatPattern (patterns : list regex) (userMessage : jsstring)
  : option jsstring :=
  match patterns with
  | [] => None
  | pattern :: rest =>
      match String_match userMessage pattern with
      | Some m =>
          match capture 1 (groups m) with
          | Some g =>
              if truthyString g then Some (trim g)
              else firstEatPattern rest userMessage
          | None => firstEatPattern rest userMessage
          end
      | None => firstEatPattern rest userMessage
      end
  end.

(** [extractFoodDescription]. *)
Definition extractFoodDescription (userMessage : jsstring) : jsstring :=
  match firstEatPattern eatPatterns userMessage with
  | Some description => description
  | None =>
      if detectFoodKeywords userMessage then userMessage else []
  end.

End Classifier.

(** ** Values thrown, outcomes, events and the monad of effects *)

(** What a [throw] or a rejected promise carries: an instance of [Error]
    with its message, or some other value. *)
Inductive Thrown :=
| ErrorObject (message : jsstring)
| NonError.

Inductive Outcome (A : Type) :=
| Return (a : A)
| Throw (e : Thrown).

Arguments Return {A} a.
Arguments Throw {A} e.

(** ** JSON values *)

(** A JSON value, as [request.json()], [response.json()] and [JSON.parse]
    give it. [JObject] lists the properties of the object, each key once. *)
#[warnings="-register-all"]
Inductive JsonValue :=
| JNull
| JBool (b : bool)
| JNumber (n : Q)
| JString (s : jsstring)
| JArray (items : list JsonValue)
| JObject (properties : list (jsstring * JsonValue)).

Fixpoint lookupProperty (key : jsstring) (properties : list (jsstring * JsonValue))
  : option JsonValue :=
  match properties with
  | [] => None
  | (k, v) :: rest => if jsstring_eqb key k then Some v else lookupProperty key rest
  end.

(** [body.key] for a body that is not [null] and a key that no prototype
    defines ([message], [conversationHistory], [role], [choices], [content],
    [delta], [data], [url]): the property of an object, [undefined] ([None])
    on a boolean, a number, a string or an array. *)
Definition getProperty (body : JsonValue) (key : jsstring) : option JsonValue :=
  match body with
  | JObject properties => lookupProperty key properties
  | _ => None
  end.

(** A default in a destructuring pattern applies to [undefined] only. *)
Definition withDefault (v : option JsonValue) (d : JsonValue) : JsonValue :=
  match v with
  | Some x => x
  | None => d
  end.

(** ToBoolean on a JSON value or [undefined]. *)
Definition truthy (v : option JsonValue) : bool :=
  match v with
  | None => false
  | Some JNull => false
  | Some (JBool b) => b
  | Some (JNumber n) => negb (Qeq_bool n 0)
  | Some (JString s) => truthyString s
  | Some (JArray _) => true
  | Some (JObject _) => true
  end.

(** [typeof v === 'string']. *)
Definition isString (v : option JsonValue) : bool :=
  match v with
  | Some (JString _) => true
  | _ => false
  end.

(** [Array.isArray(v)]. *)
Definition isArray (v : JsonValue) : bool :=
  match v with
  | JArray _ => true
  | _ => false
  end.

Definition stringOf (v : option JsonValue) : jsstring :=
  match v with
  | Some (JString s) => s
  | _ => []
  end.

Definition itemsOf (v : JsonValue) : list JsonValue :=
  match v with
  | JArray items => items
  | _ => []
  end.

(** [v[0]] for a JSON value that is not [null]: the first element of an
    array, the first code unit of a string, the property [0] of an object. *)
Definition getIndex0 (v : JsonValue) : option JsonValue :=
  match v with
  | JArray items => hd_error items
  | JString (u :: _) => Some (JString [u])
  | JObject properties => lookupProperty (js "0") properties
  | _ => None
  end.

(** Reading a property of [undefined] or of [null] throws a [TypeError]
    (the texts of the messages are the engine's). *)
Definition cannotRead (what key : string) : Thrown :=
  ErrorObject
    (js (String.append "Cannot read properties of "
           (String.append what
              (String.append " (reading '" (String.append key "')"))))).

(** [v.key], for the keys of [getProperty]. *)
Definition readProperty (v : option JsonValue) (key : string)
  : Outcome (option JsonValue) :=
  match v with
  | None => Throw (cannotRead "undefined" key)
  | Some JNull => Throw (cannotRead "null" key)
  | Some x => Return (getProperty x (js key))
  end.

(** [v.length]: the number of code units of a string, the number of elements
    of an array, the property [length] of an object. *)
Definition readLength (v : option JsonValue) : Outcome (option JsonValue) :=
  match v with
  | None => Throw (cannotRead "undefined" "length")
  | Some JNull => Throw (cannotRead "null" "length")
  | Some (JString s) => Return (Some (JNumber (inject_Z (Z.of_nat (List.length s)))))
  | Some (JArray items) =>
      Return (Some (JNumber (inject_Z (Z.of_nat (List.length items)))))
  | Some (JObject properties) => Return (lookupProperty (js "length") properties)
  | Some _ => Return None
  end.

(** [v[0]]. *)
Definition readIndex0 (v : option JsonValue) : Outcome (option JsonValue) :=
  match v with
  | None => Throw (cannotRead "undefined" "0")
  | Some JNull => Throw (cannotRead "null" "0")
  | Some x => Return (getIndex0 x)
  end.

(** Sequencing of steps that may throw and have no other effect. *)
Definition andThen {A B} (o : Outcome A) (k : A -> Outcome B) : Outcome B :=
  match o with
  | Return a => k a
  | Throw e => Throw e
  end.

(** *** Data of doubao.ts *)

Inductive Role := system | user | assistant.

(** One part of a structured content:
    [{ type: string; text?: string; image_url?: { url: string } }]. *)
Record ContentPart := {
  part_type : jsstring;
  part_text : option jsstring;
  part_image_url : option jsstring
}.

(** The content of a message: [string | Array<...>] as declared. [Inherited]
    is not a declared alternative: it is a member of [Object.prototype], which
    the lookup [systemPrompts[role]] yields for a key such as [constructor]. *)
Inductive MessageContent :=
| Text (s : jsstring)
| Parts (ps : list ContentPart)
| Inherited (key : jsstring).

(** [interface ChatMessage]. *)
Record ChatMessage := {
  role : Role;
  content : MessageContent
}.

Inductive ThinkingType := enabled | disabled.

(** [interface ChatCompletionRequest]; an optional field that is absent is
    [None]. *)
Record ChatCompletionRequest := {
  req_messages : list ChatMessage;
  req_model : option jsstring;
  req_temperature : option Q;
  req_max_tokens : option Z;
  req_stream : option bool;
  req_thinking : option ThinkingType
}.

(** [interface ChatCompletionResponse] is only the target of a cast
    ([return data as ChatCompletionResponse], line 92): what
    [chatCompletion] returns is whatever JSON value the service sent. *)
Definition ChatCompletionResponse : Type := JsonValue.

(** The object [chatCompletion] hands to [JSON.stringify] as the body. *)
Record ChatCompletionBody := {
  body_model : jsstring;
  body_messages : list ChatMessage;
  body_temperature : Q;
  body_max_tokens : Z;
  body_stream : bool;
  body_thinking : ThinkingType
}.

(** *** Data of doubao-image.ts *)

Inductive ResponseFormat := format_url | format_b64_json.
Inductive ImageSize := size_2K | size_1K | size_512.
Inductive SequentialMode := sequential_auto | sequential_manual.

Record SequentialOptions := {
  max_images : option Z
}.

(** [interface ImageGenerationRequest]. *)
Record ImageGenerationRequest := {
  img_prompt : jsstring;
  img_model : option jsstring;
  img_image : option (list jsstring);
  img_response_format : option ResponseFormat;
  img_size : option ImageSize;
  img_stream : option bool;
  img_watermark : option bool;
  img_sequential_image_generation : option SequentialMode;
  img_sequential_image_generation_options : option SequentialOptions
}.

(** [interface ImageGenerationResponse] is only an annotation on
    [await response.json()] (line 382): the value is whatever JSON value the
    service sent. *)
Definition ImageGenerationResponse : Type := JsonValue.

(** *** fetch *)

(** The second argument of [fetch]; [init_body] is the value given to
    [JSON.stringify]. *)
Record FetchInit (B : Type) := {
  init_method : jsstring;
  init_headers : list (jsstring * jsstring);
  init_body : B
}.

Arguments init_method {B} _.
Arguments init_headers {B} _.
Arguments init_body {B} _.

(** What [fetch] resolves to. [text] and [json] read the body: either can
    reject, [json] when the body is not JSON. *)
Record HttpResponse (T : Type) := {
  status : N;
  statusText : jsstring;
  text : Outcome jsstring;
  json : Outcome T
}.

Arguments status {T} _.
Arguments statusText {T} _.
Arguments text {T} _.
Arguments json {T} _.

(** [response.ok]: the status is in the range 200-299. *)
Definition ok {T} (response : HttpResponse T) : bool :=
  (200 <=? status response) && (status response <=? 299).

(** *** Events *)

Inductive ConsoleLevel := LOG | WARN | ERROR.

(** The methods one module calls on the singleton of another: route.ts on
    [doubaoClient], doubao.ts on [doubaoImageClient]. *)
Inductive Method :=
| weightLossChat_method
| extractFoodDescription_method
| detectFoodKeywords_method
| generateFoodImage_method.

(** What a run does that the outside can see. A console event keeps the
    first argument of the call. *)
Inductive Event :=
| Console (level : ConsoleLevel) (label : jsstring)
| Call (m : Method)
| FetchCompletion (target : jsstring) (init : FetchInit ChatCompletionBody)
| FetchImage (target : jsstring) (init : FetchInit ImageGenerationRequest).

(** The events of a run, the latest first. *)
Definition Trace := list Event.

(** *** The monad: a trace threaded through code that may throw *)

Definition M (A : Type) : Type := Trace -> Outcome A * Trace.

Definition ret {A} (a : A) : M A := fun t => (Return a, t).

Definition throw {A} (e : Thrown) : M A := fun t => (Throw e, t).

Definition bind {A B} (m : M A) (f : A -> M B) : M B :=
  fun t =>
    match m t with
    | (Return a, t') => f a t'
    | (Throw e, t') => (Throw e, t')
    end.

(** [try { body } catch (e) { handler e }]. *)
Definition tryCatch {A} (body : M A) (handler : Thrown -> M A) : M A :=
  fun t =>
    match body t with
    | (Return a, t') => (Return a, t')
    | (Throw e, t') => handler e t'
    end.

Definition emit (e : Event) : M unit := fun t => (Return tt, e :: t).

(** [await p] for a promise that is already settled. *)
Definition await {A} (o : Outcome A) : M A := fun t => (o, t).

Definition console_log (label : string) : M unit := emit (Console LOG (js label)).
Definition console_warn (label : string) : M unit := emit (Console WARN (js label)).
Definition console_error (label : string) : M unit := emit (Console ERROR (js label)).

Declare Scope js_scope.
Delimit Scope js_scope with js.
Notation "x <- m ;; k" := (bind m (fun x => k))
  (at level 61, m at next level, right associativity) : js_scope.
Notation "m ;; k" := (bind m (fun _ => k))
  (at level 61, right associativity) : js_scope.
Open Scope js_scope.

(** *** Operands of [||] and decimal numbers *)

(** [x || d] by the type of [x]: an absent field, an empty string, zero and
    [false] are falsy. *)
Definition orString (x : option jsstring) (d : jsstring) : jsstring :=
  match x with
  | Some s => if truthyString s then s else d
  | None => d
  end.

Definition orNumber (x : option Q) (d : Q) : Q :=
  match x with
  | Some q => if Qeq_bool q 0 then d else q
  | None => d
  end.

Definition orInteger (x : option Z) (d : Z) : Z :=
  match x with
  | Some z => if (z =? 0)%Z then d else z
  | None => d
  end.

Definition orBool (x : option bool) (d : bool) : bool :=
  match x with
  | Some true => true
  | _ => d
  end.

Definition orThinking (x : option ThinkingType) (d : ThinkingType) : ThinkingType :=
  match x with
  | Some t => t
  | None => d
  end.

(** A status code in a template literal: its decimal digits. *)
Definition NumberToString (n : N) : jsstring :=
  js (NilEmpty.string_of_uint (N.to_uint n)).

(** ** The clients *)

(** [process.env], as far as the source reads it. *)
Record Env := {
  DOUBAO_API_KEY : option jsstring;
  DOUBAO_API_BASE_URL : option jsstring;
  DOUBAO_MODEL : option jsstring;
  NODE_ENV : option jsstring
}.

(** The private fields of [DoubaoClient]. *)
Record DoubaoClient := {
  apiKey : jsstring;
  baseURL : jsstring;
  defaultModel : jsstring
}.

(** The private fields of [DoubaoImageClient]. *)
Record DoubaoImageClient := {
  image_apiKey : jsstring;
  image_baseURL : jsstring;
  image_defaultModel : jsstring
}.

(** [new DoubaoClient()]. *)
Definition DoubaoClient_constructor (env : Env) : M DoubaoClient :=
  let this := {|
    apiKey := orString (DOUBAO_API_KEY env) [];
    baseURL := orString (DOUBAO_API_BASE_URL env)
                 (js "https://ark.cn-beijing.volces.com/api/v3");
    defaultModel := orString (DOUBAO_MODEL env) (js "doubao-seed-1-6-flash-250615")
  |} in
  (if negb (truthyString (apiKey this))
   then console_warn "豆包API key not configured. Please set DOUBAO_API_KEY in your environment variables."
   else ret tt) ;;
  ret this.

(** [new DoubaoImageClient()]. *)
Definition DoubaoImageClient_constructor (env : Env) : M DoubaoImageClient :=
  let this := {|
    image_apiKey := orString (DOUBAO_API_KEY env) [];
    image_baseURL := orString (DOUBAO_API_BASE_URL env)
                       (js "https://ark.cn-beijing.volces.com/api/v3");
    image_defaultModel := js "doubao-seedream-4-0-250828"
  |} in
  (if negb (truthyString (image_apiKey this))
   then console_warn "豆包图片生成API key not configured. Please set DOUBAO_API_KEY in your environment variables."
   else ret tt) ;;
  ret this.

(** The three own properties of the object literal [systemPrompts]. *)
Definition supportive_friend : jsstring := js "你是一个温暖、支持的朋友，正在帮助用户进行减肥之旅。你的特点是：
- 鼓励性和积极性
- 提供实用的减肥建议
- 关注健康而不是体重数字
- 给予情感支持
- 使用亲切、友善的语气
- 在适当的时候使用鼓励的表情符号".

Definition nutritionist : jsstring := js "你是一名专业的营养师，专门帮助用户制定健康的饮食计划。你的特点是：
- 提供科学、准确的营养建议
- 制定合理的饮食计划
- 解释食物的营养价值
- 给出健康食谱建议
- 专业但不失亲和力".

Definition fitness_trainer : jsstring := js "你是一名专业的健身教练，帮助用户制定运动计划。你的特点是：
- 提供专业的运动指导
- 制定适合的运动计划
- 解释动作要点和注意事项
- 鼓励用户坚持运动
- 关注运动安全和效果".

(** The own properties of [Object.prototype] (ECMA-262 20.1.3 and B.2.2),
    which every object literal inherits. Each is a function, or for
    [__proto__] the prototype object: all are truthy. *)
Definition ObjectPrototypeKeys : list jsstring := map js [
  "constructor"; "hasOwnProperty"; "isPrototypeOf"; "propertyIsEnumerable";
  "toLocaleString"; "toString"; "valueOf"; "__proto__";
  "__defineGetter__"; "__defineSetter__"; "__lookupGetter__"; "__lookupSetter__"
]%string.

(** [systemPrompts[role]]: an own property, else a property of the
    prototype, else [undefined] ([None]). *)
Definition systemPrompts (key : jsstring) : option MessageContent :=
  if jsstring_eqb key (js "supportive_friend") then Some (Text supportive_friend)
  else if jsstring_eqb key (js "nutritionist") then Some (Text nutritionist)
  else if jsstring_eqb key (js "fitness_trainer") then Some (Text fitness_trainer)
  else if existsb (jsstring_eqb key) ObjectPrototypeKeys then Some (Inherited key)
  else None.

Definition truthyContent (c : MessageContent) : bool :=
  match c with
  | Text s => truthyString s
  | Parts _ => true
  | Inherited _ => true
  end.

(** [systemPrompts[role] || systemPrompts.supportive_friend]. *)
Definition systemPromptFor (role : jsstring) : MessageContent :=
  match systemPrompts role with
  | Some c => if truthyContent c then c else Text supportive_friend
  | None => Text supportive_friend
  end.

(** The [messages] array of [weightLossChat]. *)
Definition assembleMessages (role : jsstring) (conversationHistory : list ChatMessage)
    (userMessage : jsstring) : list ChatMessage :=
  [{| role := system; content := systemPromptFor role |}]
  ++ conversationHistory
  ++ [{| role := user; content := Text userMessage |}].

(** [buildFoodPrompt]. *)
Definition buildFoodPrompt (foodDescription : jsstring) : jsstring :=
  js "Generate a high-quality, appetizing food photograph of: "
  ++ foodDescription
  ++ js "

Requirements:
- Make the food look delicious and professionally photographed
- Use warm, appetizing lighting
- Style: Food photography, restaurant menu quality
- Background: Clean, simple, food-related background
- Colors: Natural, realistic food colors
- Composition: Centered, well-lit, appetizing presentation
- No text, watermarks (except the default API watermark), or signatures
- Focus on making the food look tasty and appealing

The image should be suitable for a food blog or restaurant menu and make viewers want to eat this food.".

(** The request [weightLossChat] gives to [chatCompletion]. *)
Definition weightLossRequest (messages : list ChatMessage) : ChatCompletionRequest := {|
  req_messages := messages;
  req_model := None;
  req_temperature := Some (8 # 10);
  req_max_tokens := Some 1500%Z;
  req_stream := None;
  req_thinking := Some enabled
|}.

(** What [weightLossChat] returns, declared
    [{ content: string; images?: string[] }]. The content taken from the
    response of the service is [undefined] ([None]) when the first choice has
    a message without [content], and the images are whatever truthy [url]
    values the image service sent. *)
Record ChatResult := {
  result_content : option jsstring;
  result_images : option (list JsonValue)
}.

Definition fallbackReply : jsstring := js "抱歉，我现在无法回应。请稍后再试。".

Definition apologyReply : jsstring :=
  js "抱歉，遇到了一些技术问题。请稍后再试，或者联系开发者获得帮助。".

(** ** Data of route.ts *)

(** The request, as far as the handler reads it: [await request.json()]
    gives the decoded body or rejects. *)
Record NextRequest := {
  request_json : Outcome JsonValue
}.

(** The three objects the handler gives to [NextResponse.json]. *)
Inductive ResponsePayload :=
| ErrorPayload (error : jsstring)
| ChatPayload (success : bool) (response : option jsstring)
    (images : option (list JsonValue)) (timestamp : jsstring)
| FailurePayload (success : bool) (error : jsstring) (details : option jsstring).

Record NextResponse := {
  response_status : N;
  response_payload : ResponsePayload
}.

(** The [error] field of a payload, when it has one. *)
Definition errorField (p : ResponsePayload) : option jsstring :=
  match p with
  | ErrorPayload e => Some e
  | ChatPayload _ _ _ _ => None
  | FailurePayload _ e _ => Some e
  end.

(** ** The methods that reach the network, and the orchestrator *)

Section Runtime.

(** The rest of Unicode's lowercase table (see [toLowerCase]). *)
Variable lowerMapping : list N -> N -> list N -> list N.

(** [JSON.stringify] on a content that is not a string and not
    [undefined]: for a JSON value it always gives a string. *)
Variable JSON_stringify : JsonValue -> jsstring.

(** [x > 0] for a string, an array or an object [x]: ToPrimitive, then
    StringToNumber; it throws where ToPrimitive finds no primitive. *)
Variable isPositive : JsonValue -> Outcome bool.

(** The two upstream services: what [fetch] settles to, given what has
    happened so far, the address and the request. *)
Variable completionEndpoint :
  Trace -> jsstring -> FetchInit ChatCompletionBody ->
  Outcome (HttpResponse ChatCompletionResponse).
Variable imageEndpoint :
  Trace -> jsstring -> FetchInit ImageGenerationRequest ->
  Outcome (HttpResponse ImageGenerationResponse).

(** The module-level singletons of doubao-image.ts and doubao.ts. *)
Variable doubaoImageClient : DoubaoImageClient.
Variable doubaoClient : DoubaoClient.

(** [process.env] and [new Date().toISOString()]. *)
Variable env : Env.
Variable clock : Trace -> jsstring.

(** The cast [conversationHistory as ChatMessage[]] of the handler checks
    nothing: how the entries of the request are seen as messages is left
    open. *)
Variable asChatMessages : list JsonValue -> list ChatMessage.

(** ToPropertyKey on a [role] of the request that is not a string (the
    handler does not check it, and [systemPrompts[role]] converts it): a
    [TypeError] where ToPrimitive finds no primitive, as for the role
    [{ toString: null }]. *)
Variable ToPropertyKey : JsonValue -> Outcome jsstring.

Definition fetchCompletion (target : jsstring) (init : FetchInit ChatCompletionBody)
  : M (HttpResponse ChatCompletionResponse) :=
  fun t => (completionEndpoint t target init, FetchCompletion target init :: t).

Definition fetchImage (target : jsstring) (init : FetchInit ImageGenerationRequest)
  : M (HttpResponse ImageGenerationResponse) :=
  fun t => (imageEndpoint t target init, FetchImage target init :: t).

(** [DoubaoClient.chatCompletion]. *)
Definition chatCompletion (this : DoubaoClient) (request : ChatCompletionRequest)
  : M ChatCompletionResponse :=
  if negb (truthyString (apiKey this)) then
    throw (ErrorObject (js "豆包API key not configured"))
  else
    tryCatch
      (response <-
         fetchCompletion (baseURL this ++ js "/chat/completions") {|
           init_method := js "POST";
           init_headers := [
             (js "Content-Type", js "application/json");
             (js "Authorization", js "Bearer " ++ apiKey this)
           ];
           init_body := {|
             body_model := orString (req_model request) (defaultModel this);
             body_messages := req_messages request;
             body_temperature := orNumber (req_temperature request) (7 # 10);
             body_max_tokens := orInteger (req_max_tokens request) 2000;
             body_stream := orBool (req_stream request) false;
             body_thinking := orThinking (req_thinking request) disabled
           |}
         |} ;;
       if negb (ok response) then
         errorText <- await (text response) ;;
         console_error "豆包API错误响应:" ;;
         throw (ErrorObject
                  (js "豆包API error: " ++ NumberToString (status response)
                   ++ js " " ++ statusText response ++ js " - " ++ errorText))
       else
         data <- await (json response) ;;
         ret data)
      (fun error =>
         console_error "Error calling 豆包API:" ;;
         throw error).

(** [x > 0] for a JSON value or [undefined]. *)
Definition greaterThanZero (v : option JsonValue) : Outcome bool :=
  match v with
  | None => Return false
  | Some JNull => Return false
  | Some (JBool b) => Return b
  | Some (JNumber n) => Return (negb (Qle_bool n 0))
  | Some x => isPositive x
  end.

(** The callback of [forEach]: [if (item.url) imageUrls.push(item.url)]. *)
Definition pushUrl (item : JsonValue) : Outcome (list JsonValue) :=
  andThen (readProperty (Some item) "url")
    (fun url =>
       Return
         match url with
         | Some u => if truthy (Some u) then [u] else []
         | None => []
         end).

Fixpoint forEachUrl (items : list JsonValue) : Outcome (list JsonValue) :=
  match items with
  | [] => Return []
  | item :: rest =>
      andThen (pushUrl item)
        (fun pushed => andThen (forEachUrl rest) (fun more => Return (pushed ++ more)))
  end.

(** The lines that fill [imageUrls] in [generateFoodImage]:
    [if (data.data && data.data.length > 0) data.data.forEach(...)]. Only an
    array has a [forEach]. *)
Definition collectUrls (data : JsonValue) : Outcome (list JsonValue) :=
  andThen (readProperty (Some data) "data")
    (fun entries =>
       if truthy entries then
         andThen (readLength entries)
           (fun length =>
              andThen (greaterThanZero length)
                (fun positive =>
                   if positive then
                     match entries with
                     | Some (JArray items) => forEachUrl items
                     | _ => Throw (ErrorObject (js "data.data.forEach is not a function"))
                     end
                   else Return []))
       else Return []).

(** [DoubaoImageClient.generateFoodImage]. *)
Definition generateFoodImage (this : DoubaoImageClient) (foodDescription : jsstring)
  : M (list JsonValue) :=
  if negb (truthyString (image_apiKey this)) then
    throw (ErrorObject (js "豆包图片生成API key not configured"))
  else
    tryCatch
      (let foodPrompt := buildFoodPrompt foodDescription in
       let requestData := {|
         img_model := Some (image_defaultModel this);
         img_prompt := foodPrompt;
         img_image := None;
         img_response_format := Some format_url;
         img_size := Some size_2K;
         img_stream := Some false;
         img_watermark := Some true;
         img_sequential_image_generation := Some sequential_auto;
         img_sequential_image_generation_options := Some {| max_images := Some 1%Z |}
       |} in
       console_log "=== 豆包图片生成请求 ===" ;;
       console_log "食物描述:" ;;
       console_log "生成提示词:" ;;
       console_log "========================" ;;
       response <-
         fetchImage (image_baseURL this ++ js "/images/generations") {|
           init_method := js "POST";
           init_headers := [
             (js "Content-Type", js "application/json");
             (js "Authorization", js "Bearer " ++ image_apiKey this)
           ];
           init_body := requestData
         |} ;;
       if negb (ok response) then
         errorText <- await (text response) ;;
         console_error "豆包图片生成API错误响应:" ;;
         throw (ErrorObject
                  (js "豆包图片生成API error: " ++ NumberToString (status response)
                   ++ js " " ++ statusText response ++ js " - " ++ errorText))
       else
         data <- await (json response) ;;
         imageUrls <- await (collectUrls data) ;;
         console_log "=== 豆包图片生成结果 ===" ;;
         console_log "生成图片数量:" ;;
         console_log "图片URLs:" ;;
         console_log "========================" ;;
         ret imageUrls)
      (fun error =>
         console_error "Error generating food image:" ;;
         console_error "=== 豆包图片生成错误信息 ===" ;;
         (match error with
          | ErrorObject _ => console_error "错误消息:"
          | NonError => ret tt
          end) ;;
         console_error "食物描述:" ;;
         console_error "========================" ;;
         throw error).

(** The image step of [weightLossChat]: the [let images = []] and the [if]
    that may fill it. *)
Definition foodImages (userMessage foodDescription : jsstring) : M (list JsonValue) :=
  if truthyString foodDescription then
    emit (Call detectFoodKeywords_method) ;;
    if detectFoodKeywords lowerMapping userMessage then
      tryCatch
        (console_log "检测到食物相关内容，开始生成图片..." ;;
         emit (Call generateFoodImage_method) ;;
         images <- generateFoodImage doubaoImageClient foodDescription ;;
         console_log "图片生成成功，数量:" ;;
         ret images)
        (fun imageError =>
           console_error "图片生成失败:" ;;
           ret [])
    else ret []
  else ret [].

(** [typeof content === 'string' ? content : JSON.stringify(content)];
    [JSON.stringify(undefined)] is [undefined]. *)
Definition textOf (content : option JsonValue) : option jsstring :=
  match content with
  | Some (JString s) => Some s
  | Some v => Some (JSON_stringify v)
  | None => None
  end.

(** [response.choices && response.choices.length > 0]. *)
Definition hasChoices (response : JsonValue) : Outcome bool :=
  andThen (readProperty (Some response) "choices")
    (fun choices =>
       if truthy choices then andThen (readLength choices) greaterThanZero
       else Return false).

(** [response.choices[0].message.content]. *)
Definition firstContent (response : JsonValue) : Outcome (option JsonValue) :=
  andThen (readProperty (Some response) "choices")
    (fun choices =>
       andThen (readIndex0 choices)
         (fun choice =>
            andThen (readProperty choice "message")
              (fun message => readProperty message "content"))).

(** [DoubaoClient.weightLossChat]. *)
Definition weightLossChat (this : DoubaoClient) (userMessage : jsstring)
    (conversationHistory : list ChatMessage) (role : jsstring) : M ChatResult :=
  let messages := assembleMessages role conversationHistory userMessage in
  tryCatch
    (response <- chatCompletion this (weightLossRequest messages) ;;
     chosen <- await (hasChoices response) ;;
     if chosen then
       content <- await (firstContent response) ;;
       let textContent := textOf content in
       emit (Call extractFoodDescription_method) ;;
       let foodDescription := extractFoodDescription lowerMapping userMessage in
       images <- foodImages userMessage foodDescription ;;
       ret {| result_content := textContent;
              result_images :=
                if (0 <? List.length images)%nat then Some images else None |}
     else
       ret {| result_content := Some fallbackReply; result_images := None |})
    (fun error =>
       console_error "Error in weight loss chat:" ;;
       console_error "=== 豆包API错误信息 ===" ;;
       (match error with
        | ErrorObject _ => console_error "错误消息:"
        | NonError => ret tt
        end) ;;
       console_error "用户消息:" ;;
       console_error "角色模式:" ;;
       console_error "对话历史长度:" ;;
       console_error "========================" ;;
       ret {| result_content := Some apologyReply; result_images := None |}).

(** *** route.ts *)

(** [const { message, conversationHistory = [], role = 'supportive_friend' } = body]:
    a [TypeError] when the body is [null] (the text of the message is the
    engine's). *)
Definition destructure (body : JsonValue)
  : M (option JsonValue * JsonValue * JsonValue) :=
  match body with
  | JNull =>
      throw (ErrorObject
               (js "Cannot destructure property 'message' of 'body' as it is null."))
  | _ =>
      ret (getProperty body (js "message"),
           withDefault (getProperty body (js "conversationHistory")) (JArray []),
           withDefault (getProperty body (js "role")) (JString (js "supportive_friend")))
  end.

(** The key that [systemPrompts[role]] looks up (line 202, the first
    statement of [weightLossChat] that reads [role], before its [try]). *)
Definition roleKey (role : JsonValue) : Outcome jsstring :=
  match role with
  | JString s => Return s
  | _ => ToPropertyKey role
  end.

(** [doubaoClient.weightLossChat(message, conversationHistory, role)] as the
    handler calls it. The parameter [role] is declared a string, but the
    handler passes what the body holds: the lookup [systemPrompts[role]]
    converts it to a property key, and a conversion that throws leaves
    [weightLossChat], since it is not inside its [try]. *)
Definition weightLossChat_unchecked (this : DoubaoClient) (userMessage : jsstring)
    (conversationHistory : list ChatMessage) (role : JsonValue) : M ChatResult :=
  key <- await (roleKey role) ;;
  weightLossChat this userMessage conversationHistory key.

Definition toISOString_now : M jsstring := fun t => (Return (clock t), t).

(** [export async function POST(request)]. *)
Definition POST (request : NextRequest) : M NextResponse :=
  tryCatch
    (body <- await (request_json request) ;;
     fields <- destructure body ;;
     let '(message, conversationHistory, role) := fields in
     if negb (truthy message) || negb (isString message) then
       ret {| response_status := 400;
              response_payload := ErrorPayload (js "Invalid message parameter") |}
     else if negb (isArray conversationHistory) then
       ret {| response_status := 400;
              response_payload :=
                ErrorPayload (js "Invalid conversationHistory parameter") |}
     else
       emit (Call weightLossChat_method) ;;
       response <-
         weightLossChat_unchecked doubaoClient (stringOf message)
           (asChatMessages (itemsOf conversationHistory)) role ;;
       timestamp <- toISOString_now ;;
       ret {| response_status := 200;
              response_payload :=
                ChatPayload true (result_content response)
                  (result_images response) timestamp |})
    (fun error =>
       console_error "Chat API error:" ;;
       let errorMessage :=
         match error with
         | ErrorObject message => message
         | NonError => js "Unknown error occurred"
         end in
       ret {| response_status := 500;
              response_payload :=
                FailurePayload false (js "Failed to process chat request")
                  (match NODE_ENV env with
                   | Some mode =>
                       if jsstring_eqb mode (js "development")
                       then Some errorMessage else None
                   | None => None
                   end) |}).

End Runtime.

(** ** The rest of doubao.ts and route.ts: status, health check, streaming *)

(** What [getStatus()] of either client returns. *)
Record ClientStatus := {
  configured : bool;
  status_baseURL : jsstring;
  status_model : jsstring;
  hasKey : bool
}.

(** [DoubaoClient.getStatus]: [!!this.apiKey] and [this.apiKey.length > 0]. *)
Definition DoubaoClient_getStatus (this : DoubaoClient) : ClientStatus := {|
  configured := truthyString (apiKey this);
  status_baseURL := baseURL this;
  status_model := defaultModel this;
  hasKey := (0 <? List.length (apiKey this))%nat
|}.

(** [DoubaoImageClient.getStatus]. *)
Definition DoubaoImageClient_getStatus (this : DoubaoImageClient) : ClientStatus := {|
  configured := truthyString (image_apiKey this);
  status_baseURL := image_baseURL this;
  status_model := image_defaultModel this;
  hasKey := (0 <? List.length (image_apiKey this))%nat
|}.

(** The object the health check gives to [NextResponse.json]. *)
Record HealthPayload := {
  health_status : jsstring;
  health_service : jsstring;
  health_api : jsstring;
  apiConfigured : bool;
  apiModel : jsstring;
  health_timestamp : jsstring
}.

(** The response of the health check; [NextResponse.json] without an
    [init] answers with status 200. *)
Record HealthResponse := {
  health_response_status : N;
  health_response_payload : HealthPayload
}.

(** [s.split('\n')]: the pieces between line feeds, at least one. *)
Fixpoint splitLines (s : jsstring) : list jsstring :=
  match s with
  | [] => [[]]
  | u :: s' =>
      if u =? 0x0A then [] :: splitLines s'
      else
        match splitLines s' with
        | [] => [[u]]
        | line :: lines => (u :: line) :: lines
        end
  end.

(** One step [?.] of an optional chain: [undefined] on [undefined] and on
    [null], the access otherwise. *)
Definition optionalChain (access : JsonValue -> option JsonValue)
    (v : option JsonValue) : option JsonValue :=
  match v with
  | None => None
  | Some JNull => None
  | Some x => access x
  end.

(** [parsed.choices?.[0]?.delta?.content]: the first access is not
    optional and throws a [TypeError] on [null] (the text of the message is
    the engine's). *)
Definition deltaContent (parsed : JsonValue) : Outcome (option JsonValue) :=
  match parsed with
  | JNull =>
      Throw (ErrorObject (js "Cannot read properties of null (reading 'choices')"))
  | _ =>
      Return
        (optionalChain (fun delta => getProperty delta (js "content"))
           (optionalChain (fun choice => getProperty choice (js "delta"))
              (optionalChain getIndex0 (getProperty parsed (js "choices")))))
  end.

(** What the stream of a response body gives to the loop of
    [chatCompletionStream]: each [chunk] is the text that
    [decoder.decode(value, { stream: true })] makes of one [reader.read()];
    the reader ends with [done] or rejects. *)
Inductive Reading :=
| ReadDone
| ReadError (e : Thrown)
| ReadChunk (chunk : jsstring) (rest : Reading).

(** What [fetch] resolves to, for a caller that reads the body as a
    stream; [stream_body] is [response.body], which may be [null]. *)
Record StreamingResponse := {
  stream_status : N;
  stream_statusText : jsstring;
  stream_text : Outcome jsstring;
  stream_body : option Reading
}.

Definition stream_ok (response : StreamingResponse) : bool :=
  (200 <=? stream_status response) && (stream_status response <=? 299).

(** *** The monad of an async generator read to its end: the values it
    yields, in order, beside the outcome and the trace *)

Definition G (A : Type) : Type := Trace -> list JsonValue * Outcome A * Trace.

Definition gret {A} (a : A) : G A := fun t => ([], Return a, t).

Definition gthrow {A} (e : Thrown) : G A := fun t => ([], Throw e, t).

Definition gyield (v : JsonValue) : G unit := fun t => ([v], Return tt, t).

Definition gbind {A B} (m : G A) (f : A -> G B) : G B :=
  fun t =>
    match m t with
    | (ys, Return a, t') =>
        match f a t' with
        | (ys', o, t'') => (ys ++ ys', o, t'')
        end
    | (ys, Throw e, t') => (ys, Throw e, t')
    end.

Definition gtryCatch {A} (body : G A) (handler : Thrown -> G A) : G A :=
  fun t =>
    match body t with
    | (ys, Return a, t') => (ys, Return a, t')
    | (ys, Throw e, t') =>
        match handler e t' with
        | (ys', o, t'') => (ys ++ ys', o, t'')
        end
    end.

(** A step that yields nothing. *)
Definition glift {A} (m : M A) : G A :=
  fun t =>
    match m t with
    | (o, t') => ([], o, t')
    end.

Declare Scope gen_scope.
Delimit Scope gen_scope with gen.
Notation "x <- m ;; k" := (gbind m (fun x => k))
  (at level 61, m at next level, right associativity) : gen_scope.
Notation "m ;; k" := (gbind m (fun _ => k))
  (at level 61, right associativity) : gen_scope.

Section Streaming.

(** [JSON.parse]. *)
Variable JSON_parse : jsstring -> Outcome JsonValue.

(** The completion service, for a caller that reads the body as a stream. *)
Variable streamEndpoint :
  Trace -> jsstring -> FetchInit ChatCompletionBody -> Outcome StreamingResponse.

Definition fetchStream (target : jsstring) (init : FetchInit ChatCompletionBody)
  : M StreamingResponse :=
  fun t => (streamEndpoint t target init, FetchCompletion target init :: t).

(** The body of the [for] loop for one line. The inner [try] swallows
    what [JSON.parse] or the first access throws. *)
Definition streamLine (line : jsstring) : G bool :=
  (if startsWith (js "data: ") line then
     let data := skipn 6 line in
     if jsstring_eqb data (js "[DONE]") then gret true
     else
       match JSON_parse data with
       | Return parsed =>
           match deltaContent parsed with
           | Return (Some content) =>
               if truthy (Some content) then gyield content ;; gret false
               else gret false
           | Return None => gret false
           | Throw _ => gret false
           end
       | Throw _ => gret false
       end
   else gret false)%gen.

(** The [for] loop over the lines of a chunk; [true] when a line
    [data: [DONE]] made the generator return. *)
Fixpoint streamLines (lines : list jsstring) : G bool :=
  (match lines with
   | [] => gret false
   | line :: rest =>
       finished <- streamLine line ;;
       if finished then gret true else streamLines rest
   end)%gen.

(** The [while (true)] loop. *)
Fixpoint readLoop (reading : Reading) : G unit :=
  (match reading with
   | ReadDone => gret tt
   | ReadError e => gthrow e
   | ReadChunk chunk rest =>
       finished <- streamLines (splitLines chunk) ;;
       if finished then gret tt else readLoop rest
   end)%gen.

(** [DoubaoClient.chatCompletionStream], read to its end. *)
Definition chatCompletionStream (this : DoubaoClient) (request : ChatCompletionRequest)
  : G unit :=
  (if negb (truthyString (apiKey this)) then
     gthrow (ErrorObject (js "豆包API key not configured"))
   else
     gtryCatch
       (response <-
          glift
            (fetchStream (baseURL this ++ js "/chat/completions") {|
               init_method := js "POST";
               init_headers := [
                 (js "Content-Type", js "application/json");
                 (js "Authorization", js "Bearer " ++ apiKey this)
               ];
               init_body := {|
                 body_model := orString (req_model request) (defaultModel this);
                 body_messages := req_messages request;
                 body_temperature := orNumber (req_temperature request) (7 # 10);
                 body_max_tokens := orInteger (req_max_tokens request) 2000;
                 body_stream := true;
                 body_thinking := orThinking (req_thinking request) disabled
               |}
             |}) ;;
        (if negb (stream_ok response) then
           errorText <- glift (await (stream_text response)) ;;
           glift (console_error "豆包API流式错误响应:") ;;
           gthrow (ErrorObject
                     (js "豆包API error: " ++ NumberToString (stream_status response)
                      ++ js " " ++ stream_statusText response ++ js " - " ++ errorText))
         else gret tt) ;;
        match stream_body response with
        | None => gthrow (ErrorObject (js "Response body is not readable"))
        | Some reading => readLoop reading
        end)
       (fun error =>
          glift (console_error "Error in streaming chat completion:") ;;
          gthrow error))%gen.

End Streaming.

Section Health.

Variable doubaoClient : DoubaoClient.
Variable clock : Trace -> jsstring.

(** [export async function GET()]. *)
Definition GET : M HealthResponse :=
  let apiStatus := DoubaoClient_getStatus doubaoClient in
  timestamp <- toISOString_now clock ;;
  ret {| health_response_status := 200;
         health_response_payload := {|
           health_status := js "healthy";
           health_service := js "weight-loss-assistant-chat-api";
           health_api := js "doubao";
           apiConfigured := configured apiStatus;
           apiModel := status_model apiStatus;
           health_timestamp := timestamp
         |} |}.

End Health.

(** * Vocabulary of the properties *)

Definition isSurrogate (u : N) : bool :=
  isLeadingSurrogate u || isTrailingSurrogate u.

(** [requires c r]: every text that [r] matches holds the unit [c], read off
    the pattern. *)
Fixpoint requires (c : N) (r : regex) : bool :=
  match r with
  | Atom (Char d) => c =? d
  | Seq r1 r2 => requires c r1 || requires c r2
  | Alt r1 r2 => requires c r1 && requires c r2
  | Group _ r' => requires c r'
  | NonCapture r' => requires c r'
  | _ => false
  end.

(** The code unit of 吃, which every pattern of [eatPatterns] requires and
    which is a keyword of its own. *)
Definition eatUnit : N := 0x5403.

(** The code points whose lowercase form [lowerCodePoint] writes out. *)
Definition plainCodePoint (c : N) : bool := (c <? 0x80) || isIdeograph c.

Definition plainText (s : jsstring) : bool :=
  forallb plainCodePoint (StringToCodePoints s).

(** The events of image generation: the call of [generateFoodImage] and the
    request to the image service. *)
Definition imageGenerationEvent (e : Event) : bool :=
  match e with
  | Call generateFoodImage_method => true
  | FetchImage _ _ => true
  | _ => false
  end.

(** The events that touch [doubaoImageClient] at all: a call of one of its
    three methods, or the request to the image service. *)
Definition imageClientEvent (e : Event) : bool :=
  match e with
  | Call extractFoodDescription_method => true
  | Call detectFoodKeywords_method => true
  | Call generateFoodImage_method => true
  | FetchImage _ _ => true
  | _ => false
  end.

(** The message sequences sent to the completion service, the latest
    first. *)
Definition completionMessages (evs : list Event) : list (list ChatMessage) :=
  flat_map
    (fun e =>
       match e with
       | FetchCompletion _ init => [body_messages (init_body init)]
       | _ => []
       end)
    evs.


(** A value that [if (item.url)] lets through. *)
Definition truthyValue (v : JsonValue) : bool := truthy (Some v).

(** The requests sent to the completion service, the latest first. *)
Definition completionRequests (evs : list Event)
  : list (jsstring * FetchInit ChatCompletionBody) :=
  flat_map
    (fun e =>
       match e with
       | FetchCompletion target init => [(target, init)]
       | _ => []
       end)
    evs.

(** The requests sent to the image service, the latest first. *)
Definition imageRequests (evs : list Event)
  : list (jsstring * FetchInit ImageGenerationRequest) :=
  flat_map
    (fun e =>
       match e with
       | FetchImage target init => [(target, init)]
       | _ => []
       end)
    evs.

(** The calls of [generateFoodImage] in a run. *)
Definition generationCalls (evs : list Event) : nat :=
  List.length
    (filter
       (fun e =>
          match e with
          | Call generateFoodImage_method => true
          | _ => false
          end)
       evs).

(** The completion call gave a response in which the run found choices and
    could read the content of the first one. *)
Definition readsFirstChoice (isPositive : JsonValue -> Outcome bool)
    (o : Outcome ChatCompletionResponse) : bool :=
  match o with
  | Return response =>
      match hasChoices isPositive response, firstContent response with
      | Return true, Return _ => true
      | _, _ => false
      end
  | Throw _ => false
  end.

(** What a run reads from the response of the completion service: the
    content of the first choice, nothing when the guard on [choices] fails,
    or the [TypeError] of a read. *)
Definition replyOf (isPositive : JsonValue -> Outcome bool)
    (response : ChatCompletionResponse) : Outcome (option (option JsonValue)) :=
  andThen (hasChoices isPositive response)
    (fun chosen =>
       if chosen then andThen (firstContent response) (fun content => Return (Some content))
       else Return None).

(** What the [catch] branch of [weightLossChat] logs, the latest first;
    the line of the message is for instances of [Error] only. *)
Definition chatErrorLog (e : Thrown) : list Event :=
  [Console ERROR (js "========================");
   Console ERROR (js "对话历史长度:");
   Console ERROR (js "角色模式:");
   Console ERROR (js "用户消息:")]
  ++ match e with
     | ErrorObject _ => [Console ERROR (js "错误消息:")]
     | NonError => []
     end
  ++ [Console ERROR (js "=== 豆包API错误信息 ===");
      Console ERROR (js "Error in weight loss chat:")].

(** The trace at which a run of [weightLossChat] calls [generateFoodImage],
    [t1] being the trace at which the completion call returned. *)
Definition imageCallTrace (t1 : Trace) : Trace :=
  Call generateFoodImage_method
  :: Console LOG (js "检测到食物相关内容，开始生成图片...")
  :: Call detectFoodKeywords_method
  :: Call extractFoodDescription_method
  :: t1.

(** The headers both clients send. *)
Definition bearerHeaders (key : jsstring) : list (jsstring * jsstring) :=
  [(js "Content-Type", js "application/json");
   (js "Authorization", js "Bearer " ++ key)].

(** The request [generateFoodImage] sends for a description: the address
    and the second argument of [fetch]. *)
Definition foodImageRequest (this : DoubaoImageClient) (foodDescription : jsstring)
  : jsstring * FetchInit ImageGenerationRequest :=
  (image_baseURL this ++ js "/images/generations",
   {| init_method := js "POST";
      init_headers := bearerHeaders (image_apiKey this);
      init_body := {|
        img_prompt := buildFoodPrompt foodDescription;
        img_model := Some (image_defaultModel this);
        img_image := None;
        img_response_format := Some format_url;
        img_size := Some size_2K;
        img_stream := Some false;
        img_watermark := Some true;
        img_sequential_image_generation := Some sequential_auto;
        img_sequential_image_generation_options := Some {| max_images := Some 1%Z |}
      |} |}).

(** The request [chatCompletion] sends for a request object. *)
Definition completionRequest (this : DoubaoClient) (request : ChatCompletionRequest)
    (stream : bool) : jsstring * FetchInit ChatCompletionBody :=
  (baseURL this ++ js "/chat/completions",
   {| init_method := js "POST";
      init_headers := bearerHeaders (apiKey this);
      init_body := {|
        body_model := orString (req_model request) (defaultModel this);
        body_messages := req_messages request;
        body_temperature := orNumber (req_temperature request) (7 # 10);
        body_max_tokens := orInteger (req_max_tokens request) 2000;
        body_stream := stream;
        body_thinking := orThinking (req_thinking request) disabled
      |} |}).

(** [g] occurs in [s] as a run of consecutive code units. *)
Definition isInfix (g s : jsstring) : Prop := exists a b, s = a ++ g ++ b.

(** A body passes the two checks of the POST handler. *)
Definition validBody (body : JsonValue) : bool :=
  truthy (getProperty body (js "message"))
  && isString (getProperty body (js "message"))
  && isArray (withDefault (getProperty body (js "conversationHistory")) (JArray [])).

(** The [role] the POST handler passes on: the default applies to a body
    without the property. *)
Definition roleOfBody (body : JsonValue) : JsonValue :=
  withDefault (getProperty body (js "role")) (JString (js "supportive_friend")).

(** The status the POST handler answers with, read off the request. *)
Definition expectedStatus (ToPropertyKey : JsonValue -> Outcome jsstring)
    (request : NextRequest) : N :=
  match request_json request with
  | Throw _ => 500
  | Return JNull => 500
  | Return body =>
      if validBody body then
        match roleKey ToPropertyKey (roleOfBody body) with
        | Return _ => 200
        | Throw _ => 500
        end
      else 400
  end.

(** The handler calls [weightLossChat]: the body decoded, is not [null] and
    passes the two checks. *)
Definition reachesChat (request : NextRequest) : bool :=
  match request_json request with
  | Throw _ => false
  | Return JNull => false
  | Return body => validBody body
  end.

(** The answer of the [catch] branch of the handler to a thrown value. *)
Definition failureResponse (env : Env) (e : Thrown) : NextResponse := {|
  response_status := 500;
  response_payload :=
    FailurePayload false (js "Failed to process chat request")
      match NODE_ENV env with
      | Some mode =>
          if jsstring_eqb mode (js "development")
          then Some match e with
                    | ErrorObject message => message
                    | NonError => js "Unknown error occurred"
                    end
          else None
      | None => None
      end
|}.

(** Texts of ASCII and ideographs, unit by unit. *)
Definition plainUnits (s : jsstring) : bool := forallb plainCodePoint s.

(** ** Concrete clients, services and responses *)

Definition exampleClient : DoubaoClient := {|
  apiKey := js "test-key";
  baseURL := js "https://ark.cn-beijing.volces.com/api/v3";
  defaultModel := js "doubao-seed-1-6-flash-250615"
|}.

Definition clientWithoutKey : DoubaoClient := {|
  apiKey := [];
  baseURL := js "https://ark.cn-beijing.volces.com/api/v3";
  defaultModel := js "doubao-seed-1-6-flash-250615"
|}.

Definition exampleImageClient : DoubaoImageClient := {|
  image_apiKey := js "test-key";
  image_baseURL := js "https://ark.cn-beijing.volces.com/api/v3";
  image_defaultModel := js "doubao-seedream-4-0-250828"
|}.

Definition imageClientWithoutKey : DoubaoImageClient := {|
  image_apiKey := [];
  image_baseURL := js "https://ark.cn-beijing.volces.com/api/v3";
  image_defaultModel := js "doubao-seedream-4-0-250828"
|}.

(** A 200 response whose body decodes to [body]. *)
Definition httpOk {T} (body : T) : HttpResponse T := {|
  status := 200;
  statusText := js "OK";
  text := Return [];
  json := Return body
|}.

(** A service that answers every request with [response]. *)
Definition answering {B T} (response : HttpResponse T)
  : Trace -> jsstring -> FetchInit B -> Outcome (HttpResponse T) :=
  fun _ _ _ => Return response.

(** A service that cannot be reached. *)
Definition unreachable {B T}
  : Trace -> jsstring -> FetchInit B -> Outcome (HttpResponse T) :=
  fun _ _ _ => Throw (ErrorObject (js "fetch failed")).

(** A completion with the given [choices]. *)
Definition completion (cs : option JsonValue) : ChatCompletionResponse :=
  JObject
    ([(js "id", JString (js "chatcmpl-1"));
      (js "object", JString (js "chat.completion"));
      (js "created", JNumber 0);
      (js "model", JString (js "doubao-seed-1-6-flash-250615"))]
     ++ match cs with
        | Some c => [(js "choices", c)]
        | None => []
        end).

Definition reply (s : jsstring) : JsonValue :=
  JObject
    [(js "index", JNumber 0);
     (js "message",
      JObject [(js "role", JString (js "assistant")); (js "content", JString s)]);
     (js "finish_reason", JString (js "stop"))].

(** An image response with the given [data]. *)
Definition imageResponse (items : option JsonValue) : ImageGenerationResponse :=
  JObject
    ([(js "id", JString (js "img-1"));
      (js "object", JString (js "list"));
      (js "created", JNumber 0)]
     ++ match items with
        | Some d => [(js "data", d)]
        | None => []
        end
     ++ [(js "model", JString (js "doubao-seedream-4-0-250828"))]).

Definition imageEntry (u : option JsonValue) (i : Z) : JsonValue :=
  JObject
    (match u with
     | Some v => [(js "url", v)]
     | None => []
     end
     ++ [(js "index", JNumber (inject_Z i))]).

(** A stand-in for [JSON.stringify]; the runs below hold text contents
    only. *)
Definition stringifyNothing (v : JsonValue) : jsstring := [].

(** A stand-in for the comparison of a string, an array or an object with
    zero; the runs below compare numbers only. *)
Definition neverPositive (v : JsonValue) : Outcome bool := Return false.

Definition emptyEnv : Env := {|
  DOUBAO_API_KEY := None;
  DOUBAO_API_BASE_URL := None;
  DOUBAO_MODEL := None;
  NODE_ENV := None
|}.

Definition fixedClock (t : Trace) : jsstring := js "2025-01-01T00:00:00.000Z".

Definition noMessages (items : list JsonValue) : list ChatMessage := [].

(** A stand-in for ToPropertyKey, for runs whose [role] is absent or a
    string. *)
Definition keyOfNothing (v : JsonValue) : Outcome jsstring := Return (js "null").

(** ToPropertyKey on [null], booleans, strings and objects. An object made
    by [JSON.parse] has no callable property of its own: with an own
    [toString] ToPrimitive finds neither a [toString] nor a [valueOf] that
    gives a primitive and throws, without one it gives
    [[object Object]]. (Numbers and arrays are not converted by the runs
    below.) *)
Definition propertyKey (v : JsonValue) : Outcome jsstring :=
  match v with
  | JNull => Return (js "null")
  | JBool true => Return (js "true")
  | JBool false => Return (js "false")
  | JString s => Return s
  | JObject properties =>
      match lookupProperty (js "toString") properties with
      | Some _ => Throw (ErrorObject (js "Cannot convert object to primitive value"))
      | None => Return (js "[object Object]")
      end
  | _ => Return []
  end.

(** ** The stream of a completion *)

(** The line of a stream that makes [chatCompletionStream] return. *)
Definition doneLine : jsstring := js "data: [DONE]".

(** The value the reader of a body rejects with, if it ever does. *)
Fixpoint readError (reading : Reading) : option Thrown :=
  match reading with
  | ReadDone => None
  | ReadError e => Some e
  | ReadChunk _ rest => readError rest
  end.

(** What a consumer of the generator can be given: a truthy value. *)
Definition yieldable (v : JsonValue) : Prop := truthy (Some v) = true.

(** A completion service that answers 200 with the given body stream. *)
Definition streaming (body : option Reading)
  : Trace -> jsstring -> FetchInit ChatCompletionBody -> Outcome StreamingResponse :=
  fun _ _ _ =>
    Return {| stream_status := 200;
              stream_statusText := js "OK";
              stream_text := Return [];
              stream_body := body |}.

(** A [JSON.parse] that rejects every text. *)
Definition parseNothing (text : jsstring) : Outcome JsonValue :=
  Throw (ErrorObject (js "Unexpected end of JSON input")).

(** What [generateFoodImage] has logged when it calls [fetch], latest
    first. *)
Definition requestLog : list Event :=
  [Console LOG (js "========================");
   Console LOG (js "生成提示词:");
   Console LOG (js "食物描述:");
   Console LOG (js "=== 豆包图片生成请求 ===")].

(** * Properties *)

(** ** The model on concrete inputs *)

Example js_ascii : js "eat" = [0x65; 0x61; 0x74].
Proof. reflexivity. Qed.

Example js_ideographs : js "披萨" = [0x62AB; 0x8428].
Proof. reflexivity. Qed.

Example js_punctuation : js "，。！？" = [0xFF0C; 0x3002; 0xFF01; 0xFF1F].
Proof. reflexivity. Qed.

Example js_surrogate_pair : js "🍕" = [0xD83C; 0xDF55].
Proof. reflexivity. Qed.

Example StringToCodePoints_surrogate_pair :
  StringToCodePoints (js "a🍕") = [0x61; 0x1F355].
Proof. reflexivity. Qed.

Example toLowerCase_mixed (lowerMapping : list N -> N -> list N -> list N) :
  toLowerCase lowerMapping (js "I Want 披萨") = js "i want 披萨".
Proof. reflexivity. Qed.

Example trim_spaces : trim (js "  披萨 ") = js "披萨".
Proof. reflexivity. Qed.

Example includes_inside_a_word : includes (js "ricecooker") (js "rice") = true.
Proof. reflexivity. Qed.

Example match_want_to_eat :
  String_match (js "我想吃披萨，谢谢") (nth 0 eatPatterns Empty)
  = Some {| index := 1; matched := js "想吃披萨，"; groups := [(1%nat, js "披萨")] |}.
Proof. reflexivity. Qed.

Example extract_want_to_eat (lowerMapping : list N -> N -> list N -> list N) :
  extractFoodDescription lowerMapping (js "我想吃披萨，谢谢") = js "披萨".
Proof. reflexivity. Qed.

Example extract_tasty (lowerMapping : list N -> N -> list N -> list N) :
  extractFoodDescription lowerMapping (js "披萨好吃") = js "披萨".
Proof. reflexivity. Qed.

(** The group of the third pattern is one space, which [trim] empties. *)
Example extract_blank (lowerMapping : list N -> N -> list N -> list N) :
  extractFoodDescription lowerMapping (js "吃 ") = [].
Proof. reflexivity. Qed.

(** No pattern matches, and 吃 is a keyword: the whole message. *)
Example extract_fallback (lowerMapping : list N -> N -> list N -> list N) :
  extractFoodDescription lowerMapping (js "吃") = js "吃".
Proof. reflexivity. Qed.

Example systemPrompts_unknown : systemPrompts (js "chef") = None.
Proof. vm_compute. reflexivity. Qed.

Example NumberToString_status : NumberToString 404 = js "404".
Proof. reflexivity. Qed.

(** ** Substrings *)

Lemma startsWith_spec (p s : jsstring) :
  startsWith p s = true <-> exists b, s = p ++ b.
Proof.
  revert s; induction p as [|c p IH]; intros s; simpl.
  - split; [intros _; now exists s | reflexivity].
  - destruct s as [|d s].
    + split; [discriminate | intros [b Hb]; discriminate].
    + rewrite andb_true_iff, N.eqb_eq, IH. split.
      * intros [-> [b ->]]. now exists b.
      * intros [b Hb]. injection Hb as -> ->. split; [reflexivity | now exists b].
Qed.

(** [includes] decides the occurrence of [p] inside [s]. *)
Lemma includes_spec (s p : jsstring) :
  includes s p = true <-> exists a b, s = a ++ p ++ b.
Proof.
  induction s as [|u s IH].
  - simpl. rewrite orb_false_r, startsWith_spec. split.
    + intros [b Hb]. now exists [], b.
    + intros [a [b Hab]]. destruct a; [now exists b | discriminate].
  - cbn [includes]. rewrite orb_true_iff, startsWith_spec, IH. split.
    + intros [[b Hb] | [a [b Hab]]].
      * now exists [], b.
      * exists (u :: a), b. now rewrite Hab.
    + intros [a [b Hab]]. destruct a as [|x a].
      * left. now exists b.
      * right. injection Hab as _ ->. now exists a, b.
Qed.

Lemma includes_unit (s : jsstring) (c : N) :
  In c s -> includes s [c] = true.
Proof.
  intros Hin. apply includes_spec.
  destruct (in_split _ _ Hin) as [a [b ->]]. now exists a, b.
Qed.

(** ** Code units that lowercasing keeps *)

(** A code unit that is no surrogate is a code point of the string. *)
Lemma StringToCodePoints_keeps (c : N) :
  isSurrogate c = false ->
  forall n (s : jsstring), (List.length s <= n)%nat ->
    In c s -> In c (StringToCodePoints s).
Proof.
  intros Hc. apply orb_false_elim in Hc as [Hlead Htrail].
  induction n as [|n IH]; intros s Hlen Hin.
  - destruct s; [contradiction | simpl in Hlen; lia].
  - destruct s as [|u [|v rest]]; simpl in *.
    + contradiction.
    + exact Hin.
    + destruct (isLeadingSurrogate u && isTrailingSurrogate v) eqn:Hpair.
      * apply andb_true_iff in Hpair as [Hu Hv].
        right. apply IH; [lia |].
        destruct Hin as [-> | [-> | Hin]]; [congruence | congruence | exact Hin].
      * destruct Hin as [-> | Hin]; [now left | right].
        apply (IH (v :: rest)); [simpl; lia | exact Hin].
Qed.

Lemma CodePointsToString_keeps (c : N) (cps : list N) :
  c < 0x10000 -> In c cps -> In c (CodePointsToString cps).
Proof.
  intros Hc Hin. unfold CodePointsToString. apply in_flat_map.
  exists c. split; [exact Hin |].
  unfold UTF16EncodeCodePoint. apply N.ltb_lt in Hc. rewrite Hc. now left.
Qed.

Section LowercaseFacts.

Variable lowerMapping : list N -> N -> list N -> list N.

Lemma toLowercase_keeps (c : N) :
  isIdeograph c = true ->
  forall cps before, In c cps -> In c (toLowercase lowerMapping before cps).
Proof.
  intros Hc cps. induction cps as [|d cps IH]; intros before Hin; simpl in *.
  - contradiction.
  - apply in_or_app. destruct Hin as [-> | Hin].
    + left. unfold lowerCodePoint. rewrite Hc.
      unfold isIdeograph in Hc. apply andb_true_iff in Hc as [Hlo _].
      apply N.leb_le in Hlo.
      destruct (c <? 0x80) eqn:Hascii; [apply N.ltb_lt in Hascii; lia | now left].
    + right. now apply IH.
Qed.

(** An ideograph that occurs in a text occurs in the lowercased text. *)
Lemma toLowerCase_keeps (c : N) (s : jsstring) :
  isIdeograph c = true ->
  In c s -> In c (toLowerCase lowerMapping s).
Proof.
  intros Hc Hin. unfold toLowerCase.
  assert (Hrange : 0x4E00 <= c <= 0x9FFF).
  { unfold isIdeograph in Hc. apply andb_true_iff in Hc as [Hlo Hhi].
    apply N.leb_le in Hlo, Hhi. lia. }
  apply CodePointsToString_keeps; [lia |].
  apply toLowercase_keeps; [exact Hc |].
  apply (StringToCodePoints_keeps c) with (n := List.length s); [| lia | exact Hin].
  unfold isSurrogate, isLeadingSurrogate, isTrailingSurrogate.
  apply orb_false_intro; apply andb_false_intro1; apply N.leb_gt; lia.
Qed.

End LowercaseFacts.

(** ** What a match of a pattern says about the text *)

Lemma lazyPlus_consumes (a : atom) (k : Continuation) :
  forall s caps m,
    lazyPlus a k s caps = Some m ->
    exists w s', s = w ++ s' /\ k s' caps = Some m.
Proof.
  induction s as [|u s IH]; intros caps m H; simpl in H.
  - discriminate.
  - destruct (atomMatches a u); [| discriminate].
    destruct (k s caps) as [m0|] eqn:Hk.
    + injection H as <-. now exists [u], s.
    + destruct (IH _ _ H) as [w [s' [-> Hk']]]. now exists (u :: w), s'.
Qed.

(** When the matcher succeeds, it has consumed a prefix [w] of the input
    before it called the continuation, and [w] holds every unit the pattern
    requires. *)
Lemma matchRegex_consumes (c : N) :
  forall r k s caps m,
    matchRegex r k s caps = Some m ->
    exists w s' caps',
      s = w ++ s' /\ k s' caps' = Some m /\ (requires c r = true -> In c w).
Proof.
  induction r as [| a | | r1 IH1 r2 IH2 | r1 IH1 r2 IH2 | n r IH | r IH | a];
    intros k s caps m H; simpl in H.
  - exists [], s, caps. repeat split; [exact H | discriminate].
  - destruct s as [|u s]; [discriminate |].
    destruct (atomMatches a u) eqn:Hu; [| discriminate].
    exists [u], s, caps. repeat split; [exact H |].
    destruct a; simpl; try discriminate.
    intros Hc. apply N.eqb_eq in Hc, Hu. left. congruence.
  - destruct s; [| discriminate].
    exists [], [], caps. repeat split; [exact H | discriminate].
  - destruct (IH1 _ _ _ _ H) as [w1 [s1 [caps1 [-> [H2 Hin1]]]]].
    destruct (IH2 _ _ _ _ H2) as [w2 [s2 [caps2 [-> [Hk Hin2]]]]].
    exists (w1 ++ w2), s2, caps2. rewrite <- app_assoc. repeat split; [exact Hk |].
    simpl. intros Hc. apply in_or_app.
    apply orb_true_iff in Hc as [Hc | Hc]; [left; auto | right; auto].
  - destruct (matchRegex r1 k s caps) as [m1|] eqn:H1.
    + injection H as <-.
      destruct (IH1 _ _ _ _ H1) as [w [s' [caps' [-> [Hk Hin]]]]].
      exists w, s', caps'. repeat split; [exact Hk |].
      simpl. intros Hc. apply andb_true_iff in Hc as [Hc _]. auto.
    + destruct (IH2 _ _ _ _ H) as [w [s' [caps' [-> [Hk Hin]]]]].
      exists w, s', caps'. repeat split; [exact Hk |].
      simpl. intros Hc. apply andb_true_iff in Hc as [_ Hc]. auto.
  - destruct (IH _ _ _ _ H) as [w [s' [caps' [Hs [Hk Hin]]]]].
    exists w, s', ((n, firstn (List.length s - List.length s') s) :: caps').
    repeat split; assumption.
  - destruct (IH _ _ _ _ H) as [w [s' [caps' [Hs [Hk Hin]]]]].
    exists w, s', caps'. repeat split; assumption.
  - destruct (lazyPlus_consumes _ _ _ _ _ H) as [w [s' [Hs Hk]]].
    exists w, s', caps. repeat split; [assumption | assumption | discriminate].
Qed.

Lemma exec_requires (c : N) (r : regex) :
  requires c r = true ->
  forall s i m, exec r i s = Some m -> In c s.
Proof.
  intros Hreq. induction s as [|u s IH]; intros i m H; simpl in H.
  - destruct (matchRegex r _ [] []) as [[s' caps]|] eqn:Hm; [| discriminate].
    destruct (matchRegex_consumes c _ _ _ _ _ Hm) as [w [s1 [caps1 [Hs [_ Hin]]]]].
    rewrite Hs. apply in_or_app. left. auto.
  - destruct (matchRegex r _ (u :: s) []) as [[s' caps]|] eqn:Hm.
    + destruct (matchRegex_consumes c _ _ _ _ _ Hm) as [w [s1 [caps1 [Hs [_ Hin]]]]].
      rewrite Hs. apply in_or_app. left. auto.
    + right. eapply IH. exact H.
Qed.

Lemma eatUnit_literal : js "吃" = [eatUnit].
Proof. reflexivity. Qed.

Lemma eatPatterns_require_eatUnit :
  forallb (requires eatUnit) eatPatterns = true.
Proof. reflexivity. Qed.

Lemma eatUnit_keyword : In [eatUnit] foodKeywords.
Proof.
  assert (H : existsb (jsstring_eqb [eatUnit]) foodKeywords = true)
    by (vm_compute; reflexivity).
  apply existsb_exists in H as [k [Hin Heq]].
  unfold jsstring_eqb in Heq.
  destruct (list_eq_dec N.eq_dec [eatUnit] k) as [<- | _]; [exact Hin | discriminate].
Qed.

Lemma firstEatPattern_requires (c : N) (userMessage : jsstring) :
  forall patterns description,
    forallb (requires c) patterns = true ->
    firstEatPattern patterns userMessage = Some description ->
    In c userMessage.
Proof.
  induction patterns as [|p ps IH]; intros description Hall H; simpl in *.
  - discriminate.
  - apply andb_true_iff in Hall as [Hp Hps].
    destruct (String_match userMessage p) as [m|] eqn:Hm.
    + eapply exec_requires; [exact Hp | exact Hm].
    + eapply IH; eassumption.
Qed.

(** ** The classifier *)

Lemma existsb_ext_in {A} (f g : A -> bool) (l : list A) :
  (forall x, In x l -> f x = g x) -> existsb f l = existsb g l.
Proof.
  induction l as [|x l IH]; intros H; simpl.
  - reflexivity.
  - rewrite (H x (or_introl eq_refl)), IH; [reflexivity |].
    intros y Hy. apply H. now right.
Qed.

Section ClassifierFacts.

Variable lowerMapping : list N -> N -> list N -> list N.

Lemma toLowercase_plain (cps : list N) :
  forallb plainCodePoint cps = true ->
  forall before before',
    toLowercase lowerMapping before cps = toLowercase caselessMapping before' cps.
Proof.
  induction cps as [|c cps IH]; intros Hall before before'; simpl in *.
  - reflexivity.
  - apply andb_true_iff in Hall as [Hc Hall].
    rewrite (IH Hall (before ++ [c]) (before' ++ [c])). f_equal.
    unfold lowerCodePoint, plainCodePoint in *.
    destruct (c <? 0x80); [reflexivity |].
    cbn [orb] in Hc. now rewrite Hc.
Qed.

(** On a text of ASCII and ideographs, lowercasing does not depend on the
    parameter. *)
Lemma toLowerCase_plain (s : jsstring) :
  plainText s = true ->
  toLowerCase lowerMapping s = toLowerCase caselessMapping s.
Proof.
  intros Hs. unfold toLowerCase. f_equal. now apply toLowercase_plain.
Qed.

Lemma foodKeywords_plain : forallb plainText foodKeywords = true.
Proof. vm_compute. reflexivity. Qed.

Lemma detectFoodKeywords_plain (text : jsstring) :
  plainText text = true ->
  detectFoodKeywords lowerMapping text = detectFoodKeywords caselessMapping text.
Proof.
  intros Htext. unfold detectFoodKeywords. cbv zeta.
  rewrite (toLowerCase_plain text Htext).
  apply existsb_ext_in. intros keyword Hin.
  rewrite toLowerCase_plain; [reflexivity |].
  pose proof foodKeywords_plain as Hall.
  rewrite forallb_forall in Hall. now apply Hall.
Qed.

Lemma toLowerCase_eatUnit : toLowerCase lowerMapping [eatUnit] = [eatUnit].
Proof. reflexivity. Qed.

(** A text that holds 吃 is a food text. *)
Lemma detectFoodKeywords_eatUnit (text : jsstring) :
  In eatUnit text -> detectFoodKeywords lowerMapping text = true.
Proof.
  intros Hin. unfold detectFoodKeywords. apply existsb_exists.
  exists [eatUnit]. split; [exact eatUnit_keyword |].
  rewrite toLowerCase_eatUnit. apply includes_unit.
  now apply toLowerCase_keeps.
Qed.

End ClassifierFacts.

(** [detectFoodKeywords] is false exactly when no lowercased keyword occurs
    in the lowercased text. *)
Lemma detectFoodKeywords_false_iff lowerMapping (text : jsstring) :
  detectFoodKeywords lowerMapping text = false <->
  forall keyword a b,
    In keyword foodKeywords ->
    toLowerCase lowerMapping text <> a ++ toLowerCase lowerMapping keyword ++ b.
Proof.
  unfold detectFoodKeywords. cbv zeta. split.
  - intros Hfalse keyword a b Hin Heq.
    assert (Htrue : existsb
              (fun k => includes (toLowerCase lowerMapping text)
                          (toLowerCase lowerMapping k)) foodKeywords = true).
    { apply existsb_exists. exists keyword. split; [exact Hin |].
      apply includes_spec. now exists a, b. }
    congruence.
  - intros Hnone.
    destruct (existsb _ foodKeywords) eqn:E; [| reflexivity].
    apply existsb_exists in E as [keyword [Hin Hinc]].
    apply includes_spec in Hinc as [a [b Heq]].
    exfalso. exact (Hnone keyword a b Hin Heq).
Qed.

(** C5. For every text in which no keyword of the fixed list, lowercased,
    occurs as a substring of the lowercased text, [detectFoodKeywords]
    returns false and [extractFoodDescription] returns the empty string. *)
Theorem no_keyword_no_food
    (lowerMapping : list N -> N -> list N -> list N) (text : jsstring)
    (no_keyword :
       forall keyword a b,
         In keyword foodKeywords ->
         toLowerCase lowerMapping text <> a ++ toLowerCase lowerMapping keyword ++ b) :
  detectFoodKeywords lowerMapping text = false
  /\ extractFoodDescription lowerMapping text = [].
Proof.
  assert (Hdetect : detectFoodKeywords lowerMapping text = false)
    by now apply detectFoodKeywords_false_iff.
  split; [exact Hdetect |].
  unfold extractFoodDescription.
  destruct (firstEatPattern eatPatterns text) as [description|] eqn:Hfirst.
  - exfalso.
    pose proof (firstEatPattern_requires eatUnit text _ _
                  eatPatterns_require_eatUnit Hfirst) as Hin.
    rewrite (detectFoodKeywords_eatUnit lowerMapping text Hin) in Hdetect.
    discriminate.
  - now rewrite Hdetect.
Qed.

(** C5 at the text [hello]. *)
Lemma no_keyword_no_food_hello :
  detectFoodKeywords caselessMapping (js "hello") = false
  /\ extractFoodDescription caselessMapping (js "hello") = [].
Proof.
  apply (no_keyword_no_food caselessMapping (js "hello")).
  apply detectFoodKeywords_false_iff. vm_compute. reflexivity.
Defined.

(** C4 as the code has it. For the text [I want to eat 披萨],
    [detectFoodKeywords] returns true, none of the five patterns matches (each
    needs the ideograph 吃), and [extractFoodDescription] returns the whole
    text through its keyword fallback. *)
Theorem want_to_eat_pizza (lowerMapping : list N -> N -> list N -> list N) :
  detectFoodKeywords lowerMapping (js "I want to eat 披萨") = true
  /\ Forall (fun pattern => String_match (js "I want to eat 披萨") pattern = None)
       eatPatterns
  /\ extractFoodDescription lowerMapping (js "I want to eat 披萨")
     = js "I want to eat 披萨".
Proof.
  assert (Hdetect : detectFoodKeywords lowerMapping (js "I want to eat 披萨") = true).
  { rewrite detectFoodKeywords_plain by (vm_compute; reflexivity).
    vm_compute. reflexivity. }
  split; [exact Hdetect |]. split.
  - repeat constructor.
  - unfold extractFoodDescription.
    replace (firstEatPattern eatPatterns (js "I want to eat 披萨")) with (@None jsstring)
      by (vm_compute; reflexivity).
    now rewrite Hdetect.
Qed.

(** C4 as the specification states it fails: whatever the lowercase table,
    [extractFoodDescription] does not return [披萨] for [I want to eat 披萨],
    and no pattern matches whose group it could return. *)
Lemma want_to_eat_pizza_not_extracted :
  ~ exists lowerMapping,
      detectFoodKeywords lowerMapping (js "I want to eat 披萨") = true
      /\ (extractFoodDescription lowerMapping (js "I want to eat 披萨") = js "披萨"
          \/ exists pattern m g,
               In pattern eatPatterns
               /\ String_match (js "I want to eat 披萨") pattern = Some m
               /\ capture 1 (groups m) = Some g
               /\ extractFoodDescription lowerMapping (js "I want to eat 披萨")
                  = trim g).
Proof.
  intros [lowerMapping [Hdetect [Hextract | [pattern [m [g [Hin [Hmatch _]]]]]]]].
  - unfold extractFoodDescription in Hextract.
    replace (firstEatPattern eatPatterns (js "I want to eat 披萨")) with (@None jsstring)
      in Hextract by (vm_compute; reflexivity).
    rewrite Hdetect in Hextract. vm_compute in Hextract. discriminate.
  - assert (Hnone : Forall
              (fun pattern => String_match (js "I want to eat 披萨") pattern = None)
              eatPatterns) by repeat constructor.
    rewrite Forall_forall in Hnone. rewrite (Hnone pattern Hin) in Hmatch.
    discriminate.
Qed.

(** ** Runs of the clients and of the orchestrator *)

Ltac unfold_M :=
  cbv beta iota zeta delta
    [bind tryCatch ret throw emit await console_log console_warn console_error
     fetchCompletion fetchImage toISOString_now].

Lemma since_nil (t : Trace) : t = [] ++ t.
Proof. reflexivity. Qed.

Lemma since_cons (e : Event) (t' evs t : Trace) :
  t' = evs ++ t -> e :: t' = (e :: evs) ++ t.
Proof. intros ->. reflexivity. Qed.

(** Solves [t' = ?evs ++ t] for an explicit [t' = e1 :: ... :: en :: t]. *)
Ltac since := cbn [fst snd]; repeat (eapply since_cons); eapply since_nil.

(** Solves [exists evs, t' = evs ++ t /\ ...] when the rest computes. *)
Ltac events := eexists; split; [since | repeat split; reflexivity].

Section RuntimeFacts.

Variable lowerMapping : list N -> N -> list N -> list N.
Variable JSON_stringify : JsonValue -> jsstring.
Variable isPositive : JsonValue -> Outcome bool.
Variable completionEndpoint :
  Trace -> jsstring -> FetchInit ChatCompletionBody ->
  Outcome (HttpResponse ChatCompletionResponse).
Variable imageEndpoint :
  Trace -> jsstring -> FetchInit ImageGenerationRequest ->
  Outcome (HttpResponse ImageGenerationResponse).
Variable doubaoImageClient : DoubaoImageClient.

Local Abbreviation chatCompletion' := (chatCompletion completionEndpoint).
Local Abbreviation generateFoodImage' := (generateFoodImage isPositive imageEndpoint).
Local Abbreviation foodImages' :=
  (foodImages lowerMapping isPositive imageEndpoint doubaoImageClient).
Local Abbreviation weightLossChat' :=
  (weightLossChat lowerMapping JSON_stringify isPositive completionEndpoint
     imageEndpoint doubaoImageClient).

(** [chatCompletion] sends at most one request, with the messages it was
    given, and touches nothing of the image client. *)
Lemma chatCompletion_events (this : DoubaoClient) (request : ChatCompletionRequest)
    (t : Trace) :
  exists evs,
    snd (chatCompletion' this request t) = evs ++ t
    /\ existsb imageClientEvent evs = false
    /\ completionMessages evs
       = if truthyString (apiKey this) then [req_messages request] else [].
Proof.
  unfold chatCompletion.
  destruct (truthyString (apiKey this)); cbn [negb]; unfold_M.
  - destruct (completionEndpoint t _ _) as [response | e]; [| events].
    destruct (ok response); cbn [negb].
    + destruct (json response); events.
    + destruct (text response); events.
  - events.
Qed.

Lemma chatCompletion_no_key (this : DoubaoClient) (request : ChatCompletionRequest)
    (t : Trace) :
  truthyString (apiKey this) = false ->
  chatCompletion' this request t
  = (Throw (ErrorObject (js "豆包API key not configured")), t).
Proof.
  intros Hkey. unfold chatCompletion. rewrite Hkey. reflexivity.
Qed.

(** The image step never throws: a failure of [generateFoodImage] is caught. *)
Lemma foodImages_returns (userMessage foodDescription : jsstring) (t : Trace) :
  exists images t',
    foodImages' userMessage foodDescription t = (Return images, t').
Proof.
  unfold foodImages.
  destruct (truthyString foodDescription); [| now eexists _, _].
  unfold_M.
  destruct (detectFoodKeywords lowerMapping userMessage); [| now eexists _, _].
  match goal with
  | |- context [generateFoodImage ?p ?ep ?c ?d ?t0] =>
      destruct (generateFoodImage p ep c d t0) as [[images | e] t1]
  end; now eexists _, _.
Qed.

(** Without a food keyword the image step returns no image and does not
    reach [generateFoodImage]. *)
Lemma foodImages_without_keyword (userMessage foodDescription : jsstring) (t : Trace) :
  detectFoodKeywords lowerMapping userMessage = false ->
  exists evs,
    foodImages' userMessage foodDescription t = (Return [], evs ++ t)
    /\ existsb imageGenerationEvent evs = false.
Proof.
  intros Hdetect. unfold foodImages.
  destruct (truthyString foodDescription).
  - unfold_M. rewrite Hdetect. exists [Call detectFoodKeywords_method]. now split.
  - exists []. now split.
Qed.

(** When the call of [generateFoodImage] that the image step makes throws,
    the image step returns no image. *)
Lemma foodImages_when_generation_fails (userMessage foodDescription : jsstring)
    (t : Trace) (e : Thrown) (t1 : Trace) :
  generateFoodImage' doubaoImageClient foodDescription
    (Call generateFoodImage_method
     :: Console LOG (js "检测到食物相关内容，开始生成图片...")
     :: Call detectFoodKeywords_method :: t)
  = (Throw e, t1) ->
  exists t', foodImages' userMessage foodDescription t = (Return [], t').
Proof.
  intros Hfails. unfold foodImages.
  destruct (truthyString foodDescription); [| now eexists].
  unfold_M.
  destruct (detectFoodKeywords lowerMapping userMessage); [| now eexists].
  rewrite Hfails. now eexists.
Qed.

(** The [catch] branch of [weightLossChat] touches neither service. *)
Lemma chatErrorLog_quiet (e : Thrown) :
  existsb imageClientEvent (chatErrorLog e) = false
  /\ completionMessages (chatErrorLog e) = [].
Proof. destruct e; split; reflexivity. Qed.

(** A run of [weightLossChat], by what the completion call did, what the
    run read from its response and what the image step returned. *)
Lemma weightLossChat_run (this : DoubaoClient) (userMessage : jsstring)
    (conversationHistory : list ChatMessage) (role : jsstring) (t : Trace) :
  weightLossChat' this userMessage conversationHistory role t
  = match chatCompletion' this
            (weightLossRequest (assembleMessages role conversationHistory userMessage))
            t
    with
    | (Return response, t1) =>
        match replyOf isPositive response with
        | Return (Some content) =>
            match foodImages' userMessage
                    (extractFoodDescription lowerMapping userMessage)
                    (Call extractFoodDescription_method :: t1)
            with
            | (Return images, t2) =>
                (Return {| result_content := textOf JSON_stringify content;
                           result_images :=
                             if (0 <? List.length images)%nat
                             then Some images else None |},
                 t2)
            | (Throw e, t2) =>
                (Return {| result_content := Some apologyReply;
                           result_images := None |},
                 chatErrorLog e ++ t2)
            end
        | Return None =>
            (Return {| result_content := Some fallbackReply; result_images := None |},
             t1)
        | Throw e =>
            (Return {| result_content := Some apologyReply; result_images := None |},
             chatErrorLog e ++ t1)
        end
    | (Throw e, t1) =>
        (Return {| result_content := Some apologyReply; result_images := None |},
         chatErrorLog e ++ t1)
    end.
Proof.
  unfold weightLossChat, replyOf. cbv zeta. unfold tryCatch at 1, bind at 1.
  destruct (chatCompletion' this _ t) as [[response | e] t1];
    [| destruct e; reflexivity].
  unfold bind at 1, await at 1.
  destruct (hasChoices isPositive response) as [[|] | e]; cbn [andThen];
    [| reflexivity | destruct e; reflexivity].
  unfold bind at 1, await at 1.
  destruct (firstContent response) as [content | e]; cbn [andThen];
    [| destruct e; reflexivity].
  unfold bind at 1, emit at 1. unfold bind at 1.
  destruct (foodImages' userMessage _ _) as [[images | e] t2];
    [reflexivity | destruct e; reflexivity].
Qed.

(** The three ways [weightLossChat] ends, by what [chatCompletion] did. *)
Lemma weightLossChat_when_completion_throws (this : DoubaoClient)
    (userMessage : jsstring) (conversationHistory : list ChatMessage)
    (role : jsstring) (t : Trace) (e : Thrown) (t1 : Trace) :
  chatCompletion' this
    (weightLossRequest (assembleMessages role conversationHistory userMessage)) t
  = (Throw e, t1) ->
  exists evs,
    weightLossChat' this userMessage conversationHistory role t
    = (Return {| result_content := Some apologyReply; result_images := None |},
       evs ++ t1)
    /\ existsb imageClientEvent evs = false
    /\ completionMessages evs = [].
Proof.
  intros Hthrow. rewrite weightLossChat_run, Hthrow.
  exists (chatErrorLog e). split; [reflexivity | apply chatErrorLog_quiet].
Qed.



Lemma weightLossChat_when_choice (this : DoubaoClient)
    (userMessage : jsstring) (conversationHistory : list ChatMessage)
    (role : jsstring) (t : Trace) (response : ChatCompletionResponse) (t1 : Trace)
    (content : option JsonValue) :
  chatCompletion' this
    (weightLossRequest (assembleMessages role conversationHistory userMessage)) t
  = (Return response, t1) ->
  replyOf isPositive response = Return (Some content) ->
  forall images t2,
    foodImages' userMessage (extractFoodDescription lowerMapping userMessage)
      (Call extractFoodDescription_method :: t1)
    = (Return images, t2) ->
    weightLossChat' this userMessage conversationHistory role t
    = (Return {| result_content := textOf JSON_stringify content;
                 result_images :=
                   if (0 <? List.length images)%nat then Some images else None |},
       t2).
Proof.
  intros Hreturn Hread images t2 Himages.
  now rewrite weightLossChat_run, Hreturn, Hread, Himages.
Qed.

Lemma imageGeneration_is_imageClient (evs : list Event) :
  existsb imageClientEvent evs = false -> existsb imageGenerationEvent evs = false.
Proof.
  induction evs as [|e evs IH]; simpl; [reflexivity |].
  intros H. apply orb_false_elim in H as [He Hevs].
  rewrite (IH Hevs), orb_false_r.
  destruct e as [| [] | |]; simpl in *; congruence.
Qed.

Lemma completionMessages_app (evs1 evs2 : list Event) :
  completionMessages (evs1 ++ evs2) = completionMessages evs1 ++ completionMessages evs2.
Proof. unfold completionMessages. apply flat_map_app. Qed.

(** [generateFoodImage] sends nothing to the completion service. *)
Lemma generateFoodImage_events (this : DoubaoImageClient) (foodDescription : jsstring)
    (t : Trace) :
  exists evs,
    snd (generateFoodImage' this foodDescription t) = evs ++ t
    /\ completionMessages evs = [].
Proof.
  unfold generateFoodImage.
  destruct (truthyString (image_apiKey this)); cbn [negb]; unfold_M; [| events].
  destruct (imageEndpoint _ _ _) as [response | e]; [| destruct e; events].
  destruct (ok response); cbn [negb].
  - destruct (json response) as [body | e]; [| destruct e; events].
    destruct (collectUrls isPositive body) as [urls | e]; [| destruct e]; events.
  - destruct (text response) as [errorText | e]; [| destruct e]; events.
Qed.

Lemma foodImages_events (userMessage foodDescription : jsstring) (t : Trace) :
  exists evs,
    snd (foodImages' userMessage foodDescription t) = evs ++ t
    /\ completionMessages evs = [].
Proof.
  unfold foodImages.
  destruct (truthyString foodDescription); [| events].
  unfold_M.
  destruct (detectFoodKeywords lowerMapping userMessage); [| events].
  match goal with
  | |- context [generateFoodImage ?p ?ep ?c ?d ?t0] =>
      destruct (generateFoodImage_events c d t0) as [evs [Hevs Hnone]];
      destruct (generateFoodImage p ep c d t0) as [[images | e] t1]
  end; cbn [snd] in Hevs; subst t1.
  - exists (Console LOG (js "图片生成成功，数量:") :: evs
            ++ [Call generateFoodImage_method;
                Console LOG (js "检测到食物相关内容，开始生成图片...");
                Call detectFoodKeywords_method]).
    split; [cbn [snd app]; now rewrite <- app_assoc |].
    unfold completionMessages in *. cbn [flat_map app].
    now rewrite flat_map_app, Hnone.
  - exists (Console ERROR (js "图片生成失败:") :: evs
            ++ [Call generateFoodImage_method;
                Console LOG (js "检测到食物相关内容，开始生成图片...");
                Call detectFoodKeywords_method]).
    split; [cbn [snd app]; now rewrite <- app_assoc |].
    unfold completionMessages in *. cbn [flat_map app].
    now rewrite flat_map_app, Hnone.
Qed.

(** [weightLossChat] never throws. *)
Lemma weightLossChat_returns (this : DoubaoClient) (userMessage : jsstring)
    (conversationHistory : list ChatMessage) (role : jsstring) (t : Trace) :
  exists result t',
    weightLossChat' this userMessage conversationHistory role t = (Return result, t').
Proof.
  rewrite weightLossChat_run.
  destruct (chatCompletion' this _ t) as [[response | e] t1]; [| now eexists _, _].
  destruct (replyOf isPositive response) as [[content |] | e]; try now eexists _, _.
  destruct (foodImages' userMessage _ _) as [[images | e] t2]; now eexists _, _.
Qed.

(** [weightLossChat] never returns an empty array of images: a result
    without images is a result without the [images] property. *)
Lemma weightLossChat_images_never_empty (this : DoubaoClient)
    (userMessage : jsstring) (conversationHistory : list ChatMessage)
    (role : jsstring) (t : Trace) (result : ChatResult) (t' : Trace) :
  weightLossChat' this userMessage conversationHistory role t = (Return result, t') ->
  result_images result <> Some [].
Proof.
  rewrite weightLossChat_run.
  destruct (chatCompletion' this _ t) as [[response | e] t1];
    [| intros H; injection H as <- _; discriminate].
  destruct (replyOf isPositive response) as [[content |] | e];
    try (intros H; injection H as <- _; discriminate).
  destruct (foodImages' userMessage _ _) as [[images | e] t2];
    intros H; injection H as <- _; [| discriminate].
  cbn [result_images]. destruct images; [discriminate | cbn; discriminate].
Qed.

(** The events of a whole run of [weightLossChat]: what the completion
    service was sent. *)
Lemma weightLossChat_events (this : DoubaoClient) (userMessage : jsstring)
    (conversationHistory : list ChatMessage) (role : jsstring) (t : Trace) :
  exists evs,
    snd (weightLossChat' this userMessage conversationHistory role t) = evs ++ t
    /\ completionMessages evs
       = if truthyString (apiKey this)
         then [assembleMessages role conversationHistory userMessage]
         else [].
Proof.
  destruct (chatCompletion_events this
              (weightLossRequest (assembleMessages role conversationHistory userMessage)) t)
    as [evs0 [Hevs0 [_ Hsent]]].
  cbn [req_messages weightLossRequest] in Hsent.
  rewrite weightLossChat_run.
  assert (Hcatch : forall e,
             exists evs,
               chatErrorLog e ++ evs0 ++ t = evs ++ t
               /\ completionMessages evs
                  = if truthyString (apiKey this)
                    then [assembleMessages role conversationHistory userMessage]
                    else []).
  { intros e. exists (chatErrorLog e ++ evs0). split; [now rewrite <- app_assoc |].
    rewrite completionMessages_app.
    destruct (chatErrorLog_quiet e) as [_ ->]. exact Hsent. }
  destruct (chatCompletion' this _ t) as [[response | e] t1];
    cbn [snd] in Hevs0; subst t1; [| apply Hcatch].
  destruct (replyOf isPositive response) as [[content |] | e];
    [| now exists evs0 | apply Hcatch].
  destruct (foodImages_events userMessage
              (extractFoodDescription lowerMapping userMessage)
              (Call extractFoodDescription_method :: evs0 ++ t))
    as [evs1 [Hevs1 Hnone]].
  destruct (foodImages_returns userMessage
              (extractFoodDescription lowerMapping userMessage)
              (Call extractFoodDescription_method :: evs0 ++ t))
    as [images [t2 Himages]].
  rewrite Himages in *. cbn [snd] in *. subst t2.
  exists (evs1 ++ Call extractFoodDescription_method :: evs0).
  split; [now rewrite <- app_assoc |].
  rewrite completionMessages_app, Hnone. exact Hsent.
Qed.

(** What the run reads from a response whose [choices] is an array with a
    first entry that has a message. *)
Lemma replyOf_first_choice (response choice message : JsonValue)
    (rest : list JsonValue) :
  getProperty response (js "choices") = Some (JArray (choice :: rest)) ->
  getProperty choice (js "message") = Some message ->
  message <> JNull ->
  replyOf isPositive response = Return (Some (getProperty message (js "content"))).
Proof.
  intros Hchoices Hmessage Hnotnull.
  assert (Hresponse : response <> JNull) by (intros ->; discriminate).
  assert (Hchoice : choice <> JNull) by (intros ->; discriminate).
  unfold replyOf, hasChoices, firstContent, readProperty.
  destruct response; try contradiction; rewrite Hchoices; cbn -[js Qle_bool];
    (destruct choice; try contradiction; rewrite Hmessage; cbn -[js Qle_bool];
     destruct message; try contradiction; reflexivity).
Qed.

(** C1. For every user message, role and history: when the completion call
    throws, [weightLossChat] returns (it does not throw) the fixed apology
    as its content, with no [images] property, which is how the source
    reports an empty image list. *)
Theorem completion_failure_gives_apology (this : DoubaoClient)
    (userMessage : jsstring) (conversationHistory : list ChatMessage)
    (role : jsstring) (t : Trace) (e : Thrown) (t1 : Trace) :
  chatCompletion' this
    (weightLossRequest (assembleMessages role conversationHistory userMessage)) t
  = (Throw e, t1) ->
  exists t2,
    weightLossChat' this userMessage conversationHistory role t
    = (Return {| result_content := Some apologyReply; result_images := None |}, t2).
Proof.
  intros Hthrow.
  destruct (weightLossChat_when_completion_throws _ _ _ _ _ _ _ Hthrow)
    as [evs [Hrun _]].
  now exists (evs ++ t1).
Qed.

(** C2. When the completion call of a run returns a response whose
    [choices] is an array with a first entry that has a message, and the
    call of [generateFoodImage] that this run makes (for the description
    extracted from the user message, at the trace of the run) throws, then
    [weightLossChat] returns, and does not throw: its content is the reply
    of the service, that is the [content] of that message itself when it is
    a string (its JSON text when it is another value), and the result has no
    images. *)
Theorem image_failure_keeps_reply (this : DoubaoClient)
    (userMessage : jsstring) (conversationHistory : list ChatMessage)
    (role : jsstring) (t : Trace) (response : ChatCompletionResponse) (t1 : Trace)
    (choice message : JsonValue) (rest : list JsonValue) (e : Thrown) (t3 : Trace) :
  chatCompletion' this
    (weightLossRequest (assembleMessages role conversationHistory userMessage)) t
  = (Return response, t1) ->
  getProperty response (js "choices") = Some (JArray (choice :: rest)) ->
  getProperty choice (js "message") = Some message ->
  message <> JNull ->
  generateFoodImage' doubaoImageClient
    (extractFoodDescription lowerMapping userMessage) (imageCallTrace t1)
  = (Throw e, t3) ->
  exists t2,
    weightLossChat' this userMessage conversationHistory role t
    = (Return {| result_content :=
                   match getProperty message (js "content") with
                   | Some (JString reply) => Some reply
                   | Some other => Some (JSON_stringify other)
                   | None => None
                   end;
                 result_images := None |},
       t2).
Proof.
  intros Hreturn Hchoices Hmessage Hnotnull Hfails.
  destruct (foodImages_when_generation_fails userMessage
              (extractFoodDescription lowerMapping userMessage)
              (Call extractFoodDescription_method :: t1) e t3 Hfails)
    as [t2 Himages].
  exists t2.
  rewrite (weightLossChat_when_choice this userMessage conversationHistory role t
             response t1 _ Hreturn
             (replyOf_first_choice _ _ _ _ Hchoices Hmessage Hnotnull)
             [] t2 Himages).
  reflexivity.
Qed.

(** C6. The message sequence is the system message of the role, then the
    history as given, then the new user message: [length history + 2]
    entries. A run of [weightLossChat] sends exactly this sequence to the
    completion service, once (and sends nothing when no API key is set).
    The history is a value that the run only reads. *)
Theorem messages_sent_to_completion (this : DoubaoClient)
    (userMessage : jsstring) (conversationHistory : list ChatMessage)
    (role : jsstring) (t : Trace) :
  assembleMessages role conversationHistory userMessage
  = {| role := system; content := systemPromptFor role |}
      :: conversationHistory ++ [{| role := user; content := Text userMessage |}]
  /\ List.length (assembleMessages role conversationHistory userMessage)
     = (List.length conversationHistory + 2)%nat
  /\ firstn (List.length conversationHistory)
       (tl (assembleMessages role conversationHistory userMessage))
     = conversationHistory
  /\ exists evs,
       snd (weightLossChat' this userMessage conversationHistory role t) = evs ++ t
       /\ completionMessages evs
          = if truthyString (apiKey this)
            then [assembleMessages role conversationHistory userMessage]
            else [].
Proof.
  split; [reflexivity |]. split.
  - unfold assembleMessages. rewrite !length_app. simpl. lia.
  - split; [| apply weightLossChat_events].
    unfold assembleMessages. cbn [app tl].
    rewrite firstn_app, firstn_all, Nat.sub_diag. cbn [firstn]. apply app_nil_r.
Qed.

(** C8. When [detectFoodKeywords] is false for the user message, a run of
    [weightLossChat] neither calls [generateFoodImage] nor sends a request
    to the image service, whatever the completion call does. *)
Theorem no_keyword_no_image_generation (this : DoubaoClient)
    (userMessage : jsstring) (conversationHistory : list ChatMessage)
    (role : jsstring) (t : Trace) :
  detectFoodKeywords lowerMapping userMessage = false ->
  exists evs,
    snd (weightLossChat' this userMessage conversationHistory role t) = evs ++ t
    /\ existsb imageGenerationEvent evs = false.
Proof.
  intros Hdetect.
  destruct (chatCompletion_events this
              (weightLossRequest (assembleMessages role conversationHistory userMessage)) t)
    as [evs0 [Hevs0 [Hquiet _]]].
  apply imageGeneration_is_imageClient in Hquiet.
  rewrite weightLossChat_run.
  assert (Hcatch : forall e,
             exists evs,
               chatErrorLog e ++ evs0 ++ t = evs ++ t
               /\ existsb imageGenerationEvent evs = false).
  { intros e. exists (chatErrorLog e ++ evs0). split; [now rewrite <- app_assoc |].
    rewrite existsb_app, Hquiet.
    destruct (chatErrorLog_quiet e) as [Hlog _].
    apply imageGeneration_is_imageClient in Hlog. now rewrite Hlog. }
  destruct (chatCompletion' this _ t) as [[response | e] t1];
    cbn [snd] in Hevs0; subst t1; [| apply Hcatch].
  destruct (replyOf isPositive response) as [[content |] | e];
    [| now exists evs0 | apply Hcatch].
  destruct (foodImages_without_keyword userMessage
              (extractFoodDescription lowerMapping userMessage)
              (Call extractFoodDescription_method :: evs0 ++ t) Hdetect)
    as [evs1 [-> Hquiet1]].
  exists (evs1 ++ Call extractFoodDescription_method :: evs0).
  split; [cbn [snd]; now rewrite <- app_assoc |].
  rewrite existsb_app, Hquiet1. cbn [existsb imageGenerationEvent orb].
  exact Hquiet.
Qed.



End RuntimeFacts.

(** ** The image client *)




Section ImageFacts.

Variable isPositive : JsonValue -> Outcome bool.
Variable imageEndpoint :
  Trace -> jsstring -> FetchInit ImageGenerationRequest ->
  Outcome (HttpResponse ImageGenerationResponse).






End ImageFacts.

(** ** The system prompt *)

Lemma systemPromptFor_recognized :
  systemPromptFor (js "supportive_friend") = Text supportive_friend
  /\ systemPromptFor (js "nutritionist") = Text nutritionist
  /\ systemPromptFor (js "fitness_trainer") = Text fitness_trainer.
Proof. split; [| split]; vm_compute; reflexivity. Qed.

(** A role that is neither an own property of [systemPrompts] nor a property
    of [Object.prototype] gets the prompt of the supportive friend. *)
Lemma systemPromptFor_unknown (role : jsstring) :
  existsb (jsstring_eqb role) ObjectPrototypeKeys = false ->
  role <> js "nutritionist" -> role <> js "fitness_trainer" ->
  systemPromptFor role = Text supportive_friend.
Proof.
  intros Hproto Hn Hf. unfold systemPromptFor, systemPrompts.
  destruct (jsstring_eqb role (js "supportive_friend")); [reflexivity |].
  unfold jsstring_eqb at 1.
  destruct (list_eq_dec N.eq_dec role (js "nutritionist")); [contradiction |].
  unfold jsstring_eqb at 1.
  destruct (list_eq_dec N.eq_dec role (js "fitness_trainer")); [contradiction |].
  now rewrite Hproto.
Qed.

(** C7 at the role [constructor], which is none of the three recognized
    roles: [systemPrompts[role]] finds [Object.prototype.constructor], which
    is truthy, so the fallback of [||] is not taken and the system message
    does not carry the prompt of the supportive friend. *)
Theorem systemPromptFor_constructor :
  systemPromptFor (js "constructor") = Inherited (js "constructor")
  /\ systemPromptFor (js "constructor") <> Text supportive_friend
  /\ hd_error (assembleMessages (js "constructor") [] (js "hi"))
     = Some {| role := system; content := Inherited (js "constructor") |}.
Proof.
  assert (H : systemPromptFor (js "constructor") = Inherited (js "constructor"))
    by (vm_compute; reflexivity).
  split; [exact H |]. split; [rewrite H; discriminate |].
  unfold assembleMessages. cbn [app hd_error]. now rewrite H.
Qed.

(** ** The POST handler *)

Section RouteFacts.

Variable lowerMapping : list N -> N -> list N -> list N.
Variable JSON_stringify : JsonValue -> jsstring.
Variable isPositive : JsonValue -> Outcome bool.
Variable completionEndpoint :
  Trace -> jsstring -> FetchInit ChatCompletionBody ->
  Outcome (HttpResponse ChatCompletionResponse).
Variable imageEndpoint :
  Trace -> jsstring -> FetchInit ImageGenerationRequest ->
  Outcome (HttpResponse ImageGenerationResponse).
Variable doubaoImageClient : DoubaoImageClient.
Variable doubaoClient : DoubaoClient.
Variable env : Env.
Variable clock : Trace -> jsstring.
Variable asChatMessages : list JsonValue -> list ChatMessage.
Variable ToPropertyKey : JsonValue -> Outcome jsstring.

Local Abbreviation POST' :=
  (POST lowerMapping JSON_stringify isPositive completionEndpoint imageEndpoint
     doubaoImageClient doubaoClient env clock asChatMessages ToPropertyKey).

(** A body that is not [null] destructures without a throw. *)
Lemma destructure_not_null (body : JsonValue) (t : Trace) :
  body <> JNull ->
  destructure body t
  = (Return
       (getProperty body (js "message"),
        withDefault (getProperty body (js "conversationHistory")) (JArray []),
        withDefault (getProperty body (js "role")) (JString (js "supportive_friend"))),
     t).
Proof.
  intros Hbody. destruct body; [contradiction | reflexivity ..].
Qed.

(** The rejection of a request, on every body but [null]. For every request
    whose body decodes to a JSON value other than [null], in which [message] is absent
    or not a string, or [conversationHistory] is present and not an array,
    the handler answers with status 400 and an [error] field, and the run
    has no event: no call of [weightLossChat], no request to the completion
    or the image service. *)
Lemma invalid_body_is_rejected (request : NextRequest) (body : JsonValue)
    (t : Trace) :
  request_json request = Return body ->
  body <> JNull ->
  isString (getProperty body (js "message")) = false
  \/ (exists v,
         getProperty body (js "conversationHistory") = Some v /\ isArray v = false) ->
  exists response,
    POST' request t = (Return response, t)
    /\ response_status response = 400
    /\ errorField (response_payload response) <> None.
Proof.
  intros Hjson Hbody Hinvalid.
  unfold POST. unfold tryCatch at 1, bind at 1, await at 1. rewrite Hjson.
  unfold bind at 1. rewrite (destructure_not_null body t Hbody).
  destruct (negb (truthy (getProperty body (js "message")))
            || negb (isString (getProperty body (js "message")))) eqn:Hmessage.
  - eexists. split; [reflexivity |]. split; [reflexivity | discriminate].
  - destruct Hinvalid as [Hnotstring | [v [Hhistory Hnotarray]]].
    + rewrite Hnotstring in Hmessage. cbn [negb] in Hmessage.
      rewrite orb_true_r in Hmessage. discriminate.
    + rewrite Hhistory. cbn [withDefault]. rewrite Hnotarray. cbn [negb].
      eexists. split; [reflexivity |]. split; [reflexivity | discriminate].
Qed.

(** A body that is [null] is answered with status 500: the destructuring
    throws inside the [try]. *)
Lemma null_body_is_a_server_error (request : NextRequest) (t : Trace) :
  request_json request = Return JNull ->
  exists response t',
    POST' request t = (Return response, t')
    /\ response_status response = 500.
Proof.
  intros Hjson.
  unfold POST. unfold tryCatch at 1, bind at 1, await at 1. rewrite Hjson.
  unfold bind at 1. cbn [destructure]. unfold_M.
  eexists _, _. split; reflexivity.
Qed.

End RouteFacts.

(** C1 at a client without an API key: [chatCompletion] throws before any
    request. *)
Lemma completion_failure_gives_apology_without_key :
  exists t2,
    weightLossChat caselessMapping stringifyNothing neverPositive unreachable
      unreachable exampleImageClient clientWithoutKey (js "你好") []
      (js "nutritionist") []
    = (Return {| result_content := Some apologyReply; result_images := None |}, t2).
Proof.
  eapply completion_failure_gives_apology. reflexivity.
Defined.

(** C2 at a food message, a completion that answers and an image client
    without an API key, whose [generateFoodImage] throws. *)
Lemma image_failure_keeps_reply_without_image_key :
  exists t2,
    weightLossChat caselessMapping stringifyNothing neverPositive
      (answering (httpOk (completion (Some (JArray [reply (js "披萨热量较高")])))))
      unreachable imageClientWithoutKey exampleClient
      (js "想吃披萨") [] (js "nutritionist") []
    = (Return {| result_content := Some (js "披萨热量较高"); result_images := None |},
       t2).
Proof.
  pose (service :=
          answering (B := ChatCompletionBody)
            (httpOk (completion (Some (JArray [reply (js "披萨热量较高")]))))).
  pose (t1 :=
          snd (chatCompletion service exampleClient
                 (weightLossRequest
                    (assembleMessages (js "nutritionist") [] (js "想吃披萨"))) [])).
  destruct (image_failure_keeps_reply caselessMapping stringifyNothing neverPositive
              service unreachable imageClientWithoutKey exampleClient
              (js "想吃披萨") [] (js "nutritionist") []
              (completion (Some (JArray [reply (js "披萨热量较高")]))) t1
              (reply (js "披萨热量较高"))
              (JObject [(js "role", JString (js "assistant"));
                        (js "content", JString (js "披萨热量较高"))])
              []
              (ErrorObject (js "豆包图片生成API key not configured"))
              (imageCallTrace t1))
    as [t2 Hrun].
  - vm_compute. reflexivity.
  - vm_compute. reflexivity.
  - vm_compute. reflexivity.
  - discriminate.
  - reflexivity.
  - exists t2. unfold service in Hrun. rewrite Hrun. vm_compute. reflexivity.
Defined.

(** C8 at the message [hello]. *)
Lemma no_keyword_no_image_generation_hello :
  exists evs,
    snd (weightLossChat caselessMapping stringifyNothing neverPositive
           (answering (httpOk (completion (Some (JArray [reply (js "你好")])))))
           (answering (httpOk (imageResponse None)))
           exampleImageClient exampleClient (js "hello") [] (js "nutritionist") [])
    = evs ++ []
    /\ existsb imageGenerationEvent evs = false.
Proof.
  apply no_keyword_no_image_generation. vm_compute. reflexivity.
Defined.




(** The 400 of the handler at the body [{}]: [message] is omitted. *)
Lemma invalid_body_is_rejected_empty_object :
  exists response,
    POST caselessMapping stringifyNothing neverPositive unreachable unreachable
      exampleImageClient exampleClient emptyEnv fixedClock noMessages keyOfNothing
      {| request_json := Return (JObject []) |} []
    = (Return response, [])
    /\ response_status response = 400
    /\ errorField (response_payload response) <> None.
Proof.
  apply (invalid_body_is_rejected caselessMapping stringifyNothing neverPositive
           unreachable unreachable exampleImageClient exampleClient emptyEnv
           fixedClock noMessages keyOfNothing
           {| request_json := Return (JObject []) |} (JObject []) []);
    [reflexivity | discriminate | left; reflexivity].
Defined.

(** C9 at the body [null], which has no [message]: the handler answers it
    with status 500, not 400, because the destructuring throws before the
    check of [message] is reached. Every other body without a [message], be
    it an object, a boolean, a number, a string or an array, is answered
    with status 400 and an [error] field, and causes no event. *)
Theorem null_body_is_answered_500 :
  (exists response t',
      POST caselessMapping stringifyNothing neverPositive unreachable unreachable
        exampleImageClient exampleClient emptyEnv fixedClock noMessages
        keyOfNothing {| request_json := Return JNull |} []
      = (Return response, t')
      /\ response_status response = 500)
  /\ forall body,
       In body [JObject []; JBool true; JNumber 5; JString (js "hi"); JArray []] ->
       exists response,
         POST caselessMapping stringifyNothing neverPositive unreachable unreachable
           exampleImageClient exampleClient emptyEnv fixedClock noMessages
           keyOfNothing {| request_json := Return body |} []
         = (Return response, [])
         /\ response_status response = 400
         /\ errorField (response_payload response) <> None.
Proof.
  split.
  - apply null_body_is_a_server_error. reflexivity.
  - intros body Hin.
    apply (invalid_body_is_rejected caselessMapping stringifyNothing neverPositive
             unreachable unreachable exampleImageClient exampleClient emptyEnv
             fixedClock noMessages keyOfNothing
             {| request_json := Return body |} body []);
      [reflexivity | |];
      cbn [In] in Hin;
      repeat (destruct Hin as [<- | Hin]; [first [discriminate | now left] |]);
      contradiction.
Qed.

(** * Further properties of the code *)

(** ** The orchestrator *)

Lemma description_needs_keyword (lowerMapping : list N -> N -> list N -> list N)
    (userMessage : jsstring) :
  truthyString (extractFoodDescription lowerMapping userMessage) = true ->
  detectFoodKeywords lowerMapping userMessage = true.
Proof.
  unfold extractFoodDescription.
  destruct (firstEatPattern eatPatterns userMessage) as [description|] eqn:Hfirst.
  - intros _. apply detectFoodKeywords_eatUnit.
    exact (firstEatPattern_requires eatUnit userMessage _ _
             eatPatterns_require_eatUnit Hfirst).
  - destruct (detectFoodKeywords lowerMapping userMessage); [reflexivity | discriminate].
Qed.

Lemma imageRequests_app (evs1 evs2 : list Event) :
  imageRequests (evs1 ++ evs2) = imageRequests evs1 ++ imageRequests evs2.
Proof. unfold imageRequests. apply flat_map_app. Qed.

Lemma completionRequests_app (evs1 evs2 : list Event) :
  completionRequests (evs1 ++ evs2)
  = completionRequests evs1 ++ completionRequests evs2.
Proof. unfold completionRequests. apply flat_map_app. Qed.

Lemma generationCalls_app (evs1 evs2 : list Event) :
  generationCalls (evs1 ++ evs2) = (generationCalls evs1 + generationCalls evs2)%nat.
Proof. unfold generationCalls. now rewrite filter_app, length_app. Qed.

Lemma imageClientEvent_none (evs : list Event) :
  existsb imageClientEvent evs = false ->
  imageRequests evs = [] /\ generationCalls evs = 0%nat.
Proof.
  induction evs as [|e evs IH]; [now split |].
  cbn [existsb]. intros H. apply orb_false_elim in H as [He Hevs].
  destruct (IH Hevs) as [Hreq Hcalls].
  unfold imageRequests, generationCalls in *. cbn [flat_map filter].
  rewrite Hreq.
  destruct e as [| [] | |]; cbn in *; try discriminate; now split.
Qed.

Lemma completionMessages_none (evs : list Event) :
  completionMessages evs = [] -> completionRequests evs = [].
Proof.
  induction evs as [|e evs IH]; [reflexivity |].
  unfold completionMessages, completionRequests in *. cbn [flat_map].
  destruct e; cbn [app]; try exact IH. discriminate.
Qed.

Lemma filter_all_true {A} (f : A -> bool) (l : list A) :
  Forall (fun x => f x = true) (filter f l).
Proof.
  apply Forall_forall. intros x Hin. now apply filter_In in Hin.
Qed.

(** What [collectUrls] returns holds truthy values only. *)
Lemma forEachUrl_truthy (items urls : list JsonValue) :
  forEachUrl items = Return urls -> Forall (fun u => truthyValue u = true) urls.
Proof.
  revert urls. induction items as [| item items IH]; intros urls.
  - intros H. injection H as <-. constructor.
  - cbn [forEachUrl]. unfold pushUrl.
    destruct (readProperty (Some item) "url") as [url | e]; [| discriminate].
    cbn [andThen].
    destruct (forEachUrl items) as [more | e]; [| discriminate].
    cbn [andThen]. intros H. injection H as <-.
    apply Forall_app. split; [| now apply IH].
    destruct url as [u |]; [| constructor].
    assert (Hcase : forall c : bool,
               (c = true -> truthyValue u = true) ->
               Forall (fun u => truthyValue u = true) (if c then [u] else []))
      by (intros [|] Hc; repeat constructor; auto).
    apply Hcase. intros Hc. exact Hc.
Qed.

Lemma collectUrls_truthy (isPositive : JsonValue -> Outcome bool)
    (body : JsonValue) (urls : list JsonValue) :
  collectUrls isPositive body = Return urls ->
  Forall (fun u => truthyValue u = true) urls.
Proof.
  unfold collectUrls.
  destruct (readProperty (Some body) "data") as [entries | e]; [| discriminate].
  cbn [andThen].
  destruct (truthy entries); [| intros H; injection H as <-; constructor].
  destruct (readLength entries) as [length | e]; [| discriminate].
  cbn [andThen].
  destruct (greaterThanZero isPositive length) as [[|] | e]; cbn [andThen];
    [| intros H; injection H as <-; constructor | discriminate].
  destruct entries as [[| | | | items |] |]; try discriminate.
  apply forEachUrl_truthy.
Qed.

Lemma readsFirstChoice_spec (isPositive : JsonValue -> Outcome bool)
    (o : Outcome ChatCompletionResponse) :
  readsFirstChoice isPositive o
  = match o with
    | Return response =>
        match replyOf isPositive response with
        | Return (Some _) => true
        | _ => false
        end
    | Throw _ => false
    end.
Proof.
  destruct o as [response | e]; [| reflexivity].
  unfold readsFirstChoice, replyOf.
  destruct (hasChoices isPositive response) as [[|] | e]; cbn [andThen];
    try reflexivity.
  now destruct (firstContent response).
Qed.

Section OrchestratorExtras.

Variable lowerMapping : list N -> N -> list N -> list N.
Variable JSON_stringify : JsonValue -> jsstring.
Variable isPositive : JsonValue -> Outcome bool.
Variable completionEndpoint :
  Trace -> jsstring -> FetchInit ChatCompletionBody ->
  Outcome (HttpResponse ChatCompletionResponse).
Variable imageEndpoint :
  Trace -> jsstring -> FetchInit ImageGenerationRequest ->
  Outcome (HttpResponse ImageGenerationResponse).
Variable doubaoImageClient : DoubaoImageClient.

Local Abbreviation chatCompletion' := (chatCompletion completionEndpoint).
Local Abbreviation generateFoodImage' := (generateFoodImage isPositive imageEndpoint).
Local Abbreviation foodImages' :=
  (foodImages lowerMapping isPositive imageEndpoint doubaoImageClient).
Local Abbreviation weightLossChat' :=
  (weightLossChat lowerMapping JSON_stringify isPositive completionEndpoint
     imageEndpoint doubaoImageClient).
Local Abbreviation weightLossChat_run' :=
  (weightLossChat_run lowerMapping JSON_stringify isPositive completionEndpoint
     imageEndpoint doubaoImageClient).

(** All that [chatCompletion] does that can be seen: at most one request,
    the one of [completionRequest] with [stream] as the request has it. *)
Lemma chatCompletion_requests (this : DoubaoClient) (request : ChatCompletionRequest)
    (t : Trace) :
  exists evs,
    snd (chatCompletion' this request t) = evs ++ t
    /\ existsb imageClientEvent evs = false
    /\ completionRequests evs
       = if truthyString (apiKey this)
         then [completionRequest this request (orBool (req_stream request) false)]
         else [].
Proof.
  unfold chatCompletion.
  destruct (truthyString (apiKey this)); cbn [negb]; unfold_M.
  - destruct (completionEndpoint t _ _) as [response | e]; [| events].
    destruct (ok response); cbn [negb].
    + destruct (json response); events.
    + destruct (text response); events.
  - events.
Qed.

(** All that [generateFoodImage] does that can be seen: at most one
    request, the one of [foodImageRequest]. *)
Lemma generateFoodImage_requests (this : DoubaoImageClient) (foodDescription : jsstring)
    (t : Trace) :
  exists evs,
    snd (generateFoodImage' this foodDescription t) = evs ++ t
    /\ completionRequests evs = []
    /\ generationCalls evs = 0%nat
    /\ imageRequests evs
       = if truthyString (image_apiKey this)
         then [foodImageRequest this foodDescription]
         else [].
Proof.
  unfold generateFoodImage.
  destruct (truthyString (image_apiKey this)); cbn [negb]; unfold_M; [| events].
  destruct (imageEndpoint _ _ _) as [response | e]; [| destruct e; events].
  destruct (ok response); cbn [negb].
  - destruct (json response) as [body | e]; [| destruct e; events].
    destruct (collectUrls isPositive body) as [urls | e]; [| destruct e]; events.
  - destruct (text response) as [errorText | e]; [| destruct e]; events.
Qed.

(** What [generateFoodImage] returns, when it returns, is what
    [collectUrls] makes of a decoded 2xx response. *)
Lemma generateFoodImage_returns_inv (this : DoubaoImageClient)
    (foodDescription : jsstring) (t : Trace) (urls : list JsonValue) (t' : Trace) :
  generateFoodImage' this foodDescription t = (Return urls, t') ->
  truthyString (image_apiKey this) = true
  /\ exists body, collectUrls isPositive body = Return urls.
Proof.
  unfold generateFoodImage.
  destruct (truthyString (image_apiKey this)); cbn [negb]; unfold_M;
    [| discriminate].
  destruct (imageEndpoint _ _ _) as [response | e];
    [| destruct e; discriminate].
  destruct (ok response); cbn [negb].
  - destruct (json response) as [body | e]; [| destruct e; discriminate].
    destruct (collectUrls isPositive body) as [found | e] eqn:Hfound;
      [| destruct e; discriminate].
    intros H. injection H as <- _. split; [reflexivity | now exists body].
  - destruct (text response) as [errorText | e]; [| destruct e]; discriminate.
Qed.

(** The image step: when it calls [generateFoodImage], and what it sends. *)
Lemma foodImages_requests (userMessage foodDescription : jsstring) (t : Trace) :
  exists evs,
    snd (foodImages' userMessage foodDescription t) = evs ++ t
    /\ completionRequests evs = []
    /\ generationCalls evs
       = (if truthyString foodDescription && detectFoodKeywords lowerMapping userMessage
          then 1 else 0)%nat
    /\ imageRequests evs
       = if truthyString foodDescription && detectFoodKeywords lowerMapping userMessage
            && truthyString (image_apiKey doubaoImageClient)
         then [foodImageRequest doubaoImageClient foodDescription]
         else [].
Proof.
  unfold foodImages.
  destruct (truthyString foodDescription); cbn [andb]; [| events].
  unfold_M.
  destruct (detectFoodKeywords lowerMapping userMessage); cbn [andb]; [| events].
  match goal with
  | |- context [generateFoodImage ?p ?ep ?c ?d ?t0] =>
      destruct (generateFoodImage_requests c d t0)
        as [evs [Hevs [Hcompletion [Hcalls Himage]]]];
      destruct (generateFoodImage p ep c d t0) as [[images | e] t1]
  end; cbn [snd] in Hevs; subst t1.
  - exists (Console LOG (js "图片生成成功，数量:") :: evs
            ++ [Call generateFoodImage_method;
                Console LOG (js "检测到食物相关内容，开始生成图片...");
                Call detectFoodKeywords_method]).
    split; [cbn [snd app]; now rewrite <- app_assoc |].
    rewrite app_comm_cons, completionRequests_app, generationCalls_app,
      imageRequests_app.
    change (completionRequests (Console LOG (js "图片生成成功，数量:") :: evs))
      with (completionRequests evs).
    change (generationCalls (Console LOG (js "图片生成成功，数量:") :: evs))
      with (generationCalls evs).
    change (imageRequests (Console LOG (js "图片生成成功，数量:") :: evs))
      with (imageRequests evs).
    rewrite Hcompletion, Hcalls, Himage.
    split; [reflexivity |]. split; [reflexivity |]. apply app_nil_r.
  - exists (Console ERROR (js "图片生成失败:") :: evs
            ++ [Call generateFoodImage_method;
                Console LOG (js "检测到食物相关内容，开始生成图片...");
                Call detectFoodKeywords_method]).
    split; [cbn [snd app]; now rewrite <- app_assoc |].
    rewrite app_comm_cons, completionRequests_app, generationCalls_app,
      imageRequests_app.
    change (completionRequests (Console ERROR (js "图片生成失败:") :: evs))
      with (completionRequests evs).
    change (generationCalls (Console ERROR (js "图片生成失败:") :: evs))
      with (generationCalls evs).
    change (imageRequests (Console ERROR (js "图片生成失败:") :: evs))
      with (imageRequests evs).
    rewrite Hcompletion, Hcalls, Himage.
    split; [reflexivity |]. split; [reflexivity |]. apply app_nil_r.
Qed.

(** Images that the image step returns come from a call of
    [generateFoodImage] that returned them. *)
Lemma foodImages_nonempty_inv (userMessage foodDescription : jsstring) (t : Trace)
    (images : list JsonValue) (t' : Trace) :
  foodImages' userMessage foodDescription t = (Return images, t') ->
  images <> [] ->
  truthyString foodDescription = true
  /\ detectFoodKeywords lowerMapping userMessage = true
  /\ exists t0 t1,
       generateFoodImage' doubaoImageClient foodDescription t0 = (Return images, t1).
Proof.
  unfold foodImages.
  destruct (truthyString foodDescription);
    [| intros H Hne; injection H as <- _; contradiction].
  unfold_M.
  destruct (detectFoodKeywords lowerMapping userMessage);
    [| intros H Hne; injection H as <- _; contradiction].
  match goal with
  | |- context [generateFoodImage ?p ?ep ?c ?d ?t0] =>
      destruct (generateFoodImage p ep c d t0) as [[urls | e] t1] eqn:Hgeneration
  end.
  - intros H _. injection H as <- _.
    split; [reflexivity |]. split; [reflexivity |]. eexists _, _. exact Hgeneration.
  - intros H Hne. injection H as <- _. contradiction.
Qed.

(** The [catch] branch of [weightLossChat] sends nothing and calls nothing. *)
Lemma chatErrorLog_requests (e : Thrown) :
  completionRequests (chatErrorLog e) = []
  /\ generationCalls (chatErrorLog e) = 0%nat
  /\ imageRequests (chatErrorLog e) = [].
Proof. destruct e; split; [| split | | split]; reflexivity. Qed.

(** The requests and the calls of a whole run of [weightLossChat]. *)
Lemma weightLossChat_requests (this : DoubaoClient) (userMessage : jsstring)
    (conversationHistory : list ChatMessage) (role : jsstring) (t : Trace) :
  let request :=
    weightLossRequest (assembleMessages role conversationHistory userMessage) in
  let description := extractFoodDescription lowerMapping userMessage in
  let chosen := readsFirstChoice isPositive (fst (chatCompletion' this request t)) in
  exists evs,
    snd (weightLossChat' this userMessage conversationHistory role t) = evs ++ t
    /\ completionRequests evs
       = (if truthyString (apiKey this)
          then [completionRequest this request false]
          else [])
    /\ generationCalls evs
       = (if chosen && truthyString description then 1 else 0)%nat
    /\ imageRequests evs
       = if chosen && truthyString description
            && truthyString (image_apiKey doubaoImageClient)
         then [foodImageRequest doubaoImageClient description]
         else [].
Proof.
  intros request description chosen. subst chosen.
  rewrite readsFirstChoice_spec.
  destruct (chatCompletion_requests this request t)
    as [evs0 [Hevs0 [Hquiet Hsent]]].
  destruct (imageClientEvent_none evs0 Hquiet) as [Himage0 Hcalls0].
  cbn [req_stream weightLossRequest orBool] in Hsent.
  fold request in Hsent. change (orBool None false) with false in Hsent.
  rewrite weightLossChat_run'. fold request. fold description.
  assert (Hcatch : forall e,
             exists evs,
               chatErrorLog e ++ evs0 ++ t = evs ++ t
               /\ completionRequests evs
                  = (if truthyString (apiKey this)
                     then [completionRequest this request false]
                     else [])
               /\ generationCalls evs = 0%nat
               /\ imageRequests evs = []).
  { intros e. exists (chatErrorLog e ++ evs0). split; [now rewrite <- app_assoc |].
    rewrite completionRequests_app, generationCalls_app, imageRequests_app.
    destruct (chatErrorLog_requests e) as [-> [-> ->]].
    rewrite Hcalls0, Himage0, Hsent. split; [reflexivity |]. split; reflexivity. }
  destruct (chatCompletion' this request t) as [[response | e] t1];
    cbn [snd fst] in *; subst t1; [| apply Hcatch].
  destruct (replyOf isPositive response) as [[content |] | e]; cbn [andb];
    [| exists evs0; split; [reflexivity |]; split; [exact Hsent |];
       split; assumption
     | apply Hcatch].
  destruct (foodImages_requests userMessage description
              (Call extractFoodDescription_method :: evs0 ++ t))
    as [evs1 [Hevs1 [Hcompletion1 [Hcalls1 Himage1]]]].
  destruct (foodImages_returns lowerMapping isPositive imageEndpoint
              doubaoImageClient userMessage description
              (Call extractFoodDescription_method :: evs0 ++ t))
    as [images [t2 Himages]].
  rewrite Himages in *. cbn [snd] in *. subst t2.
  exists (evs1 ++ Call extractFoodDescription_method :: evs0).
  split; [now rewrite <- app_assoc |].
  rewrite completionRequests_app, generationCalls_app, imageRequests_app.
  change (completionRequests (Call extractFoodDescription_method :: evs0))
    with (completionRequests evs0).
  change (generationCalls (Call extractFoodDescription_method :: evs0))
    with (generationCalls evs0).
  change (imageRequests (Call extractFoodDescription_method :: evs0))
    with (imageRequests evs0).
  rewrite Hcompletion1, Hcalls1, Himage1, Hcalls0, Himage0, Hsent.
  assert (Hguard : truthyString description
                   && detectFoodKeywords lowerMapping userMessage
                   = truthyString description).
  { destruct (truthyString description) eqn:Hd; [| reflexivity].
    subst description.
    now rewrite (description_needs_keyword lowerMapping userMessage Hd). }
  rewrite Hguard, Nat.add_0_r, app_nil_r.
  split; [reflexivity |]. split; reflexivity.
Qed.

(** X1. [weightLossChat] never throws, whatever the two services do; and
    what it returns is the apology without images, the fallback reply
    without images, or a result whose content is the text of the first
    choice of the response that [chatCompletion] returned. *)
Theorem weightLossChat_never_throws (this : DoubaoClient) (userMessage : jsstring)
    (conversationHistory : list ChatMessage) (role : jsstring) (t : Trace) :
  exists result t',
    weightLossChat' this userMessage conversationHistory role t = (Return result, t')
    /\ (result = {| result_content := Some apologyReply; result_images := None |}
        \/ result = {| result_content := Some fallbackReply; result_images := None |}
        \/ exists response t1 content,
             chatCompletion' this
               (weightLossRequest (assembleMessages role conversationHistory userMessage))
               t
             = (Return response, t1)
             /\ hasChoices isPositive response = Return true
             /\ firstContent response = Return content
             /\ result_content result = textOf JSON_stringify content).
Proof.
  rewrite weightLossChat_run'.
  destruct (chatCompletion' this _ t) as [[response | e] t1];
    [| eexists _, _; split; [reflexivity | now left]].
  unfold replyOf.
  destruct (hasChoices isPositive response) as [[|] | e] eqn:Hchosen; cbn [andThen];
    [| eexists _, _; split; [reflexivity | right; now left]
     | eexists _, _; split; [reflexivity | now left]].
  destruct (firstContent response) as [content | e] eqn:Hcontent; cbn [andThen];
    [| eexists _, _; split; [reflexivity | now left]].
  destruct (foodImages_returns lowerMapping isPositive imageEndpoint
              doubaoImageClient userMessage
              (extractFoodDescription lowerMapping userMessage)
              (Call extractFoodDescription_method :: t1))
    as [images [t2 ->]].
  eexists _, _. split; [reflexivity |]. right. right.
  exists response, t1, content.
  split; [reflexivity |]. split; [exact Hchosen |].
  split; [exact Hcontent | reflexivity].
Qed.

(** X2. When the result of [weightLossChat] has images, the list is not
    empty, every entry is a truthy value (a [url] of the response of the
    image service, which need not be a string), the description extracted
    from the user message is not empty and the message holds a food
    keyword. *)
Theorem images_only_for_food_messages (this : DoubaoClient) (userMessage : jsstring)
    (conversationHistory : list ChatMessage) (role : jsstring) (t : Trace)
    (result : ChatResult) (t' : Trace) (images : list JsonValue) :
  weightLossChat' this userMessage conversationHistory role t = (Return result, t') ->
  result_images result = Some images ->
  images <> []
  /\ Forall (fun u => truthyValue u = true) images
  /\ truthyString (extractFoodDescription lowerMapping userMessage) = true
  /\ detectFoodKeywords lowerMapping userMessage = true.
Proof.
  rewrite weightLossChat_run'.
  destruct (chatCompletion' this _ t) as [[response | e] t1];
    [| intros H; injection H as <- _; discriminate].
  destruct (replyOf isPositive response) as [[content |] | e];
    try (intros H; injection H as <- _; discriminate).
  destruct (foodImages' userMessage _ _) as [[urls | e] t2] eqn:Hstep;
    intros H; injection H as <- _; [| discriminate].
  cbn [result_images]. intros Himages.
  destruct urls as [| u urls]; [discriminate |].
  cbn in Himages. injection Himages as <-.
  destruct (foodImages_nonempty_inv _ _ _ _ _ Hstep)
    as [Hdescription [Hdetect [t0 [t3 Hgeneration]]]]; [discriminate |].
  destruct (generateFoodImage_returns_inv _ _ _ _ _ Hgeneration)
    as [_ [body Hurls]].
  split; [discriminate |]. split; [| now split].
  exact (collectUrls_truthy isPositive body _ Hurls).
Qed.

(** X3. The one request a run of [weightLossChat] sends to the completion
    service (none without an API key) is a POST to [baseURL/chat/completions]
    with the bearer key, the default model of the client, temperature 0.8,
    at most 1500 tokens, no streaming and thinking enabled. *)
Theorem weightLossChat_request_parameters (this : DoubaoClient)
    (userMessage : jsstring) (conversationHistory : list ChatMessage)
    (role : jsstring) (t : Trace) :
  exists evs,
    snd (weightLossChat' this userMessage conversationHistory role t) = evs ++ t
    /\ completionRequests evs
       = if truthyString (apiKey this)
         then
           [(baseURL this ++ js "/chat/completions",
             {| init_method := js "POST";
                init_headers :=
                  [(js "Content-Type", js "application/json");
                   (js "Authorization", js "Bearer " ++ apiKey this)];
                init_body := {|
                  body_model := defaultModel this;
                  body_messages :=
                    assembleMessages role conversationHistory userMessage;
                  body_temperature := 8 # 10;
                  body_max_tokens := 1500;
                  body_stream := false;
                  body_thinking := enabled
                |} |})]
         else [].
Proof.
  destruct (weightLossChat_requests this userMessage conversationHistory role t)
    as [evs [Hevs [Hsent _]]].
  exists evs. split; [exact Hevs | exact Hsent].
Qed.

(** X4. [generateFoodImage] is called exactly when the completion call
    returned a response in which the run found choices and could read the
    content of the first one (a first choice that is [null] or has no
    message ends the run in the [catch] branch before the image step), and
    the description extracted from the user message is not empty (the test
    of the keywords never decides). The one request to the image service,
    sent when moreover the image client has its API key, carries the
    template of [buildFoodPrompt] around that description: it is built from
    the message of the user, not from the reply. *)
Theorem image_request_of_a_run (this : DoubaoClient) (userMessage : jsstring)
    (conversationHistory : list ChatMessage) (role : jsstring) (t : Trace) :
  exists evs,
    snd (weightLossChat' this userMessage conversationHistory role t) = evs ++ t
    /\ generationCalls evs
       = (if readsFirstChoice isPositive
               (fst (chatCompletion' this
                       (weightLossRequest
                          (assembleMessages role conversationHistory userMessage)) t))
             && truthyString (extractFoodDescription lowerMapping userMessage)
          then 1 else 0)%nat
    /\ imageRequests evs
       = if readsFirstChoice isPositive
              (fst (chatCompletion' this
                      (weightLossRequest
                         (assembleMessages role conversationHistory userMessage)) t))
            && truthyString (extractFoodDescription lowerMapping userMessage)
            && truthyString (image_apiKey doubaoImageClient)
         then [foodImageRequest doubaoImageClient
                 (extractFoodDescription lowerMapping userMessage)]
         else [].
Proof.
  destruct (weightLossChat_requests this userMessage conversationHistory role t)
    as [evs [Hevs [_ [Hcalls Himage]]]].
  exists evs. split; [exact Hevs |]. split; [exact Hcalls | exact Himage].
Qed.

(** X5. Without an API key a chat turn reaches no service: [weightLossChat]
    returns the apology and the run sends no request, neither to the
    completion service nor to the image service. *)
Theorem no_key_no_network (this : DoubaoClient) (userMessage : jsstring)
    (conversationHistory : list ChatMessage) (role : jsstring) (t : Trace) :
  truthyString (apiKey this) = false ->
  exists evs,
    weightLossChat' this userMessage conversationHistory role t
    = (Return {| result_content := Some apologyReply; result_images := None |},
       evs ++ t)
    /\ completionRequests evs = []
    /\ imageRequests evs = [].
Proof.
  intros Hkey.
  pose proof (chatCompletion_no_key completionEndpoint this
                (weightLossRequest (assembleMessages role conversationHistory userMessage))
                t Hkey) as Hthrow.
  destruct (weightLossChat_when_completion_throws lowerMapping JSON_stringify
              isPositive completionEndpoint imageEndpoint doubaoImageClient
              _ _ _ _ _ _ _ Hthrow) as [evs [Hrun [Hquiet Hnone]]].
  exists evs. split; [exact Hrun |].
  split; [now apply completionMessages_none |].
  now apply imageClientEvent_none.
Qed.

End OrchestratorExtras.

(** X2 at a food message, a completion that answers and an image service
    that answers with one url. *)
Lemma images_only_for_food_messages_pizza :
  [JString (js "https://cdn.example/a.png")] <> []
  /\ Forall (fun u => truthyValue u = true) [JString (js "https://cdn.example/a.png")]
  /\ truthyString (extractFoodDescription caselessMapping (js "想吃披萨")) = true
  /\ detectFoodKeywords caselessMapping (js "想吃披萨") = true.
Proof.
  eapply (images_only_for_food_messages caselessMapping stringifyNothing
            neverPositive
            (answering (httpOk (completion (Some (JArray [reply (js "好的")])))))
            (answering
               (httpOk
                  (imageResponse
                     (Some
                        (JArray
                           [imageEntry
                              (Some (JString (js "https://cdn.example/a.png"))) 0])))))
            exampleImageClient exampleClient (js "想吃披萨") [] (js "nutritionist") []);
    [vm_compute; reflexivity | reflexivity].
Defined.

(** X5 at a client without an API key. *)
Lemma no_key_no_network_example :
  exists evs,
    weightLossChat caselessMapping stringifyNothing neverPositive unreachable
      unreachable exampleImageClient clientWithoutKey (js "想吃披萨") []
      (js "nutritionist") []
    = (Return {| result_content := Some apologyReply; result_images := None |},
       evs ++ [])
    /\ completionRequests evs = []
    /\ imageRequests evs = [].
Proof.
  apply no_key_no_network. reflexivity.
Defined.

(** A first choice without a message: reading its content throws, the run
    ends in the [catch] branch with the apology, and [generateFoodImage] is
    not called although the message is about food. *)
Example first_choice_without_message :
  let run :=
    weightLossChat caselessMapping stringifyNothing neverPositive
      (answering (httpOk (completion (Some (JArray [JObject []])))))
      unreachable exampleImageClient exampleClient (js "想吃披萨") []
      (js "nutritionist") [] in
  fst run = Return {| result_content := Some apologyReply; result_images := None |}
  /\ generationCalls (snd run) = 0%nat.
Proof. vm_compute. split; reflexivity. Qed.

(** ** The classifier, further *)

Lemma capture_In (n : nat) (caps : captures) (g : jsstring) :
  capture n caps = Some g -> In g (map snd caps).
Proof.
  induction caps as [|[m s] caps IH]; simpl; [discriminate |].
  destruct (Nat.eqb n m).
  - intros H. injection H as ->. now left.
  - intros H. right. now apply IH.
Qed.

(** The matcher calls its continuation on a suffix of its input, and every
    group it has captured by then is a part of the text. *)
Lemma matchRegex_captures (input : jsstring) :
  forall r k s caps m,
    matchRegex r k s caps = Some m ->
    (exists p, input = p ++ s) ->
    Forall (fun g => isInfix g input) (map snd caps) ->
    exists w s' caps',
      s = w ++ s'
      /\ k s' caps' = Some m
      /\ Forall (fun g => isInfix g input) (map snd caps').
Proof.
  induction r as [| a | | r1 IH1 r2 IH2 | r1 IH1 r2 IH2 | n r IH | r IH | a];
    intros k s caps m H Hsuffix Hcaps; simpl in H.
  - now exists [], s, caps.
  - destruct s as [|u s]; [discriminate |].
    destruct (atomMatches a u); [| discriminate].
    now exists [u], s, caps.
  - destruct s; [| discriminate]. now exists [], [], caps.
  - destruct (IH1 _ _ _ _ H Hsuffix Hcaps) as [w1 [s1 [caps1 [-> [H2 Hcaps1]]]]].
    destruct Hsuffix as [p Hp].
    assert (Hsuffix1 : exists p1, input = p1 ++ s1)
      by (exists (p ++ w1); now rewrite <- app_assoc).
    destruct (IH2 _ _ _ _ H2 Hsuffix1 Hcaps1) as [w2 [s2 [caps2 [-> [Hk Hcaps2]]]]].
    exists (w1 ++ w2), s2, caps2. now rewrite <- app_assoc.
  - destruct (matchRegex r1 k s caps) as [m1|] eqn:H1.
    + injection H as <-. eapply IH1; eassumption.
    + eapply IH2; eassumption.
  - destruct (IH _ _ _ _ H Hsuffix Hcaps) as [w [s' [caps' [-> [Hk Hcaps']]]]].
    exists w, s', ((n, firstn (List.length (w ++ s') - List.length s') (w ++ s')) :: caps').
    split; [reflexivity |]. split; [exact Hk |].
    cbn [map snd]. constructor; [| exact Hcaps'].
    rewrite length_app, Nat.add_sub, firstn_app, firstn_all, Nat.sub_diag.
    cbn [firstn]. rewrite app_nil_r.
    destruct Hsuffix as [p ->]. now exists p, s'.
  - eapply IH; eassumption.
  - destruct (lazyPlus_consumes _ _ _ _ _ H) as [w [s' [-> Hk]]].
    now exists w, s', caps.
Qed.

Lemma exec_captures (input : jsstring) (r : regex) :
  forall s i m,
    exec r i s = Some m ->
    (exists p, input = p ++ s) ->
    Forall (fun g => isInfix g input) (map snd (groups m)).
Proof.
  induction s as [|u s IH]; intros i m H Hsuffix; simpl in H.
  - destruct (matchRegex r _ [] []) as [[s' caps]|] eqn:Hm; [| discriminate].
    injection H as <-. cbn [groups].
    destruct (matchRegex_captures input _ _ _ _ _ Hm Hsuffix (Forall_nil _))
      as [w [s1 [caps1 [_ [Hk Hcaps]]]]].
    now injection Hk as _ <-.
  - destruct (matchRegex r _ (u :: s) []) as [[s' caps]|] eqn:Hm.
    + injection H as <-. cbn [groups].
      destruct (matchRegex_captures input _ _ _ _ _ Hm Hsuffix (Forall_nil _))
        as [w [s1 [caps1 [_ [Hk Hcaps]]]]].
      now injection Hk as _ <-.
    + apply (IH _ _ H). destruct Hsuffix as [p ->].
      exists (p ++ [u]). now rewrite <- app_assoc.
Qed.

Lemma trimStart_suffix (s : jsstring) : exists a, s = a ++ trimStart s.
Proof.
  induction s as [|u s [a IH]]; simpl.
  - now exists [].
  - destruct (isWhiteSpaceOrLineTerminator u).
    + exists (u :: a). now rewrite IH at 1.
    + now exists [].
Qed.

Lemma trimEnd_prefix (s : jsstring) : exists b, s = trimEnd s ++ b.
Proof.
  unfold trimEnd. destruct (trimStart_suffix (rev s)) as [a Ha].
  exists (rev a). rewrite <- rev_app_distr, <- Ha. symmetry. apply rev_involutive.
Qed.

Lemma trim_infix (s : jsstring) : isInfix (trim s) s.
Proof.
  unfold trim. destruct (trimStart_suffix s) as [a Ha].
  destruct (trimEnd_prefix (trimStart s)) as [b Hb].
  exists a, b. now rewrite <- Hb.
Qed.

Lemma isInfix_trans (g s input : jsstring) :
  isInfix g s -> isInfix s input -> isInfix g input.
Proof.
  intros [a [b ->]] [c [d ->]]. exists (c ++ a), (b ++ d).
  now rewrite <- !app_assoc.
Qed.

Lemma firstEatPattern_infix (userMessage : jsstring) :
  forall patterns description,
    firstEatPattern patterns userMessage = Some description ->
    isInfix description userMessage.
Proof.
  induction patterns as [|p ps IH]; intros description H; simpl in H.
  - discriminate.
  - destruct (String_match userMessage p) as [m|] eqn:Hm; [| now apply IH].
    destruct (capture 1 (groups m)) as [g|] eqn:Hg; [| now apply IH].
    destruct (truthyString g); [| now apply IH].
    injection H as <-.
    apply (isInfix_trans _ g); [apply trim_infix |].
    pose proof (exec_captures userMessage p _ _ _ Hm
                  (ex_intro _ [] eq_refl)) as Hall.
    rewrite Forall_forall in Hall. apply Hall. now apply (capture_In 1).
Qed.

(** X6. The description that [extractFoodDescription] returns is always a
    contiguous part of the user message (possibly empty, possibly all of
    it): nothing the user did not write reaches the image prompt through
    it. *)
Theorem description_is_part_of_message
    (lowerMapping : list N -> N -> list N -> list N) (userMessage : jsstring) :
  isInfix (extractFoodDescription lowerMapping userMessage) userMessage
  /\ (List.length (extractFoodDescription lowerMapping userMessage)
      <= List.length userMessage)%nat.
Proof.
  assert (H : isInfix (extractFoodDescription lowerMapping userMessage) userMessage).
  { unfold extractFoodDescription.
    destruct (firstEatPattern eatPatterns userMessage) as [description|] eqn:Hfirst.
    - now apply (firstEatPattern_infix userMessage eatPatterns).
    - destruct (detectFoodKeywords lowerMapping userMessage).
      + exists [], []. now rewrite app_nil_r.
      + now exists [], userMessage. }
  split; [exact H |].
  destruct H as [a [b Hab]]. rewrite Hab at 2. rewrite !length_app. lia.
Qed.

(** X7. [extractFoodDescription] returns the empty string in exactly two
    cases: the message holds no food keyword, or a pattern matched and its
    group trims to nothing (as in [吃] followed by a space). *)
Theorem description_empty_iff
    (lowerMapping : list N -> N -> list N -> list N) (userMessage : jsstring) :
  extractFoodDescription lowerMapping userMessage = []
  <-> detectFoodKeywords lowerMapping userMessage = false
      \/ firstEatPattern eatPatterns userMessage = Some [].
Proof.
  unfold extractFoodDescription. split.
  - destruct (firstEatPattern eatPatterns userMessage) as [description|] eqn:Hfirst.
    + intros ->. now right.
    + destruct (detectFoodKeywords lowerMapping userMessage) eqn:Hdetect;
        [| now left].
      intros ->. left.
      rewrite detectFoodKeywords_plain in Hdetect by reflexivity.
      vm_compute in Hdetect. discriminate.
  - intros [Hdetect | ->]; [| reflexivity].
    destruct (firstEatPattern eatPatterns userMessage) as [description|] eqn:Hfirst.
    + pose proof (firstEatPattern_requires eatUnit userMessage _ _
                    eatPatterns_require_eatUnit Hfirst) as Hin.
      rewrite (detectFoodKeywords_eatUnit lowerMapping userMessage Hin) in Hdetect.
      discriminate.
    + now rewrite Hdetect.
Qed.

Lemma plainCodePoint_range (c : N) :
  plainCodePoint c = true -> c < 0x80 \/ 0x4E00 <= c <= 0x9FFF.
Proof.
  unfold plainCodePoint, isIdeograph. intros H.
  apply orb_true_iff in H as [H | H].
  - left. now apply N.ltb_lt.
  - right. apply andb_true_iff in H as [Hlo Hhi].
    apply N.leb_le in Hlo, Hhi. lia.
Qed.

Lemma asciiToLower_plain (c : N) :
  plainCodePoint c = true -> asciiToLower c < 0x10000.
Proof.
  intros H. apply plainCodePoint_range in H. unfold asciiToLower.
  destruct ((0x41 <=? c) && (c <=? 0x5A)) eqn:Hupper.
  - apply andb_true_iff in Hupper as [_ Hhi]. apply N.leb_le in Hhi. lia.
  - lia.
Qed.

Lemma StringToCodePoints_plain (s : jsstring) :
  plainUnits s = true -> StringToCodePoints s = s.
Proof.
  unfold plainUnits. induction s as [|u s IH]; [reflexivity |].
  cbn [forallb]. intros H. apply andb_true_iff in H as [Hu Hs].
  specialize (IH Hs). cbn [StringToCodePoints].
  destruct s as [|v rest]; [reflexivity |].
  assert (Hlead : isLeadingSurrogate u = false).
  { apply plainCodePoint_range in Hu. unfold isLeadingSurrogate.
    apply andb_false_intro1. apply N.leb_gt. lia. }
  rewrite Hlead. cbn [andb]. now rewrite IH.
Qed.

Lemma toLowercase_plainUnits (lowerMapping : list N -> N -> list N -> list N)
    (cps : list N) :
  forallb plainCodePoint cps = true ->
  forall before, toLowercase lowerMapping before cps = map asciiToLower cps.
Proof.
  induction cps as [|c cps IH]; intros Hall before; [reflexivity |].
  cbn [forallb] in Hall. apply andb_true_iff in Hall as [Hc Hall].
  cbn [toLowercase map]. rewrite (IH Hall).
  unfold lowerCodePoint.
  destruct (c <? 0x80) eqn:Hascii; [reflexivity |].
  unfold plainCodePoint in Hc. rewrite Hascii in Hc. cbn [orb] in Hc. rewrite Hc.
  cbn [app]. f_equal.
  unfold isIdeograph in Hc. apply andb_true_iff in Hc as [Hlo _].
  apply N.leb_le in Hlo. unfold asciiToLower.
  destruct (c <=? 0x5A) eqn:Hhi; [apply N.leb_le in Hhi; lia |].
  now rewrite andb_false_r.
Qed.

Lemma CodePointsToString_BMP (cps : list N) :
  Forall (fun c => c < 0x10000) cps -> CodePointsToString cps = cps.
Proof.
  induction 1 as [|c cps Hc _ IH]; [reflexivity |].
  unfold CodePointsToString in *. cbn [flat_map]. rewrite IH.
  unfold UTF16EncodeCodePoint. apply N.ltb_lt in Hc. now rewrite Hc.
Qed.

(** On a text of ASCII and ideographs, [toLowerCase] lowers the ASCII
    letters unit by unit and changes nothing else. *)
Lemma toLowerCase_plainUnits (lowerMapping : list N -> N -> list N -> list N)
    (s : jsstring) :
  plainUnits s = true -> toLowerCase lowerMapping s = map asciiToLower s.
Proof.
  intros Hs. unfold toLowerCase.
  rewrite (StringToCodePoints_plain s Hs), (toLowercase_plainUnits _ s Hs).
  apply CodePointsToString_BMP. apply Forall_forall. intros c Hin.
  apply in_map_iff in Hin as [d [<- Hd]]. apply asciiToLower_plain.
  unfold plainUnits in Hs. rewrite forallb_forall in Hs. now apply Hs.
Qed.

(** X8. The keyword test is a substring test, not a test of words: a text
    of ASCII and ideographs that holds a food text anywhere inside it is a
    food text (as [ricecooker] for [rice]). *)
Theorem keyword_inside_a_text
    (lowerMapping : list N -> N -> list N -> list N) (a s b : jsstring) :
  plainUnits a = true -> plainUnits s = true -> plainUnits b = true ->
  detectFoodKeywords lowerMapping s = true ->
  detectFoodKeywords lowerMapping (a ++ s ++ b) = true.
Proof.
  intros Ha Hs Hb Hdetect.
  assert (Hall : plainUnits (a ++ s ++ b) = true).
  { unfold plainUnits in *. now rewrite !forallb_app, Ha, Hs, Hb. }
  unfold detectFoodKeywords in *. cbv zeta in *.
  apply existsb_exists in Hdetect as [keyword [Hin Hinc]].
  apply existsb_exists. exists keyword. split; [exact Hin |].
  rewrite (toLowerCase_plainUnits _ _ Hall).
  rewrite (toLowerCase_plainUnits _ _ Hs) in Hinc.
  apply includes_spec in Hinc as [c [d Hcd]]. apply includes_spec.
  exists (map asciiToLower a ++ c), (d ++ map asciiToLower b).
  rewrite !map_app, Hcd, <- !app_assoc. reflexivity.
Qed.

(** X8 at [rice] inside [ricecooker]. *)
Lemma keyword_inside_a_text_ricecooker :
  detectFoodKeywords caselessMapping ([] ++ js "rice" ++ js "cooker") = true.
Proof.
  apply (keyword_inside_a_text caselessMapping [] (js "rice") (js "cooker"));
    vm_compute; reflexivity.
Defined.

(** X9. The keyword test ignores the case of ASCII letters: two texts of
    ASCII and ideographs that differ only in that case get the same
    verdict. *)
Theorem keyword_test_ignores_ascii_case
    (lowerMapping : list N -> N -> list N -> list N) (s1 s2 : jsstring) :
  plainUnits s1 = true -> plainUnits s2 = true ->
  map asciiToLower s1 = map asciiToLower s2 ->
  detectFoodKeywords lowerMapping s1 = detectFoodKeywords lowerMapping s2.
Proof.
  intros H1 H2 Hsame. unfold detectFoodKeywords. cbv zeta.
  now rewrite (toLowerCase_plainUnits _ _ H1), (toLowerCase_plainUnits _ _ H2), Hsame.
Qed.

(** X9 at [I LOVE PIZZA] and [i love pizza]. *)
Lemma keyword_test_ignores_ascii_case_pizza :
  detectFoodKeywords caselessMapping (js "I LOVE PIZZA")
  = detectFoodKeywords caselessMapping (js "i love pizza").
Proof.
  apply keyword_test_ignores_ascii_case; vm_compute; reflexivity.
Defined.

(** ** The completion client *)

(** X10. [chatCompletion] returns a response in exactly one case: the API
    key is set, the request of [completionRequest] was answered with a 2xx
    status, and the body decoded to that response. The run then holds that
    one request and nothing else (no console line). *)
Theorem chatCompletion_returns_iff
    (completionEndpoint :
       Trace -> jsstring -> FetchInit ChatCompletionBody ->
       Outcome (HttpResponse ChatCompletionResponse))
    (this : DoubaoClient) (request : ChatCompletionRequest) (t : Trace)
    (response : ChatCompletionResponse) (t' : Trace) :
  let sent := completionRequest this request (orBool (req_stream request) false) in
  chatCompletion completionEndpoint this request t = (Return response, t')
  <-> truthyString (apiKey this) = true
      /\ t' = FetchCompletion (fst sent) (snd sent) :: t
      /\ exists answer,
           completionEndpoint t (fst sent) (snd sent) = Return answer
           /\ ok answer = true
           /\ json answer = Return response.
Proof.
  cbv zeta. unfold completionRequest, bearerHeaders. cbn [fst snd].
  unfold chatCompletion.
  destruct (truthyString (apiKey this)); cbn [negb]; unfold_M.
  - destruct (completionEndpoint t _ _) as [answer | e] eqn:Hanswer.
    + destruct (ok answer) eqn:Hok; cbn [negb].
      * destruct (json answer) as [body | e] eqn:Hjson.
        -- split.
           ++ intros H. injection H as <- <-.
              split; [reflexivity |]. split; [reflexivity |]. now exists answer.
           ++ intros [_ [-> [answer' [Heq [_ Hbody]]]]].
              injection Heq as <-. rewrite Hjson in Hbody. now injection Hbody as ->.
        -- split; [discriminate |].
           intros [_ [_ [answer' [Heq [_ Hbody]]]]].
           injection Heq as <-. rewrite Hjson in Hbody. discriminate.
      * split.
        -- destruct (text answer); discriminate.
        -- intros [_ [_ [answer' [Heq [Hok' _]]]]].
           injection Heq as <-. congruence.
    + split; [discriminate |].
      intros [_ [_ [answer' [Heq _]]]]. discriminate.
  - split; [discriminate |]. intros [Hkey _]. discriminate.
Qed.

(** X11. A zero in the request never reaches the service: [chatCompletion]
    replaces a temperature of 0 (as an absent one) by 0.7 and a token limit
    of 0 by 2000, so the request it sends has neither; and when the client
    has a default model, the model it sends is not empty. *)
Theorem zero_options_are_replaced
    (completionEndpoint :
       Trace -> jsstring -> FetchInit ChatCompletionBody ->
       Outcome (HttpResponse ChatCompletionResponse))
    (this : DoubaoClient) (request : ChatCompletionRequest) (t : Trace) :
  exists evs,
    snd (chatCompletion completionEndpoint this request t) = evs ++ t
    /\ Forall
         (fun sent =>
            let body := init_body (snd sent) in
            ~ (body_temperature body == 0)%Q
            /\ body_max_tokens body <> 0%Z
            /\ (req_temperature request = Some 0%Q ->
                body_temperature body = (7 # 10)%Q)
            /\ (req_max_tokens request = Some 0%Z -> body_max_tokens body = 2000%Z)
            /\ (truthyString (defaultModel this) = true ->
                truthyString (body_model body) = true))
         (completionRequests evs).
Proof.
  destruct (chatCompletion_requests completionEndpoint this request t)
    as [evs [Hevs [_ Hsent]]].
  exists evs. split; [exact Hevs |]. rewrite Hsent.
  destruct (truthyString (apiKey this)); [| constructor].
  constructor; [| constructor]. cbv zeta.
  unfold completionRequest. cbn [snd init_body body_temperature body_max_tokens body_model].
  split; [| split; [| split; [| split]]].
  - unfold orNumber. destruct (req_temperature request) as [q|].
    + destruct (Qeq_bool q 0) eqn:Hq; [discriminate |].
      intros Heq. apply Qeq_bool_iff in Heq. congruence.
    + discriminate.
  - unfold orInteger. destruct (req_max_tokens request) as [z|]; [| discriminate].
    destruct (z =? 0)%Z eqn:Hz; [discriminate |]. now apply Z.eqb_neq.
  - intros ->. reflexivity.
  - intros ->. reflexivity.
  - intros Hdefault. unfold orString.
    destruct (req_model request) as [m|]; [| exact Hdefault].
    destruct (truthyString m) eqn:Hm; [exact Hm | exact Hdefault].
Qed.

(** ** The handlers of route.ts *)

Lemma jsstring_eqb_eq (a b : jsstring) : jsstring_eqb a b = true <-> a = b.
Proof.
  unfold jsstring_eqb. destruct (list_eq_dec N.eq_dec a b); split; congruence.
Qed.

Section RouteExtras.

Variable lowerMapping : list N -> N -> list N -> list N.
Variable JSON_stringify : JsonValue -> jsstring.
Variable isPositive : JsonValue -> Outcome bool.
Variable completionEndpoint :
  Trace -> jsstring -> FetchInit ChatCompletionBody ->
  Outcome (HttpResponse ChatCompletionResponse).
Variable imageEndpoint :
  Trace -> jsstring -> FetchInit ImageGenerationRequest ->
  Outcome (HttpResponse ImageGenerationResponse).
Variable doubaoImageClient : DoubaoImageClient.
Variable doubaoClient : DoubaoClient.
Variable env : Env.
Variable clock : Trace -> jsstring.
Variable asChatMessages : list JsonValue -> list ChatMessage.
Variable ToPropertyKey : JsonValue -> Outcome jsstring.

Local Abbreviation POST' :=
  (POST lowerMapping JSON_stringify isPositive completionEndpoint imageEndpoint
     doubaoImageClient doubaoClient env clock asChatMessages ToPropertyKey).
Local Abbreviation weightLossChat' :=
  (weightLossChat lowerMapping JSON_stringify isPositive completionEndpoint
     imageEndpoint doubaoImageClient).

(** The arguments the handler gives to [weightLossChat]. *)
Local Abbreviation messageOf body := (stringOf (getProperty body (js "message"))).
Local Abbreviation historyOf body :=
  (asChatMessages
     (itemsOf (withDefault (getProperty body (js "conversationHistory")) (JArray [])))).

(** A run of the handler, by what the request holds and what
    [weightLossChat] did. *)
Lemma POST_run (request : NextRequest) (t : Trace) :
  POST' request t
  = match request_json request with
    | Throw e => (Return (failureResponse env e), Console ERROR (js "Chat API error:") :: t)
    | Return JNull =>
        (Return
           (failureResponse env
              (ErrorObject
                 (js "Cannot destructure property 'message' of 'body' as it is null."))),
         Console ERROR (js "Chat API error:") :: t)
    | Return body =>
        if validBody body then
          match roleKey ToPropertyKey (roleOfBody body) with
          | Return key =>
              match weightLossChat' doubaoClient (messageOf body) (historyOf body) key
                      (Call weightLossChat_method :: t)
              with
              | (Return result, t1) =>
                  (Return {| response_status := 200;
                             response_payload :=
                               ChatPayload true (result_content result)
                                 (result_images result) (clock t1) |},
                   t1)
              | (Throw e, t1) =>
                  (Return (failureResponse env e),
                   Console ERROR (js "Chat API error:") :: t1)
              end
          | Throw e =>
              (Return (failureResponse env e),
               Console ERROR (js "Chat API error:") :: Call weightLossChat_method :: t)
          end
        else
          (Return {| response_status := 400;
                     response_payload :=
                       ErrorPayload
                         (if negb (truthy (getProperty body (js "message")))
                             || negb (isString (getProperty body (js "message")))
                          then js "Invalid message parameter"
                          else js "Invalid conversationHistory parameter") |},
           t)
    end.
Proof.
  unfold POST. unfold tryCatch at 1, bind at 1, await at 1.
  destruct (request_json request) as [body | e]; [| destruct e; reflexivity].
  assert (Hrest : body <> JNull ->
            (let (o, t') :=
               (fields <- destructure body ;;
                let '(message, conversationHistory, role) := fields in
                if negb (truthy message) || negb (isString message) then
                  ret {| response_status := 400;
                         response_payload := ErrorPayload (js "Invalid message parameter") |}
                else if negb (isArray conversationHistory) then
                  ret {| response_status := 400;
                         response_payload :=
                           ErrorPayload (js "Invalid conversationHistory parameter") |}
                else
                  emit (Call weightLossChat_method) ;;
                  response <-
                    weightLossChat_unchecked lowerMapping JSON_stringify isPositive
                      completionEndpoint imageEndpoint doubaoImageClient ToPropertyKey
                      doubaoClient (stringOf message)
                      (asChatMessages (itemsOf conversationHistory)) role ;;
                  timestamp <- toISOString_now clock ;;
                  ret {| response_status := 200;
                         response_payload :=
                           ChatPayload true (result_content response)
                             (result_images response) timestamp |}) t in
             match o with
             | Return a => (Return a, t')
             | Throw e0 =>
                 (console_error "Chat API error:" ;;
                  (let errorMessage :=
                     match e0 with
                     | ErrorObject message => message
                     | NonError => js "Unknown error occurred"
                     end in
                   ret {| response_status := 500;
                          response_payload :=
                            FailurePayload false (js "Failed to process chat request")
                              match NODE_ENV env with
                              | Some mode =>
                                  if jsstring_eqb mode (js "development")
                                  then Some errorMessage else None
                              | None => None
                              end |})) t'
             end)
            = if validBody body then
                match roleKey ToPropertyKey (roleOfBody body) with
                | Return key =>
                    match weightLossChat' doubaoClient (messageOf body) (historyOf body)
                            key (Call weightLossChat_method :: t)
                    with
                    | (Return result, t1) =>
                        (Return {| response_status := 200;
                                   response_payload :=
                                     ChatPayload true (result_content result)
                                       (result_images result) (clock t1) |},
                         t1)
                    | (Throw e, t1) =>
                        (Return (failureResponse env e),
                         Console ERROR (js "Chat API error:") :: t1)
                    end
                | Throw e =>
                    (Return (failureResponse env e),
                     Console ERROR (js "Chat API error:")
                     :: Call weightLossChat_method :: t)
                end
              else
                (Return {| response_status := 400;
                           response_payload :=
                             ErrorPayload
                               (if negb (truthy (getProperty body (js "message")))
                                   || negb (isString (getProperty body (js "message")))
                                then js "Invalid message parameter"
                                else js "Invalid conversationHistory parameter") |},
                 t)).
  { intros Hbody. unfold bind at 1. rewrite (destructure_not_null body t Hbody).
    unfold validBody, roleOfBody.
    destruct (truthy (getProperty body (js "message"))); cbn [negb orb andb];
      [| reflexivity].
    destruct (isString (getProperty body (js "message"))); cbn [negb orb andb];
      [| reflexivity].
    destruct (isArray _); cbn [negb]; [| reflexivity].
    unfold bind at 1, emit at 1. unfold bind at 1.
    unfold weightLossChat_unchecked. unfold bind at 1, await at 1.
    destruct (roleKey ToPropertyKey _) as [key | e]; [| destruct e; reflexivity].
    destruct (weightLossChat' doubaoClient _ _ key _) as [[result | e] t1];
      [reflexivity | destruct e; reflexivity]. }
  destruct body; try (apply Hrest; discriminate).
  reflexivity.
Qed.

(** X12. The POST handler never throws, and its status is decided by the
    request alone, whatever the upstream services do: 500 when the body does
    not decode or is [null], 400 when it decodes but [message] is not a
    non-empty string or [conversationHistory] is not an array, 500 again
    when the checks pass but the [role] of the body cannot be converted to a
    property key (it is not checked, and [weightLossChat] throws on it
    before its [try]), and 200 otherwise. [weightLossChat] is called exactly
    when the body passes the two checks, and a request that is not answered
    with 200 causes no request to either service. *)
Theorem POST_status (request : NextRequest) (t : Trace) :
  exists response evs,
    POST' request t = (Return response, evs ++ t)
    /\ response_status response = expectedStatus ToPropertyKey request
    /\ (expectedStatus ToPropertyKey request <> 200 ->
        completionRequests evs = [] /\ imageRequests evs = [])
    /\ existsb (fun e => match e with Call _ => true | _ => false end) evs
       = reachesChat request.
Proof.
  rewrite POST_run. unfold expectedStatus, reachesChat.
  destruct (request_json request) as [body | e].
  2:{ eexists _, [_]. split; [reflexivity |]. split; [reflexivity |].
      split; [intros _; split; reflexivity | reflexivity]. }
  assert (Hrest :
            body <> JNull ->
            exists response evs,
              (if validBody body then
                 match roleKey ToPropertyKey (roleOfBody body) with
                 | Return key =>
                     match weightLossChat' doubaoClient (messageOf body)
                             (historyOf body) key (Call weightLossChat_method :: t)
                     with
                     | (Return result, t1) =>
                         (Return {| response_status := 200;
                                    response_payload :=
                                      ChatPayload true (result_content result)
                                        (result_images result) (clock t1) |},
                          t1)
                     | (Throw e, t1) =>
                         (Return (failureResponse env e),
                          Console ERROR (js "Chat API error:") :: t1)
                     end
                 | Throw e =>
                     (Return (failureResponse env e),
                      Console ERROR (js "Chat API error:")
                      :: Call weightLossChat_method :: t)
                 end
               else
                 (Return {| response_status := 400;
                            response_payload :=
                              ErrorPayload
                                (if negb (truthy (getProperty body (js "message")))
                                    || negb (isString (getProperty body (js "message")))
                                 then js "Invalid message parameter"
                                 else js "Invalid conversationHistory parameter") |},
                  t))
              = (Return response, evs ++ t)
              /\ response_status response
                 = (if validBody body then
                      match roleKey ToPropertyKey (roleOfBody body) with
                      | Return _ => 200
                      | Throw _ => 500
                      end
                    else 400)
              /\ ((if validBody body then
                     match roleKey ToPropertyKey (roleOfBody body) with
                     | Return _ => 200
                     | Throw _ => 500
                     end
                   else 400) <> 200 ->
                  completionRequests evs = [] /\ imageRequests evs = [])
              /\ existsb (fun e => match e with Call _ => true | _ => false end) evs
                 = validBody body).
  { intros _. destruct (validBody body).
    - destruct (roleKey ToPropertyKey (roleOfBody body)) as [key | e].
      + destruct (weightLossChat_returns lowerMapping JSON_stringify isPositive
                    completionEndpoint imageEndpoint doubaoImageClient doubaoClient
                    (messageOf body) (historyOf body) key
                    (Call weightLossChat_method :: t))
          as [result [t1 Hrun]].
        destruct (weightLossChat_events lowerMapping JSON_stringify isPositive
                    completionEndpoint imageEndpoint doubaoImageClient doubaoClient
                    (messageOf body) (historyOf body) key
                    (Call weightLossChat_method :: t))
          as [evs [Hevs _]].
        rewrite Hrun in *. cbn [snd] in Hevs. subst t1.
        eexists _, (evs ++ [Call weightLossChat_method]).
        rewrite <- app_assoc. cbn [app].
        split; [reflexivity |]. split; [reflexivity |].
        split; [intros Hne; now contradiction Hne |].
        rewrite existsb_app. cbn [existsb]. now rewrite orb_true_r.
      + eexists _, [_; _]. split; [reflexivity |]. split; [reflexivity |].
        split; [intros _; split; reflexivity | reflexivity].
    - eexists _, []. split; [reflexivity |]. split; [reflexivity |].
      split; [intros _; split; reflexivity | reflexivity]. }
  destruct body; try (apply Hrest; discriminate).
  eexists _, [_]. split; [reflexivity |]. split; [reflexivity |].
  split; [intros _; split; reflexivity | reflexivity].
Qed.

(** X13. The details of an internal error leave the server in development
    only: whenever the handler answers with the failure payload, its
    [success] is [false], its [error] is the fixed text, and its [details]
    are absent exactly when [NODE_ENV] is not [development]. *)
Theorem failure_details_only_in_development (request : NextRequest) (t : Trace)
    (response : NextResponse) (t' : Trace)
    (success : bool) (error : jsstring) (details : option jsstring) :
  POST' request t = (Return response, t') ->
  response_payload response = FailurePayload success error details ->
  success = false
  /\ error = js "Failed to process chat request"
  /\ response_status response = 500
  /\ (details = None <-> NODE_ENV env <> Some (js "development")).
Proof.
  assert (Hdetails : forall message,
             match NODE_ENV env with
             | Some mode =>
                 if jsstring_eqb mode (js "development") then Some message else None
             | None => None
             end = (@None jsstring)
             <-> NODE_ENV env <> Some (js "development")).
  { intros message. destruct (NODE_ENV env) as [mode|]; [| split; congruence].
    destruct (jsstring_eqb mode (js "development")) eqn:Hmode.
    - apply jsstring_eqb_eq in Hmode as ->. split; congruence.
    - split; [| reflexivity]. intros _ Heq. injection Heq as ->.
      assert (Htrue : jsstring_eqb (js "development") (js "development") = true)
        by now apply jsstring_eqb_eq.
      congruence. }
  assert (Hfailure : forall e,
             response_payload (failureResponse env e)
             = FailurePayload success error details ->
             success = false
             /\ error = js "Failed to process chat request"
             /\ response_status (failureResponse env e) = 500
             /\ (details = None <-> NODE_ENV env <> Some (js "development"))).
  { intros e Hpayload. unfold failureResponse in *.
    cbn [response_payload response_status] in *.
    injection Hpayload as <- <- <-.
    split; [reflexivity |]. split; [reflexivity |]. split; [reflexivity |].
    apply Hdetails. }
  rewrite POST_run.
  destruct (request_json request) as [body | e];
    [| intros H; injection H as <- _; apply Hfailure].
  assert (Hrest :
            (if validBody body then
               match roleKey ToPropertyKey (roleOfBody body) with
               | Return key =>
                   match weightLossChat' doubaoClient (messageOf body)
                           (historyOf body) key (Call weightLossChat_method :: t)
                   with
                   | (Return result, t1) =>
                       (Return {| response_status := 200;
                                  response_payload :=
                                    ChatPayload true (result_content result)
                                      (result_images result) (clock t1) |},
                        t1)
                   | (Throw e, t1) =>
                       (Return (failureResponse env e),
                        Console ERROR (js "Chat API error:") :: t1)
                   end
               | Throw e =>
                   (Return (failureResponse env e),
                    Console ERROR (js "Chat API error:")
                    :: Call weightLossChat_method :: t)
               end
             else
               (Return {| response_status := 400;
                          response_payload :=
                            ErrorPayload
                              (if negb (truthy (getProperty body (js "message")))
                                  || negb (isString (getProperty body (js "message")))
                               then js "Invalid message parameter"
                               else js "Invalid conversationHistory parameter") |},
                t))
            = (Return response, t') ->
            response_payload response = FailurePayload success error details ->
            success = false
            /\ error = js "Failed to process chat request"
            /\ response_status response = 500
            /\ (details = None <-> NODE_ENV env <> Some (js "development"))).
  { destruct (validBody body); [| intros H; injection H as <- _; discriminate].
    destruct (roleKey ToPropertyKey (roleOfBody body)) as [key | e];
      [| intros H; injection H as <- _; apply Hfailure].
    destruct (weightLossChat' doubaoClient _ _ key _) as [[result | e] t1];
      intros H; injection H as <- _; [discriminate | apply Hfailure]. }
  destruct body; try exact Hrest.
  intros H. injection H as <- _. apply Hfailure.
Qed.

(** X14. An upstream failure is not an HTTP failure: when the completion
    call of the run throws, a request that passes the checks and whose
    [role] converts to a property key is answered with status 200,
    [success: true], the apology as [response] and no images. *)
Theorem upstream_failure_is_answered_200 (request : NextRequest) (body : JsonValue)
    (t : Trace) (key : jsstring) (e : Thrown) (t1 : Trace) :
  request_json request = Return body ->
  body <> JNull ->
  validBody body = true ->
  roleKey ToPropertyKey (roleOfBody body) = Return key ->
  chatCompletion completionEndpoint doubaoClient
    (weightLossRequest (assembleMessages key (historyOf body) (messageOf body)))
    (Call weightLossChat_method :: t)
  = (Throw e, t1) ->
  exists t',
    POST' request t
    = (Return {| response_status := 200;
                 response_payload :=
                   ChatPayload true (Some apologyReply) None (clock t') |},
       t').
Proof.
  intros Hjson Hbody Hvalid Hkey Hthrow.
  destruct (weightLossChat_when_completion_throws lowerMapping JSON_stringify
              isPositive completionEndpoint imageEndpoint doubaoImageClient
              _ _ _ _ _ _ _ Hthrow) as [evs [Hrun _]].
  exists (evs ++ t1).
  rewrite POST_run, Hjson.
  destruct body; try contradiction; rewrite Hvalid, Hkey, Hrun; reflexivity.
Qed.

(** X15. The defaults of the handler: for a body with a [message] and
    neither [role] nor [conversationHistory], the one request to the
    completion service carries two messages, the system prompt of the
    supportive friend and the message of the user. *)
Theorem POST_defaults (request : NextRequest) (body : JsonValue) (t : Trace) :
  request_json request = Return body ->
  body <> JNull ->
  validBody body = true ->
  getProperty body (js "role") = None ->
  getProperty body (js "conversationHistory") = None ->
  asChatMessages [] = [] ->
  truthyString (apiKey doubaoClient) = true ->
  exists evs,
    snd (POST' request t) = evs ++ t
    /\ map (fun sent => body_messages (init_body (snd sent))) (completionRequests evs)
       = [[{| role := system; content := Text supportive_friend |};
           {| role := user; content := Text (messageOf body) |}]].
Proof.
  intros Hjson Hbody Hvalid Hrole Hhistory Hcast Hkey.
  destruct (weightLossChat_returns lowerMapping JSON_stringify isPositive
              completionEndpoint imageEndpoint doubaoImageClient doubaoClient
              (messageOf body) (historyOf body) (js "supportive_friend")
              (Call weightLossChat_method :: t))
    as [result [t1 Hrun]].
  destruct (weightLossChat_requests lowerMapping JSON_stringify isPositive
              completionEndpoint imageEndpoint doubaoImageClient doubaoClient
              (messageOf body) (historyOf body) (js "supportive_friend")
              (Call weightLossChat_method :: t))
    as [evs [Hevs [Hsent _]]].
  assert (HPOST : POST' request t
                  = (Return {| response_status := 200;
                               response_payload :=
                                 ChatPayload true (result_content result)
                                   (result_images result) (clock t1) |},
                     t1)).
  { rewrite POST_run, Hjson.
    destruct body; try contradiction; rewrite Hvalid; unfold roleOfBody;
      rewrite Hrole; cbn [withDefault roleKey]; rewrite Hrun; reflexivity. }
  rewrite HPOST.
  rewrite Hrun in Hevs. cbn [snd] in *. subst t1.
  exists (evs ++ [Call weightLossChat_method]).
  split; [now rewrite <- app_assoc |].
  rewrite completionRequests_app, Hsent, Hkey.
  rewrite Hhistory. cbn [withDefault itemsOf]. rewrite Hcast.
  unfold completionRequest, weightLossRequest, assembleMessages.
  cbn [map snd init_body body_messages req_messages app].
  destruct systemPromptFor_recognized as [-> _]. reflexivity.
Qed.

End RouteExtras.

(** The handler at a body that passes the two checks and whose [role] is
    the object [{ toString: null }]: the conversion to a property key
    throws, and the handler answers 500 after the call of [weightLossChat],
    without a request to either service. *)
Lemma POST_role_without_primitive :
  POST caselessMapping stringifyNothing neverPositive unreachable unreachable
    exampleImageClient exampleClient emptyEnv fixedClock noMessages propertyKey
    {| request_json :=
         Return
           (JObject [(js "message", JString (js "hi"));
                     (js "role", JObject [(js "toString", JNull)])]) |}
    []
  = (Return {| response_status := 500;
               response_payload :=
                 FailurePayload false (js "Failed to process chat request") None |},
     [Console ERROR (js "Chat API error:"); Call weightLossChat_method]).
Proof. vm_compute. reflexivity. Qed.

(** X13 at the body [null], outside development. *)
Lemma failure_details_only_in_development_null :
  false = false
  /\ js "Failed to process chat request" = js "Failed to process chat request"
  /\ 500 = 500
  /\ (@None jsstring = None <-> NODE_ENV emptyEnv <> Some (js "development")).
Proof.
  refine (failure_details_only_in_development caselessMapping stringifyNothing
            neverPositive unreachable unreachable exampleImageClient exampleClient
            emptyEnv fixedClock noMessages keyOfNothing
            {| request_json := Return JNull |} []
            {| response_status := 500;
               response_payload :=
                 FailurePayload false (js "Failed to process chat request") None |}
            (snd (POST caselessMapping stringifyNothing neverPositive unreachable
                    unreachable exampleImageClient exampleClient emptyEnv fixedClock
                    noMessages keyOfNothing
                    {| request_json := Return JNull |} []))
            false (js "Failed to process chat request") None _ _);
    [vm_compute; reflexivity | reflexivity].
Defined.

(** X14 at a client without an API key and the body [{ message: "hi" }]. *)
Lemma upstream_failure_is_answered_200_without_key :
  exists t',
    POST caselessMapping stringifyNothing neverPositive unreachable unreachable
      exampleImageClient clientWithoutKey emptyEnv fixedClock noMessages keyOfNothing
      {| request_json := Return (JObject [(js "message", JString (js "hi"))]) |} []
    = (Return {| response_status := 200;
                 response_payload :=
                   ChatPayload true (Some apologyReply) None (fixedClock t') |},
       t').
Proof.
  apply (upstream_failure_is_answered_200 caselessMapping stringifyNothing
           neverPositive unreachable unreachable exampleImageClient clientWithoutKey
           emptyEnv fixedClock noMessages keyOfNothing
           {| request_json := Return (JObject [(js "message", JString (js "hi"))]) |}
           (JObject [(js "message", JString (js "hi"))]) []
           (js "supportive_friend")
           (ErrorObject (js "豆包API key not configured"))
           [Call weightLossChat_method]);
    [reflexivity | discriminate | vm_compute; reflexivity | vm_compute; reflexivity
    | apply chatCompletion_no_key; reflexivity].
Defined.

(** X15 at the body [{ message: "hi" }]. *)
Lemma POST_defaults_message_only :
  exists evs,
    snd (POST caselessMapping stringifyNothing neverPositive unreachable unreachable
           exampleImageClient exampleClient emptyEnv fixedClock noMessages
           keyOfNothing
           {| request_json := Return (JObject [(js "message", JString (js "hi"))]) |}
           [])
    = evs ++ []
    /\ map (fun sent => body_messages (init_body (snd sent))) (completionRequests evs)
       = [[{| role := system; content := Text supportive_friend |};
           {| role := user;
              content :=
                Text (stringOf
                        (getProperty (JObject [(js "message", JString (js "hi"))])
                           (js "message"))) |}]].
Proof.
  apply (POST_defaults caselessMapping stringifyNothing neverPositive unreachable
           unreachable exampleImageClient exampleClient emptyEnv fixedClock
           noMessages keyOfNothing
           {| request_json := Return (JObject [(js "message", JString (js "hi"))]) |}
           (JObject [(js "message", JString (js "hi"))]) []);
    try reflexivity; [discriminate | vm_compute; reflexivity ..].
Defined.

(** ** Status, health check and constructors *)

Lemma orString_truthy (x : option jsstring) (d : jsstring) :
  truthyString d = true -> truthyString (orString x d) = true.
Proof.
  intros Hd. unfold orString. destruct x as [s|]; [| exact Hd].
  destruct (truthyString s) eqn:Hs; [exact Hs | exact Hd].
Qed.

(** X16. The health check always answers 200 and [healthy], also without
    an API key; its [apiConfigured] agrees with [hasKey] of [getStatus], and
    it is false exactly when every call of [chatCompletion] throws the
    configuration error without sending a request. *)
Theorem health_check_reports_configuration (doubaoClient : DoubaoClient)
    (clock : Trace -> jsstring) (t : Trace) :
  exists response,
    GET doubaoClient clock t = (Return response, t)
    /\ health_response_status response = 200
    /\ health_status (health_response_payload response) = js "healthy"
    /\ apiConfigured (health_response_payload response)
       = hasKey (DoubaoClient_getStatus doubaoClient)
    /\ (apiConfigured (health_response_payload response) = false
        <-> forall completionEndpoint request t0,
              chatCompletion completionEndpoint doubaoClient request t0
              = (Throw (ErrorObject (js "豆包API key not configured")), t0)).
Proof.
  eexists. split; [reflexivity |]. cbn [health_response_status health_response_payload
                                         health_status apiConfigured].
  split; [reflexivity |]. split; [reflexivity |].
  cbn [DoubaoClient_getStatus configured hasKey]. split.
  - now destruct (apiKey doubaoClient).
  - split.
    + intros Hkey completionEndpoint request t0. now apply chatCompletion_no_key.
    + intros Hthrows. destruct (truthyString (apiKey doubaoClient)) eqn:Hkey;
        [| reflexivity].
      specialize (Hthrows unreachable (weightLossRequest []) []).
      unfold chatCompletion in Hthrows. rewrite Hkey in Hthrows.
      cbn [negb] in Hthrows. revert Hthrows. unfold_M. unfold unreachable.
      discriminate.
Qed.

(** X17. The two clients are configured together: built from the same
    environment they hold the same API key and the same base URL, so one
    has a key exactly when the other has. The base URL and the models are
    never empty (an empty variable counts as unset), and each constructor
    writes its warning exactly when the key is missing. *)
Theorem clients_share_configuration (env : Env) (t t' : Trace) :
  exists this evs imageClient evs',
    DoubaoClient_constructor env t = (Return this, evs ++ t)
    /\ DoubaoImageClient_constructor env t' = (Return imageClient, evs' ++ t')
    /\ apiKey this = image_apiKey imageClient
    /\ baseURL this = image_baseURL imageClient
    /\ configured (DoubaoClient_getStatus this)
       = configured (DoubaoImageClient_getStatus imageClient)
    /\ truthyString (baseURL this) = true
    /\ truthyString (defaultModel this) = true
    /\ truthyString (image_defaultModel imageClient) = true
    /\ (configured (DoubaoClient_getStatus this) = true
        <-> exists key, DOUBAO_API_KEY env = Some key /\ key <> [])
    /\ (evs = [] <-> configured (DoubaoClient_getStatus this) = true)
    /\ (evs' = [] <-> configured (DoubaoClient_getStatus this) = true).
Proof.
  unfold DoubaoClient_constructor, DoubaoImageClient_constructor. cbv zeta.
  cbn [apiKey image_apiKey].
  assert (Hkey : truthyString (orString (DOUBAO_API_KEY env) []) = true
                 <-> exists key, DOUBAO_API_KEY env = Some key /\ key <> []).
  { unfold orString. destruct (DOUBAO_API_KEY env) as [[|u key]|]; cbn; split;
      try discriminate.
    - intros [key [H Hne]]. injection H as <-. contradiction.
    - intros _. now exists (u :: key).
    - reflexivity.
    - intros [key [H _]]. discriminate. }
  destruct (truthyString (orString (DOUBAO_API_KEY env) [])) eqn:Htruthy;
    cbn [negb]; unfold_M.
  - eexists _, [], _, []. cbn [app].
    repeat (split; [reflexivity |]).
    split; [now apply orString_truthy |].
    split; [now apply orString_truthy |].
    split; [reflexivity |].
    cbn [DoubaoClient_getStatus configured apiKey]. rewrite Htruthy.
    split; [exact Hkey |]. split; split; reflexivity.
  - eexists _, [_], _, [_]. cbn [app].
    repeat (split; [reflexivity |]).
    split; [now apply orString_truthy |].
    split; [now apply orString_truthy |].
    split; [reflexivity |].
    cbn [DoubaoClient_getStatus configured apiKey]. rewrite Htruthy.
    split; [exact Hkey |]. split; split; discriminate.
Qed.

(** ** The stream of a completion *)

Lemma splitLines_nonempty (s : jsstring) : splitLines s <> [].
Proof.
  destruct s as [| u s]; cbn [splitLines]; [discriminate |].
  destruct (u =? 0x0A); [discriminate |].
  destruct (splitLines s); discriminate.
Qed.

Lemma splitLines_app (a b : jsstring) :
  splitLines (a ++ 0x0A :: b) = splitLines a ++ splitLines b.
Proof.
  induction a as [| u a IH]; [reflexivity |].
  cbn [app splitLines]. destruct (u =? 0x0A); [now rewrite IH |].
  rewrite IH. pose proof (splitLines_nonempty a) as Hne.
  destruct (splitLines a); [contradiction | reflexivity].
Qed.

Lemma splitLines_without_line_feed (s : jsstring) :
  forallb (fun u => negb (u =? 0x0A)) s = true -> splitLines s = [s].
Proof.
  induction s as [| u s IH]; [reflexivity |].
  cbn [forallb splitLines]. intros H. apply andb_true_iff in H as [Hu Hs].
  apply negb_true_iff in Hu. rewrite Hu, (IH Hs). reflexivity.
Qed.

Section StreamExtras.

Variable JSON_parse : jsstring -> Outcome JsonValue.
Variable streamEndpoint :
  Trace -> jsstring -> FetchInit ChatCompletionBody -> Outcome StreamingResponse.

Lemma streamLine_returns (line : jsstring) (t : Trace) :
  exists ys finished,
    streamLine JSON_parse line t = (ys, Return finished, t)
    /\ Forall yieldable ys
    /\ (finished = true <-> line = doneLine).
Proof.
  unfold streamLine.
  destruct (startsWith (js "data: ") line) eqn:Hprefix.
  - destruct (jsstring_eqb (skipn 6 line) (js "[DONE]")) eqn:Hdone.
    + exists [], true. split; [reflexivity |]. split; [constructor |].
      split; [intros _ | reflexivity].
      apply startsWith_spec in Hprefix as [b ->].
      apply jsstring_eqb_eq in Hdone.
      assert (Hskip : skipn 6 (js "data: " ++ b) = b) by (vm_compute; reflexivity).
      rewrite Hskip in Hdone. subst b. vm_compute. reflexivity.
    + assert (Hne : false = true <-> line = doneLine).
      { split; [discriminate |]. intros ->. rewrite <- Hdone. vm_compute. reflexivity. }
      destruct (JSON_parse (skipn 6 line)) as [parsed | e];
        [| exists [], false; repeat split; try constructor; apply Hne].
      destruct (deltaContent parsed) as [[content |] | e];
        try (exists [], false; repeat split; try constructor; apply Hne).
      destruct (truthy (Some content)) eqn:Hcontent;
        [| exists [], false; repeat split; try constructor; apply Hne].
      exists [content], false. split; [reflexivity |].
      split; [repeat constructor; exact Hcontent | exact Hne].
  - exists [], false. split; [reflexivity |]. split; [constructor |].
    split; [discriminate |]. intros ->. rewrite <- Hprefix. vm_compute. reflexivity.
Qed.

Lemma streamLines_returns (lines : list jsstring) (t : Trace) :
  exists ys finished,
    streamLines JSON_parse lines t = (ys, Return finished, t)
    /\ Forall yieldable ys
    /\ (finished = true <-> In doneLine lines).
Proof.
  induction lines as [| line lines IH].
  - exists [], false. split; [reflexivity |]. split; [constructor |].
    split; [discriminate | contradiction].
  - cbn [streamLines]. unfold gbind.
    destruct (streamLine_returns line t) as (ys & finished & -> & Hys & Hfinished).
    destruct finished.
    + exists (ys ++ []), true. split; [reflexivity |].
      split; [rewrite app_nil_r; exact Hys |].
      split; [intros _ | reflexivity]. left. apply Hfinished. reflexivity.
    + destruct IH as (ys' & finished' & -> & Hys' & Hfinished').
      exists (ys ++ ys'), finished'. split; [reflexivity |].
      split; [apply Forall_app; split; assumption |].
      rewrite Hfinished'. split; [intros H; right; exact H |].
      intros [Heq | Hin]; [| exact Hin].
      apply Hfinished in Heq. discriminate.
Qed.

Lemma streamLines_app (l1 l2 : list jsstring) (t : Trace) :
  streamLines JSON_parse (l1 ++ l2) t
  = match streamLines JSON_parse l1 t with
    | (ys, Return false, t') =>
        match streamLines JSON_parse l2 t' with
        | (ys', o, t'') => (ys ++ ys', o, t'')
        end
    | r => r
    end.
Proof.
  induction l1 as [| line l1 IH].
  - cbn [app]. change (streamLines JSON_parse [] t) with (@nil JsonValue, Return false, t).
    cbv beta iota. destruct (streamLines JSON_parse l2 t) as [[ys' o] t'']. reflexivity.
  - cbn [app streamLines]. unfold gbind.
    destruct (streamLine_returns line t) as (ys & finished & -> & _ & _).
    destruct finished; [reflexivity |].
    rewrite IH.
    destruct (streamLines_returns l1 t) as (ys1 & finished1 & -> & _ & _).
    destruct finished1; [reflexivity |].
    destruct (streamLines JSON_parse l2 t) as [[ys2 o] t2].
    now rewrite app_assoc.
Qed.

Lemma readLoop_returns (reading : Reading) (t : Trace) :
  exists ys o,
    readLoop JSON_parse reading t = (ys, o, t)
    /\ Forall yieldable ys
    /\ (forall e, o = Throw e -> readError reading = Some e).
Proof.
  induction reading as [| e | chunk rest IH].
  - exists [], (Return tt). split; [reflexivity |]. split; [constructor | discriminate].
  - exists [], (Throw e). split; [reflexivity |]. split; [constructor |].
    intros e' H. injection H as <-. reflexivity.
  - cbn [readLoop readError]. unfold gbind.
    destruct (streamLines_returns (splitLines chunk) t)
      as (ys & finished & -> & Hys & _).
    destruct finished.
    + exists (ys ++ []), (Return tt). split; [reflexivity |].
      split; [rewrite app_nil_r; exact Hys | discriminate].
    + destruct IH as (ys' & o & -> & Hys' & Ho).
      exists (ys ++ ys'), o. split; [reflexivity |].
      split; [apply Forall_app; split; assumption | exact Ho].
Qed.

Lemma streamLines_app_eq (l1 l2 : list jsstring) (t : Trace)
    (ys1 ys2 : list JsonValue) (f1 f2 : bool) :
  streamLines JSON_parse l1 t = (ys1, Return f1, t) ->
  streamLines JSON_parse l2 t = (ys2, Return f2, t) ->
  streamLines JSON_parse (l1 ++ l2) t
  = if f1 then (ys1, Return true, t) else (ys1 ++ ys2, Return f2, t).
Proof.
  intros H1 H2. rewrite streamLines_app, H1. destruct f1; [reflexivity |].
  rewrite H2. reflexivity.
Qed.

Lemma readLoop_chunk_eq (chunk : jsstring) (rest : Reading) (t : Trace)
    (ys : list JsonValue) (finished : bool) :
  streamLines JSON_parse (splitLines chunk) t = (ys, Return finished, t) ->
  readLoop JSON_parse (ReadChunk chunk rest) t
  = if finished then (ys, Return tt, t)
    else match readLoop JSON_parse rest t with
         | (ys', o, t') => (ys ++ ys', o, t')
         end.
Proof.
  intros H. cbn [readLoop]. unfold gbind. rewrite H.
  destruct finished; [| reflexivity].
  change (gret tt t) with (@nil JsonValue, Return tt, t). cbv iota.
  now rewrite app_nil_r.
Qed.

(** X18. A line [data: [DONE]] ends the stream: once a chunk holds such a
    line the generator returns normally, and nothing that the reader would
    give afterwards, not even a rejection, changes what was yielded or the
    outcome. *)
Theorem done_line_ends_the_stream (chunk : jsstring) (rest : Reading) (t : Trace) :
  In doneLine (splitLines chunk) ->
  exists ys,
    Forall yieldable ys
    /\ readLoop JSON_parse (ReadChunk chunk rest) t = (ys, Return tt, t)
    /\ forall rest',
         readLoop JSON_parse (ReadChunk chunk rest') t
         = readLoop JSON_parse (ReadChunk chunk rest) t.
Proof.
  intros Hdone. cbn [readLoop]. unfold gbind.
  destruct (streamLines_returns (splitLines chunk) t)
    as (ys & finished & -> & Hys & Hfinished).
  apply Hfinished in Hdone. subst finished.
  exists (ys ++ []). split; [rewrite app_nil_r; exact Hys |].
  split; reflexivity.
Qed.

(** X19. The content of a stream never makes the generator fail: whatever
    the chunks hold and whatever [JSON.parse] does with them, reading a body
    leaves the trace alone, yields truthy values only, and throws only the
    value with which the reader itself rejects. *)
Theorem stream_content_never_throws (reading : Reading) (t : Trace) :
  exists ys o,
    readLoop JSON_parse reading t = (ys, o, t)
    /\ Forall yieldable ys
    /\ (forall e, o = Throw e -> readError reading = Some e)
    /\ (readError reading = None -> o = Return tt).
Proof.
  destruct (readLoop_returns reading t) as (ys & o & Hrun & Hys & Ho).
  exists ys, o. split; [exact Hrun |]. split; [exact Hys |]. split; [exact Ho |].
  intros Hnone. destruct o as [[] | e]; [reflexivity |].
  rewrite (Ho e eq_refl) in Hnone. discriminate.
Qed.

(** X20. Chunks may be cut at line feeds: a chunk with a line feed gives
    the same yields and outcome as its two parts read one after the other,
    whether the line feed is dropped, ends the first part or starts the
    second. *)
Theorem chunks_cut_at_line_feeds (a b : jsstring) (rest : Reading) (t : Trace) :
  readLoop JSON_parse (ReadChunk a (ReadChunk b rest)) t
  = readLoop JSON_parse (ReadChunk (a ++ 0x0A :: b) rest) t
  /\ readLoop JSON_parse (ReadChunk (a ++ [0x0A]) (ReadChunk b rest)) t
     = readLoop JSON_parse (ReadChunk (a ++ 0x0A :: b) rest) t
  /\ readLoop JSON_parse (ReadChunk a (ReadChunk (0x0A :: b) rest)) t
     = readLoop JSON_parse (ReadChunk (a ++ 0x0A :: b) rest) t.
Proof.
  destruct (streamLines_returns (splitLines a) t) as (ys & fa & Ha & _ & _).
  destruct (streamLines_returns (splitLines b) t) as (ys' & fb & Hb & _ & _).
  assert (Hempty : streamLines JSON_parse [[]] t = ([], Return false, t))
    by reflexivity.
  pose proof (streamLines_app_eq _ _ _ _ _ _ _ Ha Hb) as Hab.
  pose proof (streamLines_app_eq _ _ _ _ _ _ _ Ha Hempty) as Ha'.
  assert (Hb' : streamLines JSON_parse (splitLines (0x0A :: b)) t
                = (ys', Return fb, t))
    by exact (streamLines_app_eq [[]] (splitLines b) t [] ys' false fb Hempty Hb).
  assert (Hsplit_a : splitLines (a ++ [0x0A]) = splitLines a ++ [[]])
    by apply splitLines_app.
  rewrite <- (splitLines_app a b) in Hab.
  rewrite <- Hsplit_a in Ha'.
  destruct fa; cbv iota in Hab, Ha';
    rewrite (readLoop_chunk_eq _ rest _ _ _ Hab),
      (readLoop_chunk_eq _ (ReadChunk b rest) _ _ _ Ha),
      (readLoop_chunk_eq _ (ReadChunk (0x0A :: b) rest) _ _ _ Ha),
      (readLoop_chunk_eq _ (ReadChunk b rest) _ _ _ Ha');
    [split; [| split]; reflexivity |].
  rewrite (readLoop_chunk_eq _ rest _ _ _ Hb), (readLoop_chunk_eq _ rest _ _ _ Hb').
  rewrite app_nil_r.
  destruct fb; [split; [| split]; reflexivity |].
  destruct (readLoop JSON_parse rest t) as [[ys'' o] t''].
  rewrite app_assoc. split; [| split]; reflexivity.
Qed.

(** X21. Lines are not reassembled across chunks: when the line
    [data: [DONE]] arrives cut in two, neither part is recognized, the
    stream is read on, and a rejection of the reader that the whole line
    would have prevented is thrown. *)
Theorem done_line_cut_in_two_is_missed (a b : jsstring) (e : Thrown) (t : Trace) :
  a ++ b = doneLine -> a <> [] -> b <> [] ->
  snd (fst (readLoop JSON_parse (ReadChunk a (ReadChunk b (ReadError e))) t)) = Throw e
  /\ snd (fst (readLoop JSON_parse (ReadChunk (a ++ b) (ReadError e)) t)) = Return tt.
Proof.
  intros Hcut Ha Hb.
  assert (Hfeeds : forallb (fun u => negb (u =? 0x0A)) (a ++ b) = true)
    by (rewrite Hcut; vm_compute; reflexivity).
  rewrite forallb_app in Hfeeds. apply andb_true_iff in Hfeeds as [Hfa Hfb].
  assert (Hlen : (List.length a + List.length b = List.length doneLine)%nat)
    by (rewrite <- Hcut; symmetry; apply length_app).
  assert (Hna : a <> doneLine).
  { intros ->. destruct b; [contradiction | cbn [List.length] in Hlen; lia]. }
  assert (Hnb : b <> doneLine).
  { intros ->. destruct a; [contradiction | cbn [List.length] in Hlen; lia]. }
  split.
  - cbn [readLoop]. unfold gbind.
    rewrite (splitLines_without_line_feed a Hfa), (splitLines_without_line_feed b Hfb).
    cbn [streamLines]. unfold gbind.
    destruct (streamLine_returns a t) as (ys & finished & -> & _ & Hfinished).
    destruct finished; [exfalso; apply Hna; now apply Hfinished |].
    change (gret false t) with (@nil JsonValue, Return false, t).
    destruct (streamLine_returns b t) as (ys' & finished' & -> & _ & Hfinished').
    destruct finished'; [exfalso; apply Hnb; now apply Hfinished' |].
    reflexivity.
  - rewrite Hcut.
    cbn [readLoop]. unfold gbind.
    destruct (streamLines_returns (splitLines doneLine) t)
      as (ys & finished & -> & _ & Hfinished).
    assert (Hin : In doneLine (splitLines doneLine)).
    { rewrite splitLines_without_line_feed by (vm_compute; reflexivity).
      left. reflexivity. }
    apply Hfinished in Hin. subst finished. reflexivity.
Qed.

(** X22. The generator asks for a stream whatever the request says: with
    a key it sends exactly one completion request, whose body has
    [stream: true] and the same defaults as [chatCompletion], and no image
    request; without a key it throws the configuration error at once, with
    nothing yielded, sent or logged. *)
Theorem stream_request (this : DoubaoClient) (request : ChatCompletionRequest)
    (t : Trace) :
  exists evs,
    snd (chatCompletionStream JSON_parse streamEndpoint this request t) = evs ++ t
    /\ imageRequests evs = []
    /\ completionRequests evs
       = (if truthyString (apiKey this)
          then [completionRequest this request true]
          else [])
    /\ (truthyString (apiKey this) = false ->
        chatCompletionStream JSON_parse streamEndpoint this request t
        = ([], Throw (ErrorObject (js "豆包API key not configured")), t)).
Proof.
  unfold chatCompletionStream.
  destruct (truthyString (apiKey this)) eqn:Hkey; cbn [negb].
  - unfold gtryCatch, gbind, glift, fetchStream, gthrow, gret. unfold_M.
    destruct (streamEndpoint t _ _) as [response | e].
    + destruct (stream_ok response); cbn [negb].
      * destruct (stream_body response) as [reading |].
        -- destruct (readLoop_returns reading
                       (FetchCompletion (baseURL this ++ js "/chat/completions")
                          (snd (completionRequest this request true)) :: t))
             as (ys & o & Hrun & _ & _).
           unfold completionRequest, bearerHeaders in Hrun. cbn [snd] in Hrun.
           rewrite Hrun.
           destruct o as [[] | e]; cbn [snd].
           ++ exists [FetchCompletion (baseURL this ++ js "/chat/completions")
                        (snd (completionRequest this request true))].
              split; [reflexivity |]. split; [reflexivity |].
              split; [reflexivity | discriminate].
           ++ exists [Console ERROR (js "Error in streaming chat completion:");
                      FetchCompletion (baseURL this ++ js "/chat/completions")
                        (snd (completionRequest this request true))].
              split; [reflexivity |]. split; [reflexivity |].
              split; [reflexivity | discriminate].
        -- cbn [snd].
           exists [Console ERROR (js "Error in streaming chat completion:");
                   FetchCompletion (baseURL this ++ js "/chat/completions")
                     (snd (completionRequest this request true))].
           split; [reflexivity |]. split; [reflexivity |].
           split; [reflexivity | discriminate].
      * destruct (stream_text response) as [errorText | e]; cbn [snd].
        -- exists [Console ERROR (js "Error in streaming chat completion:");
                   Console ERROR (js "豆包API流式错误响应:");
                   FetchCompletion (baseURL this ++ js "/chat/completions")
                     (snd (completionRequest this request true))].
           split; [reflexivity |]. split; [reflexivity |].
           split; [reflexivity | discriminate].
        -- exists [Console ERROR (js "Error in streaming chat completion:");
                   FetchCompletion (baseURL this ++ js "/chat/completions")
                     (snd (completionRequest this request true))].
           split; [reflexivity |]. split; [reflexivity |].
           split; [reflexivity | discriminate].
    + cbn [snd].
      exists [Console ERROR (js "Error in streaming chat completion:");
              FetchCompletion (baseURL this ++ js "/chat/completions")
                (snd (completionRequest this request true))].
      split; [reflexivity |]. split; [reflexivity |].
      split; [reflexivity | discriminate].
  - exists []. split; [reflexivity |]. split; [reflexivity |].
    split; reflexivity.
Qed.

(** X23. A failure of the stream is logged and rethrown, never swallowed
    and never turned into part of the answer: with a key, whenever the
    generator throws, the last thing it did was to log the error; when it
    returns, it logged nothing; and a rejected fetch, a response outside
    200-299 or a response without a body yields nothing and throws. *)
Theorem stream_failure_is_logged_and_rethrown (this : DoubaoClient)
    (request : ChatCompletionRequest) (t : Trace) :
  truthyString (apiKey this) = true ->
  exists ys o evs,
    chatCompletionStream JSON_parse streamEndpoint this request t = (ys, o, evs ++ t)
    /\ Forall yieldable ys
    /\ (forall e, o = Throw e ->
        exists evs',
          evs = Console ERROR (js "Error in streaming chat completion:") :: evs')
    /\ (o = Return tt -> forall level label, ~ In (Console level label) evs)
    /\ (forall e,
          streamEndpoint t (fst (completionRequest this request true))
            (snd (completionRequest this request true)) = Throw e ->
          ys = [] /\ o = Throw e)
    /\ (forall response,
          streamEndpoint t (fst (completionRequest this request true))
            (snd (completionRequest this request true)) = Return response ->
          stream_ok response = false \/ stream_body response = None ->
          ys = [] /\ exists e, o = Throw e).
Proof.
  intros Hkey. unfold chatCompletionStream. rewrite Hkey. cbn [negb].
  unfold completionRequest, bearerHeaders. cbn [fst snd].
  unfold gtryCatch, gbind, glift, fetchStream, gthrow, gret. unfold_M.
  destruct (streamEndpoint t _ _) as [response | e].
  - destruct (stream_ok response) eqn:Hok; cbn [negb].
    + destruct (stream_body response) as [reading |] eqn:Hbody.
      * match goal with
        | |- context [readLoop JSON_parse reading ?t0] =>
            destruct (readLoop_returns reading t0) as (ys & o & -> & Hys & _)
        end.
        destruct o as [[] | e].
        -- eexists (([] ++ []) ++ ys), (Return tt), [_]. split; [reflexivity |].
           split; [exact Hys |]. split; [discriminate |].
           split; [intros _ level label [H | []]; discriminate |].
           split; [discriminate |].
           intros response' H [Hno | Hno]; injection H as <-; congruence.
        -- eexists ((([] ++ []) ++ ys) ++ [] ++ []), (Throw e), [_; _].
           split; [reflexivity |].
           split; [cbn [app]; rewrite app_nil_r; exact Hys |].
           split; [intros e' _; eexists; reflexivity |].
           split; [discriminate |]. split; [discriminate |].
           intros response' H [Hno | Hno]; injection H as <-; congruence.
      * eexists [], (Throw (ErrorObject (js "Response body is not readable"))), [_; _].
        split; [reflexivity |]. split; [constructor |].
        split; [intros e' _; eexists; reflexivity |].
        split; [discriminate |]. split; [discriminate |].
        intros response' _ _. split; [reflexivity | eexists; reflexivity].
    + destruct (stream_text response) as [errorText | e].
      * eexists [], (Throw _), [_; _; _]. split; [reflexivity |].
        split; [constructor |].
        split; [intros e' _; eexists; reflexivity |].
        split; [discriminate |]. split; [discriminate |].
        intros response' _ _. split; [reflexivity | eexists; reflexivity].
      * eexists [], (Throw e), [_; _]. split; [reflexivity |].
        split; [constructor |].
        split; [intros e' _; eexists; reflexivity |].
        split; [discriminate |]. split; [discriminate |].
        intros response' _ _. split; [reflexivity | eexists; reflexivity].
  - eexists [], (Throw e), [_; _]. split; [reflexivity |]. split; [constructor |].
    split; [intros e' _; eexists; reflexivity |].
    split; [discriminate |].
    split; [intros e' H; injection H as <-; split; reflexivity |].
    discriminate.
Qed.

End StreamExtras.

(** X18 at a chunk whose second line ends the stream, before a reader
    that would reject. *)
Lemma done_line_ends_the_stream_before_a_rejection :
  exists ys,
    Forall yieldable ys
    /\ readLoop parseNothing
         (ReadChunk (js "data: {}" ++ 0x0A :: doneLine) (ReadError NonError)) []
       = (ys, Return tt, [])
    /\ forall rest',
         readLoop parseNothing
           (ReadChunk (js "data: {}" ++ 0x0A :: doneLine) rest') []
         = readLoop parseNothing
             (ReadChunk (js "data: {}" ++ 0x0A :: doneLine) (ReadError NonError)) [].
Proof.
  apply (done_line_ends_the_stream parseNothing
           (js "data: {}" ++ 0x0A :: doneLine) (ReadError NonError) []).
  vm_compute. right. left. reflexivity.
Defined.

(** X21 at the cut after [data: ]. *)
Lemma done_line_cut_in_two_is_missed_after_the_prefix :
  snd (fst (readLoop parseNothing
              (ReadChunk (js "data: ") (ReadChunk (js "[DONE]") (ReadError NonError)))
              []))
  = Throw NonError
  /\ snd (fst (readLoop parseNothing
                 (ReadChunk (js "data: " ++ js "[DONE]") (ReadError NonError)) []))
     = Return tt.
Proof.
  apply (done_line_cut_in_two_is_missed parseNothing (js "data: ") (js "[DONE]")
           NonError []);
    [vm_compute; reflexivity | vm_compute; discriminate | vm_compute; discriminate].
Defined.

(** X23 at a service that answers 200 without a body. *)
Lemma stream_failure_is_logged_and_rethrown_without_body :
  exists ys o evs,
    chatCompletionStream parseNothing (streaming None) exampleClient
      (weightLossRequest []) []
    = (ys, o, evs ++ [])
    /\ Forall yieldable ys.
Proof.
  destruct (stream_failure_is_logged_and_rethrown parseNothing (streaming None)
              exampleClient (weightLossRequest []) [] eq_refl)
    as (ys & o & evs & Hrun & Hys & _).
  exists ys, o, evs. split; [exact Hrun | exact Hys].
Defined.

(** ** The image client, further *)

Section ImageExtras.

Variable isPositive : JsonValue -> Outcome bool.
Variable imageEndpoint :
  Trace -> jsstring -> FetchInit ImageGenerationRequest ->
  Outcome (HttpResponse ImageGenerationResponse).

(** X25. [generateFoodImage] reports a failure and passes it on: with a
    key, a run that throws has logged the error (its last line closes the
    error block), a rejected fetch is rethrown as it is, and a status
    outside 200-299 always throws, as does a 2xx response whose body is
    [null]; a run that returns has logged no error and returns truthy
    values only (the [url] fields as the service sent them, which need not
    be strings). *)
Theorem image_failure_is_logged_and_rethrown (this : DoubaoImageClient)
    (foodDescription : jsstring) (t : Trace) :
  truthyString (image_apiKey this) = true ->
  exists o evs,
    generateFoodImage isPositive imageEndpoint this foodDescription t = (o, evs ++ t)
    /\ (forall e, o = Throw e ->
        exists evs',
          evs = Console ERROR (js "========================") :: evs'
          /\ In (Console ERROR (js "Error generating food image:")) evs')
    /\ (forall urls, o = Return urls ->
        (forall label, ~ In (Console ERROR label) evs)
        /\ Forall (fun u => truthyValue u = true) urls)
    /\ (forall e,
          imageEndpoint (requestLog ++ t) (fst (foodImageRequest this foodDescription))
            (snd (foodImageRequest this foodDescription)) = Throw e ->
          o = Throw e)
    /\ (forall response,
          imageEndpoint (requestLog ++ t) (fst (foodImageRequest this foodDescription))
            (snd (foodImageRequest this foodDescription)) = Return response ->
          ok response = false \/ json response = Return JNull ->
          exists e, o = Throw e).
Proof.
  intros Hkey. unfold generateFoodImage. rewrite Hkey. cbn [negb].
  unfold foodImageRequest, bearerHeaders. cbn [fst snd]. unfold_M.
  unfold requestLog. cbn [app].
  destruct (imageEndpoint _ _ _) as [response | e] eqn:Hanswer.
  - destruct (ok response) eqn:Hok; cbn [negb].
    + destruct (json response) as [body | e] eqn:Hjson.
      * destruct (collectUrls isPositive body) as [urls | e] eqn:Hurls.
        -- eexists (Return _), (_ :: _ :: _ :: _ :: _ :: _ :: _ :: _ :: [_]).
           split; [reflexivity |].
           split; [discriminate |].
           split.
           { intros found H. injection H as <-.
             split; [| exact (collectUrls_truthy isPositive body urls Hurls)].
             intros label Hin. cbn [In] in Hin.
             repeat (destruct Hin as [Hin | Hin]; [discriminate |]). exact Hin. }
           split; [intros e' H; congruence |].
           intros response' H [Hno | Hnull]; injection H as <-; [congruence |].
           rewrite Hjson in Hnull. injection Hnull as ->. discriminate.
        -- destruct e as [message |].
           ++ eexists (Throw _), (_ :: _ :: _ :: _ :: _ :: _ :: _ :: _ :: _ :: [_]).
              split; [reflexivity |].
              split; [intros e' _; eexists; split; [reflexivity | cbn; tauto] |].
              split; [discriminate |].
              split; [intros e' H; congruence |].
              intros response' _ _. eexists. reflexivity.
           ++ eexists (Throw _), (_ :: _ :: _ :: _ :: _ :: _ :: _ :: _ :: [_]).
              split; [reflexivity |].
              split; [intros e' _; eexists; split; [reflexivity | cbn; tauto] |].
              split; [discriminate |].
              split; [intros e' H; congruence |].
              intros response' _ _. eexists. reflexivity.
      * destruct e as [message |].
        -- eexists (Throw _), (_ :: _ :: _ :: _ :: _ :: _ :: _ :: _ :: _ :: [_]).
           split; [reflexivity |].
           split; [intros e' _; eexists; split; [reflexivity | cbn; tauto] |].
           split; [discriminate |].
           split; [intros e' H; congruence |].
           intros response' _ _. eexists. reflexivity.
        -- eexists (Throw _), (_ :: _ :: _ :: _ :: _ :: _ :: _ :: _ :: [_]).
           split; [reflexivity |].
           split; [intros e' _; eexists; split; [reflexivity | cbn; tauto] |].
           split; [discriminate |].
           split; [intros e' H; congruence |].
           intros response' _ _. eexists. reflexivity.
    + destruct (text response) as [errorText | e]; [| destruct e as [message |]].
      * eexists (Throw _),
          (_ :: _ :: _ :: _ :: _ :: _ :: _ :: _ :: _ :: _ :: [_]).
        split; [reflexivity |].
        split; [intros e' _; eexists; split; [reflexivity | cbn; tauto] |].
        split; [discriminate |].
        split; [intros e' H; congruence |].
        intros response' _ _. eexists. reflexivity.
      * eexists (Throw _), (_ :: _ :: _ :: _ :: _ :: _ :: _ :: _ :: _ :: [_]).
        split; [reflexivity |].
        split; [intros e' _; eexists; split; [reflexivity | cbn; tauto] |].
        split; [discriminate |].
        split; [intros e' H; congruence |].
        intros response' _ _. eexists. reflexivity.
      * eexists (Throw _), (_ :: _ :: _ :: _ :: _ :: _ :: _ :: _ :: [_]).
        split; [reflexivity |].
        split; [intros e' _; eexists; split; [reflexivity | cbn; tauto] |].
        split; [discriminate |].
        split; [intros e' H; congruence |].
        intros response' _ _. eexists. reflexivity.
  - destruct e as [message |].
    + eexists (Throw _), (_ :: _ :: _ :: _ :: _ :: _ :: _ :: _ :: _ :: [_]).
      split; [reflexivity |].
      split; [intros e' _; eexists; split; [reflexivity | cbn; tauto] |].
      split; [discriminate |].
      split; [intros e' H; congruence |].
      intros response' H. congruence.
    + eexists (Throw _), (_ :: _ :: _ :: _ :: _ :: _ :: _ :: _ :: [_]).
      split; [reflexivity |].
      split; [intros e' _; eexists; split; [reflexivity | cbn; tauto] |].
      split; [discriminate |].
      split; [intros e' H; congruence |].
      intros response' H. congruence.
Qed.

End ImageExtras.

(** X25 at a service that cannot be reached. *)
Lemma image_failure_is_logged_and_rethrown_unreachable :
  exists evs,
    generateFoodImage neverPositive unreachable exampleImageClient (js "pizza") []
    = (Throw (ErrorObject (js "fetch failed")), evs ++ []).
Proof.
  destruct (image_failure_is_logged_and_rethrown neverPositive unreachable
              exampleImageClient (js "pizza") [] eq_refl)
    as (o & evs & Hrun & _ & _ & Hrejected & _).
  exists evs. rewrite Hrun. now rewrite (Hrejected _ eq_refl).
Defined.
